(** * A shallow embedding of [scrape.py], the CS224W course scraper

    The script fetches the schedule page of the course, and for every row of
    the schedule table mirrors the linked slides, readings and homework into
    [course/<slug>/{slides,reading,homework}/].

    Conventions of the embedding.
    - Python [str] values are Rocq strings over ASCII; the character classes
      ([\d], [\s], [\w], [str.strip], [str.lower]) are Python's on the ASCII
      range.  [bytes] written to disk are the UTF-8 encoding of such text,
      that is the same string.
    - A [pathlib] path is its root and its list of components, compared as
      [pathlib] compares paths: component by component ([pathlib] of
      Python 3.12, the first version that accepts the script's syntax).
      Components [..] and symbolic links are not resolved.
    - The file system is a finite map from paths to nodes; its operations
      succeed (no permission errors, no clash between a file and a directory
      of the same name).
    - A coroutine is a state-passing computation over the file system and the
      log of observable events; [await c] runs [c] to completion before the
      awaiting coroutine goes on, which is sequential composition.  The rows,
      which [main] runs together, take turns step by step (module [Job]).
    - The HTTP client is a function from URLs to responses; [urljoin] and the
      HTML parser belong to libraries and are taken as data: a row is the
      list of its cells, a cell is its text and the [href]s of its anchors. *)

From Stdlib Require Import Ascii String List Arith Lia Bool DecimalString.
From Stdlib Require DecimalFacts DecimalNat.
From stdpp Require Import base option gmap strings list.

Local Open Scope string_scope.
Local Open Scope list_scope.
Local Open Scope nat_scope.

(** ** Characters *)

Module Char.

Definition code (c : ascii) : nat := nat_of_ascii c.

Definition newline : ascii := ascii_of_nat 10.

(** [str.isspace] and the regex class [\s] on ASCII:
    TAB, LF, VT, FF, CR, the separators 0x1c-0x1f and the space. *)
Definition is_space (c : ascii) : bool :=
  let n := code c in
  ((9 <=? n) && (n <=? 13)) || ((28 <=? n) && (n <=? 31)) || (n =? 32).

(** The regex class [\d] on ASCII. *)
Definition is_digit (c : ascii) : bool :=
  let n := code c in (48 <=? n) && (n <=? 57).

Definition is_upper (c : ascii) : bool :=
  let n := code c in (65 <=? n) && (n <=? 90).

Definition is_lower (c : ascii) : bool :=
  let n := code c in (97 <=? n) && (n <=? 122).

Definition is_alpha (c : ascii) : bool := is_upper c || is_lower c.

(** The regex class [\w] on ASCII: letters, digits and the underscore. *)
Definition is_word (c : ascii) : bool :=
  is_alpha c || is_digit c || (code c =? 95).

(** The class [[\w-]] of [GID_PAT]. *)
Definition is_gid_char (c : ascii) : bool :=
  is_word c || (code c =? 45).

Definition lower (c : ascii) : ascii :=
  if is_upper c then ascii_of_nat (code c + 32) else c.

Definition eqb (a b : ascii) : bool := Ascii.eqb a b.

End Char.

(** ** The string operations of the script *)

Module Str.

Fixpoint map (f : ascii -> ascii) (s : string) : string :=
  match s with
  | EmptyString => EmptyString
  | String c s' => String (f c) (map f s')
  end.

Fixpoint all (p : ascii -> bool) (s : string) : bool :=
  match s with
  | EmptyString => true
  | String c s' => p c && all p s'
  end.

(** [s.replace(a, b)] for one-character [a] and [b]. *)
Definition replace (a b : ascii) (s : string) : string :=
  map (fun c => if Char.eqb c a then b else c) s.

(** [s.lower()] *)
Definition lower (s : string) : string := map Char.lower s.

Fixpoint lstrip (s : string) : string :=
  match s with
  | EmptyString => EmptyString
  | String c s' => if Char.is_space c then lstrip s' else s
  end.

(** [rstrip] keeps a character when it is not a space or when something is
    kept after it. *)
Fixpoint rstrip (s : string) : string :=
  match s with
  | EmptyString => EmptyString
  | String c s' =>
      match rstrip s' with
      | EmptyString => if Char.is_space c then EmptyString else String c EmptyString
      | r => String c r
      end
  end.

(** [s.strip()] *)
Definition strip (s : string) : string := rstrip (lstrip s).

(** The longest prefix of characters of a class, and what follows it. *)
Fixpoint span (p : ascii -> bool) (s : string) : string * string :=
  match s with
  | EmptyString => (EmptyString, EmptyString)
  | String c s' =>
      if p c then let '(a, b) := span p s' in (String c a, b)
      else (EmptyString, s)
  end.

Fixpoint prefixb (p s : string) : bool :=
  match p, s with
  | EmptyString, _ => true
  | String a p', String b s' => Char.eqb a b && prefixb p' s'
  | String _ _, EmptyString => false
  end.

(** [needle in s] *)
Fixpoint contains (needle s : string) : bool :=
  prefixb needle s ||
  match s with
  | EmptyString => false
  | String _ s' => contains needle s'
  end.

(** [str(n)] of a non-negative integer. *)
Definition of_nat (n : nat) : string := NilZero.string_of_uint (Nat.to_uint n).

End Str.

(** ** The regular expressions of the script *)

Module Re.

(** [re.sub(r'^(\d+)\.\s*', r'\1-', s)].  The pattern is anchored at the
    start of the string, so there is at most one match: the longest run of
    digits, which has to be non-empty and followed by a dot, and then all
    the white space after the dot.  A shorter run of digits is followed by a
    digit, so backtracking finds no other match. *)
Definition sub_ordinal (s : string) : string :=
  match Str.span Char.is_digit s with
  | (EmptyString, _) => s
  | (digits, String c rest) =>
      if Char.eqb c "."%char
      then digits +:+ "-" +:+ snd (Str.span Char.is_space rest)
      else s
  | (_, EmptyString) => s
  end.

(** Does a match of [.*?]] start here: is there a "]" before any newline
    (the dot does not match a newline) and before the end of the string? *)
Fixpoint closes (s : string) : bool :=
  match s with
  | EmptyString => false
  | String c s' =>
      if Char.eqb c "]"%char then true
      else if Char.eqb c Char.newline then false
      else closes s'
  end.

(** [re.sub(r'\[.*?]', '', s)]: scanning from the left, a "[" that is closed
    on its line is removed together with everything up to the first "]"
    after it (the quantifier is lazy); the scan goes on after that "]".
    [inside] tells that the scan is between such a "[" and its "]". *)
Fixpoint sub_brackets_from (inside : bool) (s : string) : string :=
  match s with
  | EmptyString => EmptyString
  | String c s' =>
      if inside then
        sub_brackets_from (negb (Char.eqb c "]"%char)) s'
      else if Char.eqb c "["%char && closes s' then
        sub_brackets_from true s'
      else String c (sub_brackets_from false s')
  end.

Definition sub_brackets (s : string) : string := sub_brackets_from false s.

(** [re.compile(r"[\w-]{26,}").findall(s)]: the quantifier is greedy, so the
    matches are the maximal runs of characters of the class that have at
    least 26 characters.  [run] is the run being read, in reverse. *)
Definition flush (run : list ascii) : list string :=
  if 26 <=? length run then [string_of_list_ascii (rev run)] else [].

Fixpoint findall_from (run : list ascii) (s : string) : list string :=
  match s with
  | EmptyString => flush run
  | String c s' =>
      if Char.is_gid_char c then findall_from (c :: run) s'
      else flush run ++ findall_from [] s'
  end.

Definition findall (s : string) : list string := findall_from [] s.

End Re.

(** ** Constants *)

Definition BASE_URL : string := "https://snap.stanford.edu/class/cs224w-2023/".

Definition GID_PAT : string -> list string := Re.findall.

(** ** Slug derivation (lines 81-83 of [process_row]) *)

Definition slug (description : string) : string :=
  let description := Re.sub_ordinal description in
  let description := Re.sub_brackets description in
  Str.lower
    (Str.replace " " "_"
       (Str.replace "/" "-"
          (Str.strip (Str.replace Char.newline " " description)))).

Definition nl : string := String Char.newline EmptyString.

Definition description_example : string :=
  "3. Traditional Methods [video]" +:+ nl +:+ "for ML on Graphs".

(** ** [pathlib] paths *)

(** A path is its root ([""], ["/"] or ["//"]) and its components. *)
Record Path := MkPath { root : string; components : list string }.

Global Instance Path_eq_dec : EqDecision Path.
Proof. solve_decision. Defined.

Global Instance Path_countable : Countable Path.
Proof.
  refine (inj_countable' (fun p => (root p, components p))
                         (fun t => MkPath (fst t) (snd t)) _).
  intros []; reflexivity.
Defined.

Module Pathlib.

(** [s.split(sep)] *)
Fixpoint split (sep : ascii) (s : string) : list string :=
  match s with
  | EmptyString => [EmptyString]
  | String c s' =>
      if Char.eqb c sep then EmptyString :: split sep s'
      else match split sep s' with
           | h :: t => String c h :: t
           | [] => [String c EmptyString]
           end
  end.

Definition is_component (x : string) : bool :=
  negb (String.eqb x "") && negb (String.eqb x ".").

(** The root of a POSIX path string: exactly two leading slashes are kept,
    any other number of them is one slash. *)
Definition splitroot (s : string) : string :=
  if Str.prefixb "/" s then
    if Str.prefixb "//" s && negb (Str.prefixb "///" s) then "//" else "/"
  else "".

(** [Path(s)]: empty components and "." are dropped. *)
Definition parse (s : string) : Path :=
  MkPath (splitroot s) (List.filter is_component (split "/" s)).

(** [p.name] *)
Definition name (p : Path) : string := List.last (components p) "".

(** The split of a name at its last dot, the dot going to the right. *)
Fixpoint rpartition_dot (s : string) : option (string * string) :=
  match s with
  | EmptyString => None
  | String c s' =>
      match rpartition_dot s' with
      | Some (a, b) => Some (String c a, b)
      | None => if Char.eqb c "."%char then Some (EmptyString, s) else None
      end
  end.

(** The stem and the suffix of a name: the suffix starts at the last dot
    when that dot is neither the first nor the last character. *)
Definition splitext (n : string) : string * string :=
  match rpartition_dot n with
  | Some (a, b) =>
      if negb (String.eqb a "") && negb (String.eqb b ".") then (a, b)
      else (n, "")
  | None => (n, "")
  end.

(** [p.suffix] *)
Definition suffix (p : Path) : string := snd (splitext (name p)).

(** [p.with_suffix(ext)] for a well-formed [ext]; [None] is the
    [ValueError] raised for a path with an empty name. *)
Definition with_suffix (p : Path) (ext : string) : option Path :=
  if String.eqb (name p) "" then None
  else Some (MkPath (root p)
               (List.removelast (components p) ++ [fst (splitext (name p)) +:+ ext])).

(** [p.parent]; a path without components is its own parent. *)
Definition parent (p : Path) : Path :=
  MkPath (root p) (List.removelast (components p)).

(** [p / q] for a path [q]: an absolute [q] replaces [p]. *)
Definition joinpath (p q : Path) : Path :=
  if String.eqb (root q) "" then MkPath (root p) (components p ++ components q) else q.

(** [p / s] for a string [s] *)
Definition join (p : Path) (s : string) : Path := joinpath p (parse s).

(** [str(p)] *)
Definition str (p : Path) : string :=
  match root p, components p with
  | EmptyString, [] => "."
  | r, t => r +:+ String.concat "/" t
  end.

End Pathlib.

(** ** [urllib.parse] *)

Module Url.

Definition is_scheme_char (c : ascii) : bool :=
  Char.is_alpha c || Char.is_digit c
  || Char.eqb c "+"%char || Char.eqb c "-"%char || Char.eqb c "."%char.

Definition is_c0_or_space (c : ascii) : bool := Char.code c <=? 32.

Definition is_unsafe (c : ascii) : bool :=
  (Char.code c =? 9) || (Char.code c =? 13) || (Char.code c =? 10).

Fixpoint remove (p : ascii -> bool) (s : string) : string :=
  match s with
  | EmptyString => EmptyString
  | String c s' => if p c then remove p s' else String c (remove p s')
  end.

Fixpoint lstrip (p : ascii -> bool) (s : string) : string :=
  match s with
  | EmptyString => EmptyString
  | String c s' => if p c then lstrip p s' else s
  end.

(** The text before and after the first character of a class; the second
    component starts with that character, and is empty when there is none. *)
Fixpoint break (p : ascii -> bool) (s : string) : string * string :=
  match s with
  | EmptyString => (EmptyString, EmptyString)
  | String c s' =>
      if p c then (EmptyString, s)
      else let '(a, b) := break p s' in (String c a, b)
  end.

(** The URL without its scheme, when it has one. *)
Definition drop_scheme (url : string) : string :=
  match break (fun c => Char.eqb c ":"%char) url with
  | (String c0 before, String _ after) =>
      if Char.is_alpha c0 && Str.all is_scheme_char (String c0 before)
      then after else url
  | _ => url
  end.

Definition is_netloc_end (c : ascii) : bool :=
  Char.eqb c "/"%char || Char.eqb c "?"%char || Char.eqb c "#"%char.

(** The URL without its network location, when it has one. *)
Definition drop_netloc (url : string) : string :=
  match url with
  | String "/" (String "/" rest) => snd (break is_netloc_end rest)
  | _ => url
  end.

(** [urlsplit(url).path], for a URL whose network location is accepted by
    [urlsplit]. *)
Definition urlsplit_path (url : string) : string :=
  let url := lstrip is_c0_or_space url in
  let url := remove is_unsafe url in
  let url := drop_netloc (drop_scheme url) in
  let url := fst (break (fun c => Char.eqb c "#"%char) url) in
  fst (break (fun c => Char.eqb c "?"%char) url).

End Url.

(** ** The world: file system, network, console *)

Inductive node := Dir | File (content : string).

Global Instance node_eq_dec : EqDecision node.
Proof. solve_decision. Defined.

(** What a run lets an observer see, in order: the lines printed, the
    requests sent and the files written. *)
Inductive event :=
| Printed (line : string)
| Requested (url : string)
| Wrote (dest : Path) (content : string).

Global Instance event_eq_dec : EqDecision event.
Proof. solve_decision. Defined.

Record world := World { fs : gmap Path node; log : list event }.

(** The final response of [client.get(url, follow_redirects=True)], or the
    transport-level failure raised in its place. *)
Inductive response :=
| Response (status_code : nat) (content : string)
| ConnectError.

Definition Client := string -> response.

(** [response.is_success], tested by [raise_for_status] *)
Definition is_success (status_code : nat) : bool :=
  (200 <=? status_code) && (status_code <=? 299).

Inductive exn := TransportError | ValueError.

Inductive outcome (A : Type) :=
| Return (a : A)
| Raise (e : exn).
Arguments Return {A} a.
Arguments Raise {A} e.

(** A coroutine: from a world to an outcome and the world it leaves. *)
Definition M (A : Type) : Type := world -> outcome A * world.

Global Instance M_ret : MRet M := fun A a w => (Return a, w).

Global Instance M_bind : MBind M := fun A B f m w =>
  match m w with
  | (Return a, w') => f a w'
  | (Raise e, w') => (Raise e, w')
  end.

Definition raise {A} (e : exn) : M A := fun w => (Raise e, w).

Definition emit (e : event) : M unit :=
  fun w => (Return tt, World (fs w) (log w ++ [e])).

Definition print (line : string) : M unit := emit (Printed line).

Definition get_fs : M (gmap Path node) := fun w => (Return (fs w), w).

Definition set_fs (f : gmap Path node -> gmap Path node) : M unit :=
  fun w => (Return tt, World (f (fs w)) (log w)).

Module Fs.

(** [os.mkdir] of one path, keeping what is already there. *)
Definition mkdir1 (p : Path) (m : gmap Path node) : gmap Path node :=
  match m !! p with
  | Some _ => m
  | None => <[p := Dir]> m
  end.

(** The path itself and its ancestors that have a name, outermost first. *)
Definition chain (p : Path) : list Path :=
  List.map (fun k => MkPath (root p) (List.firstn (S k) (components p)))
           (List.seq 0 (length (components p))).

(** [p.mkdir(parents=True, exist_ok=True)] *)
Definition mkdir (p : Path) (m : gmap Path node) : gmap Path node :=
  List.fold_left (fun m q => mkdir1 q m) (chain p) m.

(** [p.exists()] *)
Definition exists_ (m : gmap Path node) (p : Path) : bool :=
  bool_decide (is_Some (m !! p)).

(** [q] is an entry of the directory [d]. *)
Definition is_entry (d q : Path) : bool :=
  bool_decide (components q <> [] /\ Pathlib.parent q = d).

(** [list(d.iterdir())], in no particular order *)
Definition iterdir (m : gmap Path node) (d : Path) : list Path :=
  List.filter (is_entry d) (List.map fst (map_to_list m)).

(** [p.rmdir()] *)
Definition rmdir (p : Path) (m : gmap Path node) : gmap Path node :=
  delete p m.

(** [open(p, 'wb')] followed by [write(content)] *)
Definition write (p : Path) (content : string) (m : gmap Path node)
  : gmap Path node :=
  <[p := File content]> m.

End Fs.

(** ** [find_root] *)

(** [fuel] bounds the depth of the recursion; [None] is a recursion that has
    not returned within it. *)
Fixpoint find_root (fuel : nat) (m : gmap Path node) (root : Path)
  : option Path :=
  match fuel with
  | O => None
  | S fuel' =>
      if Fs.exists_ m (Pathlib.join root "pyproject.toml") then Some root
      else find_root fuel' m (Pathlib.parent root)
  end.

(** ** [download_file] *)

Definition visit_webpage (url : string) : string :=
  "#VISIT WEBPAGE:" +:+ nl +:+ nl +:+ "[" +:+ url +:+ "](" +:+ url +:+ ")".

Definition invalid_link (url : string) : string :=
  "#INVALID LINK / VISIT DIRECTLY:" +:+ nl +:+ nl
  +:+ "[" +:+ url +:+ "](" +:+ url +:+ ")".

Definition with_suffix (p : Path) (ext : string) : M Path :=
  match Pathlib.with_suffix p ext with
  | Some q => mret q
  | None => raise ValueError
  end.

Definition write_file (dest_path : Path) (content : string) : M unit :=
  set_fs (Fs.write dest_path content) ;; emit (Wrote dest_path content).

Definition download_file (client : Client) (url : string) (dest_path : Path)
  : M unit :=
  print (url +:+ " --> " +:+ Pathlib.str dest_path) ;;
  set_fs (Fs.mkdir (Pathlib.parent dest_path)) ;;
  '(content, dest_path) ←
    (if String.eqb (Pathlib.suffix dest_path) ".html" then
       let content := visit_webpage url in
       dest_path ← with_suffix dest_path ".md" ;
       mret (content, dest_path)
     else
       emit (Requested url) ;;
       match client url with
       | ConnectError => raise TransportError
       | Response status_code body =>
           if is_success status_code then mret (body, dest_path)
           else
             let content := invalid_link url in
             dest_path ← with_suffix dest_path ".md" ;
             mret (content, dest_path)
       end) ;
  write_file dest_path content.

(** ** [bulk_download] *)

(** A download directive: an anchor of the page, through its [href], or an
    explicit pair of a URL and a file name. *)
Inductive link :=
| Tag (href : string)
| Pair (url name : string).

Section Scraper.

(** [urllib.parse.urljoin] *)
Variable urljoin : string -> string -> string.

Definition download_link (client : Client) (to : Path) (l : link) : M unit :=
  m ← get_fs ;
  (if negb (Fs.exists_ m to) then set_fs (Fs.mkdir to) else mret tt) ;;
  match l with
  | Pair url name => download_file client url (Pathlib.join to name)
  | Tag href =>
      let url := urljoin BASE_URL href in
      let name := Pathlib.name (Pathlib.parse url) in
      let name :=
        if negb (String.eqb (Pathlib.suffix (Pathlib.parse url)) "") then name
        else Pathlib.name (Pathlib.parse (Url.urlsplit_path url)) +:+ ".html" in
      download_file client url (Pathlib.join to name)
  end.

Fixpoint bulk_download (links : list link) (to : Path) (client : Client)
  : M unit :=
  match links with
  | [] => mret tt
  | l :: links' =>
      download_link client to l ;; bulk_download links' to client
  end.

(** ** [process_row] *)

(** A table cell, as the script reads it: [get_text(strip=True)] and the
    [href]s of [find_all('a', href=True)], in document order. *)
Record Cell := MkCell { get_text : string; hrefs : list string }.

Definition colab_marker : string := "colab.research.google.com".

Definition colab_url (gid : string) : string :=
  "https://docs.google.com/uc?export=download&id=" +:+ gid.

Definition colab_name (colabs : nat) : string :=
  "CS224W_Colab_" +:+ Str.of_nat colabs +:+ ".ipynb".

(** The loop over the links of the homework cell; [hw_links] and [colabs]
    are the two variables it updates. *)
Fixpoint scan_events (event_links : list string)
    (hw_links : list link) (colabs : nat) : M (list link * nat) :=
  match event_links with
  | [] => mret (hw_links, colabs)
  | event_url :: rest =>
      if Str.contains colab_marker event_url then
        match GID_PAT event_url with
        | [gid] =>
            let event_url := colab_url gid in
            let event_name := colab_name colabs in
            scan_events rest (hw_links ++ [Pair event_url event_name])
                        (colabs + 1)
        | _ =>
            print ("Invalid download link: " +:+ event_url) ;;
            scan_events rest hw_links colabs
        end
      else scan_events rest (hw_links ++ [Tag event_url]) colabs
  end.

Definition cell_links (cells : list Cell) (i : nat) : list string :=
  match List.nth_error cells i with
  | Some c => hrefs c
  | None => []
  end.

Definition row_directory (outdir : Path) (cells : list Cell) : Path :=
  let description := get_text (List.nth 1 cells (MkCell "" [])) in
  Pathlib.joinpath (Pathlib.join outdir "course")
                   (Pathlib.parse (slug description)).

Definition process_row (cells : list Cell) (outdir : Path) (client : Client)
  : M unit :=
  if length cells <? 2 then mret tt
  else
    let directory := row_directory outdir cells in
    set_fs (Fs.mkdir directory) ;;
    print (Pathlib.str directory) ;;
    let slides_dir := Pathlib.join directory "slides" in
    let slides_links := List.map Tag (cell_links cells 1) in
    bulk_download slides_links slides_dir client ;;
    let reading_dir := Pathlib.join directory "reading" in
    let reading_links := List.map Tag (cell_links cells 2) in
    bulk_download reading_links reading_dir client ;;
    let homework_dir := Pathlib.join directory "homework" in
    let event_links := cell_links cells 3 in
    '(hw_links, _) ← scan_events event_links [] 0 ;
    bulk_download hw_links homework_dir client ;;
    m ← get_fs ;
    match Fs.iterdir m directory with
    | [] => set_fs (Fs.rmdir directory)
    | _ :: _ => mret tt
    end.

End Scraper.

(** ** Notions used to state and prove the properties *)

Module SlugDefs.

(** What the last four steps of the derivation leave in a slug: no newline,
    no space, no slash, no capital letter. *)
Definition settled (c : ascii) : bool :=
  negb (Char.eqb c Char.newline) && negb (Char.eqb c " "%char)
  && negb (Char.eqb c "/"%char) && Char.eqb (Char.lower c) c.

Definition not_nl (c : ascii) : bool := negb (Char.eqb c Char.newline).

Definition not_nl_slash (c : ascii) : bool :=
  not_nl c && negb (Char.eqb c "/"%char).

Definition not_nl_slash_space (c : ascii) : bool :=
  not_nl_slash c && negb (Char.eqb c " "%char).

Definition hd_ok (s : string) : Prop :=
  match s with
  | EmptyString => True
  | String c _ => Char.is_space c = false
  end.

(** A string without white space at either end. *)
Definition stripped (s : string) : Prop := hd_ok s /\ Str.rstrip s = s.

(** The tail of the derivation, after the two substitutions. *)
Definition finish (s : string) : string :=
  Str.lower
    (Str.replace " " "_"
       (Str.replace "/" "-" (Str.strip (Str.replace Char.newline " " s)))).

End SlugDefs.

Module ScanDefs.

(** A homework link that is rewritten: it has the notebook marker and the
    pattern finds exactly one id in it. *)
Definition is_notebook (event_url : string) : bool :=
  Str.contains colab_marker event_url
  && (length (GID_PAT event_url) =? 1).

(** The directives the loop adds for some links, the counter being [colabs]
    when it reaches them. *)
Fixpoint rewritten (event_links : list string) (colabs : nat) : list link :=
  match event_links with
  | [] => []
  | event_url :: rest =>
      if Str.contains colab_marker event_url then
        match GID_PAT event_url with
        | [gid] => Pair (colab_url gid) (colab_name colabs)
                   :: rewritten rest (colabs + 1)
        | _ => rewritten rest colabs
        end
      else Tag event_url :: rewritten rest colabs
  end.

(** The lines the loop prints for some links. *)
Fixpoint anomalies (event_links : list string) : list event :=
  match event_links with
  | [] => []
  | event_url :: rest =>
      (if Str.contains colab_marker event_url
          && negb (length (GID_PAT event_url) =? 1)
       then [Printed ("Invalid download link: " +:+ event_url)] else [])
      ++ anomalies rest
  end.

End ScanDefs.

Module RootDefs.

(** The directory [p] holds the project marker. *)
Definition has_marker (m : gmap Path node) (p : Path) : bool :=
  Fs.exists_ m (Pathlib.join p "pyproject.toml").

(** The [k]-th ancestor of a path, the path itself for 0. *)
Definition ancestor (k : nat) (p : Path) : Path :=
  Nat.iter k Pathlib.parent p.

End RootDefs.

Module PlanDefs.

(** What [download_file] does besides creating the parent directory: the
    events before the write, and then the file to write with its content, or
    the exception raised instead. *)
Definition file_plan (client : Client) (url : string) (dest_path : Path)
  : list event * outcome (Path * string) :=
  let line := Printed (url +:+ " --> " +:+ Pathlib.str dest_path) in
  if String.eqb (Pathlib.suffix dest_path) ".html" then
    match Pathlib.with_suffix dest_path ".md" with
    | Some stub => ([line], Return (stub, visit_webpage url))
    | None => ([line], Raise ValueError)
    end
  else
    match client url with
    | ConnectError => ([line; Requested url], Raise TransportError)
    | Response status_code body =>
        if is_success status_code
        then ([line; Requested url], Return (dest_path, body))
        else
          match Pathlib.with_suffix dest_path ".md" with
          | Some stub => ([line; Requested url], Return (stub, invalid_link url))
          | None => ([line; Requested url], Raise ValueError)
          end
    end.

(** The events of a plan that is carried out. *)
Definition plan_events (p : list event * outcome (Path * string))
  : list event :=
  match p with
  | (evs, Return (q, c)) => evs ++ [Wrote q c]
  | (evs, Raise _) => evs
  end.

Definition plan_ok (p : list event * outcome (Path * string)) : bool :=
  match p with
  | (_, Return _) => true
  | (_, Raise _) => false
  end.

Section Links.

Variable urljoin : string -> string -> string.

Definition link_url (l : link) : string :=
  match l with
  | Pair url _ => url
  | Tag href => urljoin BASE_URL href
  end.

(** The file name [bulk_download] gives to a directive. *)
Definition link_name (l : link) : string :=
  match l with
  | Pair _ name => name
  | Tag href =>
      let url := urljoin BASE_URL href in
      if negb (String.eqb (Pathlib.suffix (Pathlib.parse url)) "")
      then Pathlib.name (Pathlib.parse url)
      else Pathlib.name (Pathlib.parse (Url.urlsplit_path url)) +:+ ".html"
  end.

Definition link_plan (client : Client) (to : Path) (l : link)
  : list event * outcome (Path * string) :=
  file_plan client (link_url l) (Pathlib.join to (link_name l)).

(** The events of a bucket: those of its directives, one directive after
    the other, up to the first that raises. *)
Fixpoint bucket_trace (client : Client) (to : Path) (links : list link)
  : list event :=
  match links with
  | [] => []
  | l :: links' =>
      plan_events (link_plan client to l)
      ++ (if plan_ok (link_plan client to l)
          then bucket_trace client to links' else [])
  end.

(** The events of one directive. *)
Definition directive_events (client : Client) (to : Path) (l : link)
  : list event :=
  plan_events (link_plan client to l).

(** The file system after a directive: the bucket directory is made when it
    is missing, the parent of the destination is made, and the file of the
    plan is written. *)
Definition link_fs (client : Client) (to : Path) (l : link)
    (m : gmap Path node) : gmap Path node :=
  let m := if Fs.exists_ m to then m else Fs.mkdir to m in
  let m := Fs.mkdir (Pathlib.parent (Pathlib.join to (link_name l))) m in
  match snd (link_plan client to l) with
  | Return (q, c) => Fs.write q c m
  | Raise _ => m
  end.

Definition plan_outcome (p : list event * outcome (Path * string))
  : outcome unit :=
  match snd p with
  | Return _ => Return tt
  | Raise e => Raise e
  end.

(** The outcome of a bucket and the file system it leaves. *)
Fixpoint bucket_result (client : Client) (to : Path) (links : list link)
    (m : gmap Path node) : outcome unit * gmap Path node :=
  match links with
  | [] => (Return tt, m)
  | l :: links' =>
      match plan_outcome (link_plan client to l) with
      | Return _ => bucket_result client to links' (link_fs client to l m)
      | Raise e => (Raise e, link_fs client to l m)
      end
  end.

End Links.

End PlanDefs.

(** ** Rows run together

    [main] runs the rows with [asyncio.gather]: every row is a task, and the
    tasks take turns.  A row is cut into steps, and the rows advance one
    step at a time in an order given by a schedule.  The points where a task
    really lets another one run are inside [download_file], at the request
    and around the write; so the orders in which the schedules let the rows
    write are orders in which the tasks can write. *)

Module Job.

Inductive step :=
| Enter (directory : Path)
| Fetch (to : Path) (l : link)
| Report (lines : list event)
| Leave (directory : Path).

Section Run.

Variable urljoin : string -> string -> string.
Variable client : Client.

Definition run_step (s : step) : M unit :=
  match s with
  | Enter directory =>
      set_fs (Fs.mkdir directory) ;; print (Pathlib.str directory)
  | Fetch to l => download_link urljoin client to l
  | Report lines => fun w => (Return tt, World (fs w) (log w ++ lines))
  | Leave directory =>
      m ← get_fs ;
      match Fs.iterdir m directory with
      | [] => set_fs (Fs.rmdir directory)
      | _ :: _ => mret tt
      end
  end.

Fixpoint run_steps (steps : list step) : M unit :=
  match steps with
  | [] => mret tt
  | s :: steps' => run_step s ;; run_steps steps'
  end.

(** The steps of [process_row], in the order of its text. *)
Definition row_steps (outdir : Path) (cells : list Cell) : list step :=
  if length cells <? 2 then []
  else
    let directory := row_directory outdir cells in
    [Enter directory]
    ++ List.map (Fetch (Pathlib.join directory "slides"))
         (List.map Tag (cell_links cells 1))
    ++ List.map (Fetch (Pathlib.join directory "reading"))
         (List.map Tag (cell_links cells 2))
    ++ [Report (ScanDefs.anomalies (cell_links cells 3))]
    ++ List.map (Fetch (Pathlib.join directory "homework"))
         (ScanDefs.rewritten (cell_links cells 3) 0)
    ++ [Leave directory].

(** The steps of several tasks, taken in the order of a schedule: each
    number of the schedule lets the task of that index do its next step;
    when the schedule ends, the tasks finish one after the other. *)
Fixpoint merge (sched : list nat) (tasks : list (list step)) : list step :=
  match sched with
  | [] => List.concat tasks
  | i :: sched' =>
      match tasks !! i with
      | Some (s :: rest) => s :: merge sched' (<[i := rest]> tasks)
      | _ => merge sched' tasks
      end
  end.

(** [asyncio.gather( *[process_row(row, outdir, client) for row in rows])]
    under a schedule. *)
Definition gather (rows : list (list Cell)) (outdir : Path)
    (sched : list nat) : M unit :=
  run_steps (merge sched (List.map (row_steps outdir) rows)).

(** The events of a step that does not raise. *)
Definition step_events (s : step) : list event :=
  match s with
  | Enter directory => [Printed (Pathlib.str directory)]
  | Fetch to l => PlanDefs.directive_events urljoin client to l
  | Report lines => lines
  | Leave _ => []
  end.

(** The file a step writes. *)
Definition step_write (s : step) : option (Path * string) :=
  match s with
  | Fetch to l =>
      match snd (PlanDefs.link_plan urljoin client to l) with
      | Return qc => Some qc
      | Raise _ => None
      end
  | _ => None
  end.

(** What some steps write to the path [q], in order. *)
Fixpoint writes_to (q : Path) (steps : list step) : list string :=
  match steps with
  | [] => []
  | s :: steps' =>
      match step_write s with
      | Some (q', c) =>
          if decide (q' = q) then c :: writes_to q steps'
          else writes_to q steps'
      | None => writes_to q steps'
      end
  end.

Definition row_events (outdir : Path) (cells : list Cell) : list event :=
  List.concat (List.map step_events (row_steps outdir cells)).

End Run.

End Job.

Module DirDefs.

(** [q] is below the directory [d], at any depth. *)
Definition under (d q : Path) : Prop :=
  root q = root d
  /\ exists t, t <> [] /\ components q = components d ++ t.

End DirDefs.

Module NameDefs.

Definition no_slash (c : ascii) : bool := negb (Char.eqb c "/"%char).

(** A file name: no slash, not empty, not the dot. *)
Definition simple (s : string) : Prop :=
  Str.all no_slash s = true /\ s <> "" /\ s <> ".".

End NameDefs.

(** ** Inputs of the examples *)

Definition notebook_example_1 : string :=
  "https://colab.research.google.com/drive/1Aa8nQ3Xp-abcdefghijklmnopqrstuvwxyz?usp=sharing".

Definition notebook_example_2 : string :=
  "https://colab.research.google.com/drive/1Bb8nQ3Xp_ABCDEFGHIJKLMNOPQRSTUVWXYZ".

(** A server that has nothing. *)
Definition not_found : Client := fun _ => Response 404 "Not Found".

(** [urljoin] on an absolute [href], which it returns as it is. *)
Definition urljoin_absolute : string -> string -> string :=
  fun base href => href.

Definition always_ok : Client := fun _ => Response 200 "<html></html>".

(** The body of a response is the URL that was asked for. *)
Definition echo : Client := fun url => Response 200 url.

Definition empty_row : list Cell :=
  [MkCell "Mon 1/9" []; MkCell "No class" []].

Definition two_slides_row : list Cell :=
  [MkCell "Tue 1/10" [];
   MkCell "1. Introduction"
     ["https://a.example/one.pdf"; "https://a.example/two.pdf"]].

Definition review_row_a : list Cell :=
  [MkCell "Mon 3/6" []; MkCell "Review" ["https://a.example/notes"]].

Definition review_row_b : list Cell :=
  [MkCell "Wed 3/8" []; MkCell "Review" ["https://b.example/notes"]].

(** ** [fetch] and [main] *)

(** What [main] reads off the parsed page: whether
    [soup.find('table', class_='table')] finds a table, whether that table
    has a [tbody], and the rows [find_all('tr')] of it, each row as the list
    of its [td] cells. *)
Inductive page :=
| NoTable
| NoBody
| Rows (rows : list (list Cell)).

(** How [main] can fail: with the [HTTPStatusError] of [raise_for_status],
    which [fetch] does not catch, with the [AttributeError] of
    [None.find_all], or with an exception that comes out of a row or of the
    transport. *)
Inductive failure :=
| HTTPStatusError
| AttributeError
| Uncaught (e : exn).

Inductive ending (A : Type) :=
| Finished (a : A)
| Crashed (e : failure).
Arguments Finished {A} a.
Arguments Crashed {A} e.

(** [get] is [client.get(url)] as [fetch] calls it: redirects are not
    followed, so the response can be a redirect, which is not a success. *)
Definition fetch (get : Client) (url : string) (w : world)
  : ending string * world :=
  let w := World (fs w) (log w ++ [Requested url]) in
  match get url with
  | ConnectError => (Crashed (Uncaught TransportError), w)
  | Response status_code text =>
      if is_success status_code then (Finished text, w)
      else (Crashed HTTPStatusError, w)
  end.

Section Driver.

Variable urljoin : string -> string -> string.

(** [BeautifulSoup(page_html, 'html.parser')], as far as [main] looks at
    it. *)
Variable soup : string -> page.

(** [get] and [client] are the two ways in which the one HTTP client is
    used: by [fetch], without following redirects, and by [download_file],
    following them.  [file] is [Path(__file__)].  [fuel] bounds the
    recursion of [find_root] and [sched] is the order in which the rows take
    their turns; [None] is a run in which [find_root] has not returned. *)
Definition main (get client : Client) (file : Path) (fuel : nat)
    (sched : list nat) (w : world) : option (ending unit * world) :=
  match fetch get BASE_URL w with
  | (Crashed e, w) => Some (Crashed e, w)
  | (Finished page_html, w) =>
      match find_root fuel (fs w) (Pathlib.parent file) with
      | None => None
      | Some outdir =>
          match soup page_html with
          | NoTable =>
              Some (Finished tt,
                    World (fs w) (log w ++ [Printed "Table not found."]))
          | NoBody => Some (Crashed AttributeError, w)
          | Rows rows =>
              match Job.gather urljoin client rows outdir sched w with
              | (Return _, w) => Some (Finished tt, w)
              | (Raise e, w) => Some (Crashed (Uncaught e), w)
              end
          end
      end
  end.

End Driver.

Module FrameDefs.

Section Steps.

Variable urljoin : string -> string -> string.
Variable client : Client.

(** The paths a step can create, write or remove. *)
Definition touches (s : Job.step) (q : Path) : Prop :=
  match s with
  | Job.Enter directory => q ∈ Fs.chain directory
  | Job.Fetch to l =>
      q ∈ Fs.chain to
      \/ q ∈ Fs.chain
             (Pathlib.parent (Pathlib.join to (PlanDefs.link_name urljoin l)))
      \/ exists c, Job.step_write urljoin client s = Some (q, c)
  | Job.Report _ => False
  | Job.Leave directory => q = directory
  end.

End Steps.

End FrameDefs.

Module RowDefs.

(** The three buckets of a row, with their directives, in the order in which
    [process_row] downloads them. *)
Definition buckets (cells : list Cell) : list (string * list link) :=
  [("slides", List.map Tag (cell_links cells 1));
   ("reading", List.map Tag (cell_links cells 2));
   ("homework", ScanDefs.rewritten (cell_links cells 3) 0)].

End RowDefs.

Module HomeworkDefs.

(** The file name of an explicit directive. *)
Definition pair_name (l : link) : option string :=
  match l with
  | Pair _ name => Some name
  | Tag _ => None
  end.

(** The [href] of an anchor directive. *)
Definition tag_href (l : link) : option string :=
  match l with
  | Tag href => Some href
  | Pair _ _ => None
  end.

(** The names given to the notebooks among some directives, in order. *)
Definition notebook_names (links : list link) : list string :=
  omap pair_name links.

(** The anchors passed on as they are, in order. *)
Definition anchors (links : list link) : list string :=
  omap tag_href links.

(** [t] occurs in [s]. *)
Definition occurs_in (t s : string) : Prop :=
  exists a b, s = a +:+ t +:+ b.

(** The run of characters that the pattern is reading, as text. *)
Definition run_str (run : list ascii) : string :=
  string_of_list_ascii (rev run).

End HomeworkDefs.

(** A server that cannot be reached. *)
Definition unreachable : Client := fun _ => ConnectError.

(** A server that answers with a redirect. *)
Definition moved : Client := fun _ => Response 301 "Moved Permanently".

(** A page with the table of [two_slides_row], a page without table. *)
Definition one_row_page : string -> page := fun _ => Rows [two_slides_row].

Definition no_table_page : string -> page := fun _ => NoTable.

(** A checkout of the project in [/repo]. *)
Definition checkout : gmap Path node :=
  {[Pathlib.parse "/repo/pyproject.toml" := File "[project]"]}.

(** * Properties *)

#[local] Arguments String.append !_ _ / : simpl nomatch.

(** ** Slug derivation *)

Module SlugFacts.

Import SlugDefs.

Ltac by_cases_on c :=
  destruct c as [[] [] [] [] [] [] [] []]; vm_compute; congruence.

Lemma all_map (p q : ascii -> bool) f s :
  (forall c, p c = true -> q (f c) = true) ->
  Str.all p s = true -> Str.all q (Str.map f s) = true.
Proof.
  intros Hf. induction s as [|c s IH]; simpl; [done|].
  rewrite !andb_true_iff. intros [Hc Hs]. auto.
Qed.

Lemma all_true p s : (forall c, p c = true) -> Str.all p s = true.
Proof.
  intros Hp. induction s as [|c s IH]; simpl; [done|]. by rewrite Hp, IH.
Qed.

Lemma map_fixed f s :
  Str.all (fun c => Char.eqb (f c) c) s = true -> Str.map f s = s.
Proof.
  induction s as [|c s IH]; simpl; [done|].
  rewrite andb_true_iff. intros [Hc Hs].
  apply Ascii.eqb_eq in Hc. by rewrite Hc, IH.
Qed.

Lemma all_weaken (p q : ascii -> bool) s :
  (forall c, p c = true -> q c = true) ->
  Str.all p s = true -> Str.all q s = true.
Proof.
  intros Hpq. induction s as [|c s IH]; simpl; [done|].
  rewrite !andb_true_iff. intros [Hc Hs]. auto.
Qed.

Lemma all_lstrip p s : Str.all p s = true -> Str.all p (Str.lstrip s) = true.
Proof.
  induction s as [|c s IH]; simpl; [done|].
  rewrite andb_true_iff. intros [Hc Hs].
  destruct (Char.is_space c); [auto|]. simpl. by rewrite Hc, Hs.
Qed.

Lemma all_rstrip p s : Str.all p s = true -> Str.all p (Str.rstrip s) = true.
Proof.
  induction s as [|c s IH]; simpl; [done|].
  rewrite andb_true_iff. intros [Hc Hs]. specialize (IH Hs).
  destruct (Str.rstrip s) as [|c' r].
  - destruct (Char.is_space c); simpl; [done|]. by rewrite Hc.
  - simpl in *. by rewrite Hc, IH.
Qed.

Lemma hd_ok_lstrip s : hd_ok (Str.lstrip s).
Proof.
  induction s as [|c s IH]; simpl; [done|].
  destruct (Char.is_space c) eqn:E; [done|]. exact E.
Qed.

Lemma hd_ok_rstrip s : hd_ok s -> hd_ok (Str.rstrip s).
Proof.
  destruct s as [|c s]; simpl; [done|]. intros E.
  destruct (Str.rstrip s); [by rewrite E|done].
Qed.

Lemma rstrip_rstrip s : Str.rstrip (Str.rstrip s) = Str.rstrip s.
Proof.
  induction s as [|c s IH]; simpl; [done|].
  destruct (Str.rstrip s) as [|c' r] eqn:E.
  - destruct (Char.is_space c) eqn:Ec; simpl; [done|]. by rewrite Ec.
  - remember (String c' r) as t. simpl. rewrite IH. by subst t.
Qed.

Lemma lstrip_hd_ok s : hd_ok s -> Str.lstrip s = s.
Proof. destruct s as [|c s]; simpl; [done|]. by intros ->. Qed.

Lemma hd_ok_map f s :
  (forall c, Char.is_space c = false -> Char.is_space (f c) = false) ->
  hd_ok s -> hd_ok (Str.map f s).
Proof. intros Hf. destruct s; simpl; auto. Qed.

Lemma rstrip_map f s :
  (forall c, Char.is_space c = false -> Char.is_space (f c) = false) ->
  Str.rstrip s = s -> Str.rstrip (Str.map f s) = Str.map f s.
Proof.
  intros Hf. induction s as [|c s IH]; simpl; [done|].
  destruct (Str.rstrip s) as [|c' r] eqn:E.
  - destruct (Char.is_space c) eqn:Ec; [done|].
    intros [= <-]. simpl. by rewrite (Hf _ Ec).
  - intros [= Hs]. rewrite (IH Hs). by rewrite <- Hs.
Qed.

Lemma stripped_strip s : stripped (Str.strip s).
Proof.
  split; [apply hd_ok_rstrip, hd_ok_lstrip | apply rstrip_rstrip].
Qed.

Lemma strip_stripped s : stripped s -> Str.strip s = s.
Proof. intros [H1 H2]. unfold Str.strip. by rewrite (lstrip_hd_ok _ H1). Qed.

Lemma stripped_map f s :
  (forall c, Char.is_space c = false -> Char.is_space (f c) = false) ->
  stripped s -> stripped (Str.map f s).
Proof. intros Hf [H1 H2]. split; [by apply hd_ok_map|by apply rstrip_map]. Qed.

Lemma space_replace a b c :
  Char.is_space b = false -> Char.is_space c = false ->
  Char.is_space (if Char.eqb c a then b else c) = false.
Proof. intros Hb Hc. by destruct (Char.eqb c a). Qed.

Lemma space_lower c :
  Char.is_space c = false -> Char.is_space (Char.lower c) = false.
Proof. by_cases_on c. Qed.

Lemma finish_settled s : Str.all settled (finish s) = true.
Proof.
  unfold finish, Str.lower, Str.replace.
  apply (all_map not_nl_slash_space); [intros c; by_cases_on c|].
  apply (all_map not_nl_slash); [intros c; by_cases_on c|].
  apply (all_map not_nl); [intros c; by_cases_on c|].
  apply all_rstrip, all_lstrip.
  apply (all_map (fun _ => true)); [intros c; by_cases_on c|].
  by apply all_true.
Qed.

Lemma finish_stripped s : stripped (finish s).
Proof.
  unfold finish, Str.lower, Str.replace.
  apply stripped_map; [apply space_lower|].
  apply stripped_map; [intros c; by apply space_replace|].
  apply stripped_map; [intros c; by apply space_replace|].
  apply stripped_strip.
Qed.

(** The tail of the derivation leaves its own results unchanged. *)
Lemma finish_fixed s :
  Str.all settled s = true -> stripped s -> finish s = s.
Proof.
  intros Hs Hstr. unfold finish, Str.lower, Str.replace.
  assert (E1 : Str.map (fun c => if Char.eqb c Char.newline then " "%char else c) s = s).
  { apply map_fixed. revert Hs. apply all_weaken. intros c; by_cases_on c. }
  rewrite E1, (strip_stripped _ Hstr).
  assert (E2 : Str.map (fun c => if Char.eqb c "/"%char then "-"%char else c) s = s).
  { apply map_fixed. revert Hs. apply all_weaken. intros c; by_cases_on c. }
  rewrite E2.
  assert (E3 : Str.map (fun c => if Char.eqb c " "%char then "_"%char else c) s = s).
  { apply map_fixed. revert Hs. apply all_weaken. intros c; by_cases_on c. }
  rewrite E3.
  apply map_fixed. revert Hs. apply all_weaken. intros c; by_cases_on c.
Qed.

Lemma slug_finish d : slug d = finish (Re.sub_brackets (Re.sub_ordinal d)).
Proof. reflexivity. Qed.

End SlugFacts.

(** C1, as stated, fails twice: the slug of the description of the example
    has two underscores where the claim has one (the space before the
    annotation and the newline after it are both kept, each as an
    underscore), and the derivation is not idempotent: a bracket pair that
    spans a line break survives the first derivation, which joins the lines,
    and is removed by the second. *)
Lemma slug_example_counterexample :
  slug description_example <> "3-traditional_methods_for_ml_on_graphs"
  /\ slug (slug ("Intro [part" +:+ nl +:+ "two]"))
     <> slug ("Intro [part" +:+ nl +:+ "two]").
Proof. split; vm_compute; congruence. Qed.

(** C1, amended: the slug of the description of the example is
    ["3-traditional_methods__for_ml_on_graphs"], and the derivation returns
    a slug unchanged whenever neither of its two substitutions matches in
    that slug (no leading "N." ordinal, no bracket pair on one line). *)
Theorem slug_example_and_idempotence (d : string)
    (Hord : Re.sub_ordinal (slug d) = slug d)
    (Hbra : Re.sub_brackets (slug d) = slug d) :
  slug description_example = "3-traditional_methods__for_ml_on_graphs"
  /\ slug (slug d) = slug d.
Proof.
  split; [reflexivity|].
  rewrite (SlugFacts.slug_finish (slug d)), Hord, Hbra.
  rewrite (SlugFacts.slug_finish d).
  apply SlugFacts.finish_fixed;
    [apply SlugFacts.finish_settled | apply SlugFacts.finish_stripped].
Qed.

Lemma slug_example_and_idempotence_witness :
  slug (slug description_example) = slug description_example.
Proof.
  apply (slug_example_and_idempotence description_example); reflexivity.
Defined.

(** ** The id pattern and the loop over the homework links *)

Module ScanFacts.

Import ScanDefs.

Lemma str_app_assoc (a b c : string) : (a +:+ b) +:+ c = a +:+ b +:+ c.
Proof. induction a as [|x a IH]; simpl; [done|]. by rewrite IH. Qed.

Lemma str_app_empty_r (a : string) : a +:+ "" = a.
Proof. induction a as [|x a IH]; simpl; [done|]. by rewrite IH. Qed.

(** A character outside the class ends the run: the matches of the two
    sides are found independently. *)
Lemma findall_from_sep run x sep y :
  Char.is_gid_char sep = false ->
  Re.findall_from run (x +:+ String sep y)
  = Re.findall_from run x ++ Re.findall_from [] y.
Proof.
  intros Hsep. revert run.
  induction x as [|c x IH]; intros run; simpl.
  - by rewrite Hsep.
  - destruct (Char.is_gid_char c); [apply IH|].
    by rewrite IH, <- List.app_assoc.
Qed.

Lemma findall_from_long run s :
  26 <= length run -> 1 <= length (Re.findall_from run s).
Proof.
  revert run. induction s as [|c s IH]; intros run Hrun; simpl.
  - unfold Re.flush.
    destruct (Nat.leb_spec 26 (length run)); simpl; lia.
  - destruct (Char.is_gid_char c).
    + apply IH. simpl. lia.
    + rewrite List.length_app. unfold Re.flush.
      destruct (Nat.leb_spec 26 (length run)); simpl; lia.
Qed.

Lemma findall_from_run run t s :
  Str.all Char.is_gid_char t = true ->
  26 <= String.length t + length run ->
  1 <= length (Re.findall_from run (t +:+ s)).
Proof.
  revert run. induction t as [|c t IH]; intros run Ht Hlen; simpl in *.
  - by apply findall_from_long.
  - apply andb_true_iff in Ht as [Hc Ht]. rewrite Hc.
    apply IH; [done|]. simpl. lia.
Qed.

(** A run of at least 26 characters of the class, wherever it is in the
    string, gives a match. *)
Lemma findall_from_somewhere run a t s :
  Str.all Char.is_gid_char t = true ->
  26 <= String.length t ->
  1 <= length (Re.findall_from run (a +:+ t +:+ s)).
Proof.
  intros Ht Hlen. revert run.
  induction a as [|c a IH]; intros run; simpl.
  - apply findall_from_run; [done|lia].
  - destruct (Char.is_gid_char c); [apply IH|].
    rewrite List.length_app. specialize (IH []). lia.
Qed.

(** The loop, in closed form: the directives are appended to [hw_links],
    the counter advances by the number of rewritten links, and the file
    system is left as it is. *)
Lemma scan_events_closed event_links hw_links colabs w :
  scan_events event_links hw_links colabs w
  = (Return (hw_links ++ rewritten event_links colabs,
             colabs + length (List.filter is_notebook event_links)),
     World (fs w) (log w ++ anomalies event_links)).
Proof.
  revert hw_links colabs w.
  induction event_links as [|l rest IH]; intros hw n w; simpl.
  - destruct w. unfold mret, M_ret. simpl.
    by rewrite !List.app_nil_r, Nat.add_0_r.
  - unfold is_notebook at 1. unfold GID_PAT in *.
    destruct (Str.contains colab_marker l) eqn:Hm; simpl.
    + destruct (Re.findall l) as [|g [|g' gs]] eqn:Hg; simpl.
      * unfold mbind, M_bind, print, emit. simpl. rewrite IH. simpl.
        by rewrite <- List.app_assoc.
      * rewrite IH. simpl. rewrite <- List.app_assoc. simpl.
        do 3 f_equal. lia.
      * unfold mbind, M_bind, print, emit. simpl. rewrite IH. simpl.
        by rewrite <- List.app_assoc.
    + rewrite IH. by rewrite <- List.app_assoc.
Qed.

Lemma rewritten_app pre post colabs :
  rewritten (pre ++ post) colabs
  = rewritten pre colabs
    ++ rewritten post (colabs + length (List.filter is_notebook pre)).
Proof.
  revert colabs. induction pre as [|l pre IH]; intros n; simpl.
  - by rewrite Nat.add_0_r.
  - unfold is_notebook at 1. unfold GID_PAT in *.
    destruct (Str.contains colab_marker l); simpl.
    + destruct (Re.findall l) as [|g [|g' gs]]; simpl; rewrite IH; [done| |done].
      do 3 f_equal. lia.
    + by rewrite IH.
Qed.

Lemma anomalies_app pre post :
  anomalies (pre ++ post) = anomalies pre ++ anomalies post.
Proof.
  induction pre as [|l pre IH]; simpl; [done|].
  by rewrite IH, List.app_assoc.
Qed.

Lemma rewritten_one l rest colabs tok :
  Str.contains colab_marker l = true -> GID_PAT l = [tok] ->
  rewritten (l :: rest) colabs
  = Pair (colab_url tok) (colab_name colabs) :: rewritten rest (colabs + 1).
Proof. intros Hm Ht. cbn [rewritten]. by rewrite Hm, Ht. Qed.

Lemma rewritten_skip l rest colabs :
  Str.contains colab_marker l = true -> length (GID_PAT l) <> 1 ->
  rewritten (l :: rest) colabs = rewritten rest colabs.
Proof.
  intros Hm Hne. cbn [rewritten]. rewrite Hm.
  destruct (GID_PAT l) as [|g [|g' gs]]; simpl in *; congruence.
Qed.

Lemma anomalies_skip l rest :
  Str.contains colab_marker l = true -> length (GID_PAT l) <> 1 ->
  anomalies (l :: rest)
  = Printed ("Invalid download link: " +:+ l) :: anomalies rest.
Proof.
  intros Hm Hne. cbn [anomalies]. rewrite Hm.
  apply Nat.eqb_neq in Hne. by rewrite Hne.
Qed.

Lemma count_cons l rest :
  length (List.filter is_notebook (l :: rest))
  = (if is_notebook l then 1 else 0) + length (List.filter is_notebook rest).
Proof. cbn [List.filter]. by destruct (is_notebook l). Qed.

Lemma is_notebook_one l tok :
  Str.contains colab_marker l = true -> GID_PAT l = [tok] ->
  is_notebook l = true.
Proof. intros Hm Ht. unfold is_notebook. by rewrite Hm, Ht. Qed.

Lemma is_notebook_skip l :
  length (GID_PAT l) <> 1 -> is_notebook l = false.
Proof.
  intros Hne. unfold is_notebook. apply Nat.eqb_neq in Hne.
  rewrite Hne. apply andb_false_r.
Qed.

End ScanFacts.

(** C4: in the loop over the homework links of a row, a link [l] with the
    notebook marker that comes after the links [pre] and before the links
    [post] is handled as follows, [n] being the number of rewritten links
    among [pre].  When the pattern finds exactly one id [tok] in [l], the
    directive for [l] is the pair of the URL
    [https://docs.google.com/uc?export=download&id=<tok>] and the name
    [CS224W_Colab_<n>.ipynb], placed between the directives of [pre] and
    those of [post], which go on with the counter [n + 1].  When it finds
    none or several, [l] gets no directive, the line
    [Invalid download link: <l>] is printed and the loop goes on over
    [post] with the counter [n]; in both cases the loop returns. *)
Theorem notebook_links_rewritten (pre post : list string) (l : string)
    (w : world) (Hmarker : Str.contains colab_marker l = true) :
  let n := length (List.filter ScanDefs.is_notebook pre) in
  (forall tok, GID_PAT l = [tok] ->
     exists hw_pre hw_post k w',
       scan_events (pre ++ l :: post) [] 0 w
       = (Return (hw_pre ++ Pair (colab_url tok) (colab_name n) :: hw_post, k),
          w')
       /\ colab_name n = "CS224W_Colab_" +:+ Str.of_nat n +:+ ".ipynb"
       /\ fst (scan_events pre [] 0 w) = Return (hw_pre, n)
       /\ fst (scan_events post [] (n + 1) w) = Return (hw_post, k))
  /\ (length (GID_PAT l) <> 1 ->
     exists hw_pre hw_post k w',
       scan_events (pre ++ l :: post) [] 0 w
       = (Return (hw_pre ++ hw_post, k), w')
       /\ fst (scan_events pre [] 0 w) = Return (hw_pre, n)
       /\ fst (scan_events post [] n w) = Return (hw_post, k)
       /\ In (Printed ("Invalid download link: " +:+ l)) (log w')).
Proof.
  intros n.
  assert (Hlen : length (List.filter ScanDefs.is_notebook (pre ++ l :: post))
                 = n + length (List.filter ScanDefs.is_notebook (l :: post))).
  { by rewrite List.filter_app, List.length_app. }
  split.
  - intros tok Htok.
    exists (ScanDefs.rewritten pre 0), (ScanDefs.rewritten post (n + 1)).
    eexists. eexists.
    rewrite !ScanFacts.scan_events_closed, Hlen, ScanFacts.rewritten_app.
    rewrite (ScanFacts.rewritten_one _ _ _ tok Hmarker Htok).
    rewrite ScanFacts.count_cons.
    rewrite (ScanFacts.is_notebook_one _ tok Hmarker Htok).
    cbn [fst List.app Nat.add]. fold n.
    repeat split; try reflexivity.
    do 2 f_equal. lia.
  - intros Hne.
    exists (ScanDefs.rewritten pre 0), (ScanDefs.rewritten post n).
    eexists. eexists.
    rewrite !ScanFacts.scan_events_closed, Hlen, ScanFacts.rewritten_app.
    rewrite ScanFacts.anomalies_app.
    rewrite (ScanFacts.rewritten_skip _ _ _ Hmarker Hne).
    rewrite (ScanFacts.anomalies_skip _ _ Hmarker Hne).
    rewrite ScanFacts.count_cons, (ScanFacts.is_notebook_skip _ Hne).
    cbn [fst List.app Nat.add log]. fold n.
    repeat split; try reflexivity.
    apply List.in_or_app. right. apply List.in_or_app. right. by left.
Qed.

Lemma notebook_links_rewritten_witness :
  exists hw_pre hw_post k w',
    scan_events ([notebook_example_1] ++ notebook_example_2 :: []) [] 0
                (World ∅ [])
    = (Return (hw_pre
               ++ Pair "https://docs.google.com/uc?export=download&id=1Bb8nQ3Xp_ABCDEFGHIJKLMNOPQRSTUVWXYZ"
                       "CS224W_Colab_1.ipynb" :: hw_post, k), w')
    /\ colab_name 1 = "CS224W_Colab_1.ipynb"
    /\ fst (scan_events [notebook_example_1] [] 0 (World ∅ []))
       = Return (hw_pre, 1)
    /\ fst (scan_events [] [] (1 + 1) (World ∅ [])) = Return (hw_post, k).
Proof.
  exact (proj1 (notebook_links_rewritten [notebook_example_1] []
                  notebook_example_2 (World ∅ []) eq_refl)
               "1Bb8nQ3Xp_ABCDEFGHIJKLMNOPQRSTUVWXYZ" eq_refl).
Defined.

(** C9: the pattern is applied to the whole URL.  When a URL with the
    notebook marker has two runs of at least 26 word characters or hyphens,
    separated by at least one other character, the pattern finds at least
    two ids, and the loop skips the link: it adds no directive, leaves the
    counter as it is and prints the anomaly, whether or not one of the runs
    is the id of the notebook. *)
Theorem second_run_skips_link (a t1 b t2 c : string) (sep : ascii)
    (rest : list string) (hw_links : list link) (colabs : nat) (w : world)
    (Ht1 : Str.all Char.is_gid_char t1 = true)
    (Hlen1 : 26 <= String.length t1)
    (Hsep : Char.is_gid_char sep = false)
    (Ht2 : Str.all Char.is_gid_char t2 = true)
    (Hlen2 : 26 <= String.length t2)
    (Hmarker :
       Str.contains colab_marker (a +:+ t1 +:+ String sep b +:+ t2 +:+ c)
       = true) :
  let event_url := a +:+ t1 +:+ String sep b +:+ t2 +:+ c in
  2 <= length (GID_PAT event_url)
  /\ scan_events (event_url :: rest) hw_links colabs w
     = scan_events rest hw_links colabs
         (World (fs w)
            (log w ++ [Printed ("Invalid download link: " +:+ event_url)])).
Proof.
  intros event_url.
  assert (Hcount : 2 <= length (GID_PAT event_url)).
  { unfold GID_PAT, Re.findall, event_url.
    rewrite <- ScanFacts.str_app_assoc.
    change (String sep b +:+ t2 +:+ c) with (String sep (b +:+ t2 +:+ c)).
    rewrite (ScanFacts.findall_from_sep _ _ _ _ Hsep), List.length_app.
    pose proof (ScanFacts.findall_from_somewhere [] a t1 "" Ht1 Hlen1) as H1.
    rewrite ScanFacts.str_app_empty_r in H1.
    pose proof (ScanFacts.findall_from_somewhere [] b t2 c Ht2 Hlen2) as H2.
    lia. }
  split; [exact Hcount|].
  subst event_url. cbn [scan_events]. rewrite Hmarker.
  destruct (GID_PAT _) as [|g [|g' gs]]; simpl in Hcount; try lia.
  reflexivity.
Qed.

Lemma second_run_skips_link_witness :
  2 <= length (GID_PAT
    "https://colab.research.google.com/github/stanford-cs224w-course-materials/blob/main/1Aa8nQ3Xp-abcdefghijklmnopqrstuvwxyz.ipynb")
  /\ scan_events
       ["https://colab.research.google.com/github/stanford-cs224w-course-materials/blob/main/1Aa8nQ3Xp-abcdefghijklmnopqrstuvwxyz.ipynb"]
       [] 0 (World ∅ [])
     = (Return ([], 0),
        World ∅ [Printed "Invalid download link: https://colab.research.google.com/github/stanford-cs224w-course-materials/blob/main/1Aa8nQ3Xp-abcdefghijklmnopqrstuvwxyz.ipynb"]).
Proof.
  exact (second_run_skips_link
           "https://colab.research.google.com/github/"
           "stanford-cs224w-course-materials" "blob/main/"
           "1Aa8nQ3Xp-abcdefghijklmnopqrstuvwxyz" ".ipynb" "/"%char
           [] [] 0 (World ∅ [])
           eq_refl ltac:(vm_compute; lia) eq_refl eq_refl
           ltac:(vm_compute; lia) eq_refl).
Defined.

(** ** [find_root] *)

Module RootFacts.

Import RootDefs.

Lemma ancestor_parent k p : ancestor k (Pathlib.parent p) = ancestor (S k) p.
Proof. unfold ancestor. symmetry. apply Nat.iter_succ_r. Qed.

Lemma find_root_step fuel m p :
  find_root (S fuel) m p
  = if has_marker m p then Some p else find_root fuel m (Pathlib.parent p).
Proof. reflexivity. Qed.

(** What a returned value is: the nearest ancestor with the marker. *)
Lemma find_root_some fuel m p r :
  find_root fuel m p = Some r ->
  exists k, k < fuel /\ r = ancestor k p /\ has_marker m r = true
            /\ forall j, j < k -> has_marker m (ancestor j p) = false.
Proof.
  revert p. induction fuel as [|fuel IH]; intros p; [done|].
  rewrite find_root_step. destruct (has_marker m p) eqn:Hp.
  - intros [= <-]. exists 0. repeat split; [lia|done|]. intros j Hj. lia.
  - intros Hr. destruct (IH _ Hr) as (k & Hk & -> & Hm & Hbelow).
    exists (S k). rewrite ancestor_parent in *.
    repeat split; [lia|done|].
    intros [|j] Hj; [exact Hp|].
    rewrite <- ancestor_parent. apply Hbelow. lia.
Qed.

Lemma find_root_enough k m p :
  has_marker m (ancestor k p) = true ->
  exists r, find_root (S k) m p = Some r.
Proof.
  revert p. induction k as [|k IH]; intros p Hk.
  - exists p. rewrite find_root_step. simpl in Hk. by rewrite Hk.
  - rewrite find_root_step. destruct (has_marker m p); [by eexists|].
    apply IH. by rewrite ancestor_parent.
Qed.

Lemma find_root_none fuel m p :
  (forall k, has_marker m (ancestor k p) = false) ->
  find_root fuel m p = None.
Proof.
  intros Hnone. destruct (find_root fuel m p) as [r|] eqn:E; [|done].
  destruct (find_root_some _ _ _ _ E) as (k & _ & -> & Hm & _).
  by rewrite Hnone in Hm.
Qed.

Lemma parent_top p : components p = [] -> Pathlib.parent p = p.
Proof. destruct p as [r t]. simpl. intros ->. reflexivity. Qed.

Lemma ancestor_components k p :
  components (ancestor k p) = List.firstn (length (components p) - k) (components p).
Proof.
  induction k as [|k IH]; simpl.
  - by rewrite Nat.sub_0_r, List.firstn_all.
  - rewrite IH. set (t := components p).
    rewrite List.removelast_firstn_len, List.length_firstn, List.firstn_firstn.
    f_equal. lia.
Qed.

End RootFacts.


(** ** [download_file] and [bulk_download] *)

Module DownloadFacts.

Import PlanDefs.

Ltac unfold_monad :=
  cbv beta iota zeta delta
    [mbind M_bind mret M_ret raise emit print set_fs get_fs write_file
     with_suffix fs log].

(** [download_file] creates the parent directory and carries out its plan. *)
Lemma download_file_plan client url dest_path w :
  download_file client url dest_path w
  = match file_plan client url dest_path with
    | (evs, Return (q, c)) =>
        (Return tt,
         World (Fs.write q c (Fs.mkdir (Pathlib.parent dest_path) (fs w)))
               (log w ++ evs ++ [Wrote q c]))
    | (evs, Raise e) =>
        (Raise e,
         World (Fs.mkdir (Pathlib.parent dest_path) (fs w)) (log w ++ evs))
    end.
Proof.
  unfold download_file, file_plan. destruct w as [m evs0]. unfold_monad.
  destruct (String.eqb (Pathlib.suffix dest_path) ".html").
  - destruct (Pathlib.with_suffix dest_path ".md");
      by rewrite <- ?List.app_assoc.
  - destruct (client url) as [st body|]; [destruct (is_success st)|].
    + by rewrite <- ?List.app_assoc.
    + destruct (Pathlib.with_suffix dest_path ".md");
        by rewrite <- ?List.app_assoc.
    + by rewrite <- ?List.app_assoc.
Qed.

End DownloadFacts.

(** ** Names, stems and suffixes *)

Module PathFacts.

Lemma eqb_neq (a b : string) : a <> b -> String.eqb a b = false.
Proof. apply String.eqb_neq. Qed.

Lemma str_app_inv_l (a b c : string) : a +:+ b = a +:+ c -> b = c.
Proof. induction a as [|x a IH]; simpl; [done|]. intros [= H]. auto. Qed.

Lemma rpartition_dot_some s a b :
  Pathlib.rpartition_dot s = Some (a, b) ->
  s = a +:+ b /\ exists e, b = String "."%char e
                           /\ Pathlib.rpartition_dot e = None.
Proof.
  revert a b. induction s as [|c s IH]; intros a b; simpl; [done|].
  destruct (Pathlib.rpartition_dot s) as [[a' b']|] eqn:E.
  - intros [= <- <-]. destruct (IH _ _ eq_refl) as (-> & e & -> & He).
    split; [done|]. by exists e.
  - destruct (Char.eqb c ".") eqn:Ec; [|done].
    apply Ascii.eqb_eq in Ec. subst c. intros [= <- <-].
    split; [done|]. by exists s.
Qed.

(** The split of [s.e] at its last dot, when [e] has no dot. *)
Lemma rpartition_dot_app s e :
  Pathlib.rpartition_dot e = None ->
  Pathlib.rpartition_dot (s +:+ String "."%char e) = Some (s, String "."%char e).
Proof.
  intros He. induction s as [|c s IH]; simpl.
  - by rewrite He.
  - by rewrite IH.
Qed.

Lemma splitext_app s e :
  s <> "" -> e <> "" -> Pathlib.rpartition_dot e = None ->
  Pathlib.splitext (s +:+ String "."%char e) = (s, String "."%char e).
Proof.
  intros Hs He Hdot. unfold Pathlib.splitext.
  rewrite (rpartition_dot_app _ _ Hdot).
  rewrite (eqb_neq s "" Hs). destruct e; [done|]. reflexivity.
Qed.

(** A name is its stem followed by its suffix; a non-empty name has a
    non-empty stem, and a suffix is a dot followed by dotless text. *)
Lemma splitext_spec n :
  let '(stem, ext) := Pathlib.splitext n in
  n = stem +:+ ext
  /\ (n <> "" -> stem <> "")
  /\ (ext = ""
      \/ exists e, ext = String "."%char e /\ e <> ""
                   /\ Pathlib.rpartition_dot e = None).
Proof.
  unfold Pathlib.splitext.
  destruct (Pathlib.rpartition_dot n) as [[a b]|] eqn:E.
  - destruct (rpartition_dot_some _ _ _ E) as (Hn & e & -> & He).
    destruct (String.eqb_spec a "") as [Ha|Ha];
      destruct (String.eqb_spec (String "." e) ".") as [Hb|Hb];
      cbn [negb andb].
    1-3: split; [by rewrite ScanFacts.str_app_empty_r|]; by split; [|left].
    split; [done|]. split; [done|]. right. exists e.
    split; [done|]. split; [|done]. intros ->. done.
  - split; [by rewrite ScanFacts.str_app_empty_r|]. by split; [|left].
Qed.

Lemma name_components p :
  Pathlib.name p <> "" ->
  components p = List.removelast (components p) ++ [Pathlib.name p].
Proof.
  unfold Pathlib.name. intros Hn. apply List.app_removelast_last.
  intros E. rewrite E in Hn. done.
Qed.

Lemma with_suffix_some p ext :
  Pathlib.name p <> "" ->
  Pathlib.with_suffix p ext
  = Some (MkPath (root p)
            (List.removelast (components p)
             ++ [fst (Pathlib.splitext (Pathlib.name p)) +:+ ext])).
Proof. intros Hn. unfold Pathlib.with_suffix. by rewrite (eqb_neq _ _ Hn). Qed.

Lemma name_snoc r t x : Pathlib.name (MkPath r (t ++ [x])) = x.
Proof. unfold Pathlib.name. simpl. apply List.last_last. Qed.

Lemma parent_snoc r t x : Pathlib.parent (MkPath r (t ++ [x])) = MkPath r t.
Proof. unfold Pathlib.parent. simpl. by rewrite List.removelast_last. Qed.

Lemma suffix_snoc r t s e :
  s <> "" -> e <> "" -> Pathlib.rpartition_dot e = None ->
  Pathlib.suffix (MkPath r (t ++ [s +:+ String "."%char e]))
  = String "."%char e.
Proof.
  intros Hs He Hdot. unfold Pathlib.suffix.
  by rewrite name_snoc, splitext_app.
Qed.

End PathFacts.

(** ** The file system *)

Module FsFacts.

Lemma mkdir1_lookup p (m : gmap Path node) q :
  Fs.mkdir1 p m !! q
  = if decide (p = q) then Some (default Dir (m !! q)) else m !! q.
Proof.
  unfold Fs.mkdir1. destruct (decide (p = q)) as [->|Hne].
  - destruct (m !! q) eqn:E; simpl; [done|]. by rewrite lookup_insert_eq.
  - destruct (m !! p); [done|]. by rewrite lookup_insert_ne.
Qed.

Lemma mkdirs_lookup (l : list Path) (m : gmap Path node) q :
  List.fold_left (fun m p => Fs.mkdir1 p m) l m !! q
  = if decide (q ∈ l) then Some (default Dir (m !! q)) else m !! q.
Proof.
  revert m. induction l as [|p l IH]; intros m; simpl.
  - destruct (decide (q ∈ [])) as [H|H]; [|done]. by apply elem_of_nil in H.
  - rewrite IH, mkdir1_lookup.
    destruct (decide (p = q)) as [->|Hne].
    + destruct (decide (q ∈ q :: l)) as [_|H]; [|by destruct H; left].
      simpl. by destruct (decide (q ∈ l)).
    + destruct (decide (q ∈ l)) as [Hl|Hl].
      * destruct (decide (q ∈ p :: l)) as [_|H]; [done|]. destruct H. by right.
      * destruct (decide (q ∈ p :: l)) as [H|_]; [|done].
        apply elem_of_cons in H as [->|H]; done.
Qed.

(** [mkdir] adds the missing directories of the chain and changes nothing
    else. *)
Lemma mkdir_lookup p (m : gmap Path node) q :
  Fs.mkdir p m !! q
  = if decide (q ∈ Fs.chain p) then Some (default Dir (m !! q)) else m !! q.
Proof. apply mkdirs_lookup. Qed.

Lemma chain_spec p q :
  q ∈ Fs.chain p <->
  exists k, k < length (components p)
            /\ q = MkPath (root p) (List.firstn (S k) (components p)).
Proof.
  unfold Fs.chain. rewrite list_elem_of_In, List.in_map_iff. split.
  - intros (k & <- & Hk). apply List.in_seq in Hk. exists k. split; [lia|done].
  - intros (k & Hk & ->). exists k. split; [done|]. apply List.in_seq. lia.
Qed.

Lemma chain_length p q :
  q ∈ Fs.chain p ->
  root q = root p /\ 0 < length (components q) <= length (components p).
Proof.
  rewrite chain_spec. intros (k & Hk & ->). simpl. split; [done|].
  rewrite List.length_firstn. lia.
Qed.

(** The chain of a path ends with the path. *)
Lemma chain_self p : components p <> [] -> p ∈ Fs.chain p.
Proof.
  intros Hne. apply chain_spec. exists (length (components p) - 1).
  destruct p as [r t]. simpl in *. destruct t as [|x t]; [done|]. simpl.
  split; [lia|]. f_equal. rewrite Nat.sub_0_r.
  symmetry. exact (List.firstn_all (x :: t)).
Qed.

Lemma mkdir_lookup_self p (m : gmap Path node) :
  components p <> [] -> is_Some (Fs.mkdir p m !! p).
Proof.
  intros Hne. rewrite mkdir_lookup.
  destruct (decide (p ∈ Fs.chain p)) as [_|H]; [by eexists|].
  destruct H. by apply chain_self.
Qed.

(** A path is not among the directories made for its parent. *)
Lemma not_in_parent_chain p :
  components p <> [] -> p ∉ Fs.chain (Pathlib.parent p).
Proof.
  intros Hne Hin. apply chain_length in Hin as [_ Hlen].
  unfold Pathlib.parent in Hlen. simpl in Hlen.
  assert (length (List.removelast (components p)) < length (components p)).
  { destruct (components p) as [|x t] using List.rev_ind; [done|].
    rewrite List.removelast_last, List.length_app. simpl. lia. }
  lia.
Qed.

Lemma mkdir_mkdir p (m : gmap Path node) :
  Fs.mkdir p (Fs.mkdir p m) = Fs.mkdir p m.
Proof.
  apply map_eq. intros q. rewrite !mkdir_lookup.
  destruct (decide (q ∈ Fs.chain p)); [|done]. by destruct (m !! q).
Qed.

End FsFacts.

Module StubFacts.

Import PlanDefs.

Lemma not_success status :
  status < 200 \/ 299 < status -> is_success status = false.
Proof.
  intros H. unfold is_success. apply andb_false_iff.
  destruct H; [left; apply Nat.leb_gt | right; apply Nat.leb_gt]; lia.
Qed.

(** What [download_file] does when the fetch is attempted and the status is
    not a success. *)
Lemma download_file_failed client url dest_path status body w :
  Pathlib.suffix dest_path <> ".html" ->
  Pathlib.name dest_path <> "" ->
  client url = Response status body ->
  status < 200 \/ 299 < status ->
  let stub :=
    MkPath (root dest_path)
      (List.removelast (components dest_path)
       ++ [fst (Pathlib.splitext (Pathlib.name dest_path)) +:+ ".md"]) in
  Pathlib.with_suffix dest_path ".md" = Some stub
  /\ download_file client url dest_path w
     = (Return tt,
        World (Fs.write stub (invalid_link url)
                 (Fs.mkdir (Pathlib.parent dest_path) (fs w)))
              (log w
               ++ [Printed (url +:+ " --> " +:+ Pathlib.str dest_path);
                   Requested url; Wrote stub (invalid_link url)])).
Proof.
  intros Hhtml Hname Hresp Hstatus stub.
  pose proof (PathFacts.with_suffix_some dest_path ".md" Hname) as Hws.
  split; [exact Hws|].
  rewrite DownloadFacts.download_file_plan. unfold file_plan.
  rewrite (PathFacts.eqb_neq _ _ Hhtml), Hresp, (not_success _ Hstatus), Hws.
  reflexivity.
Qed.

End StubFacts.

(** C5: when the fetch of a directive is attempted (the destination does
    not end in [.html]) and the final response, redirects followed, has a
    status outside 200-299, [download_file] returns normally, and what it
    writes is one file: the destination with its suffix replaced by [.md],
    holding the invalid-link text for the URL.  The response body is not
    written.  The destination has a file name, as every destination built by
    [bulk_download] has. *)
Theorem failed_fetch_becomes_invalid_stub (client : Client) (url : string)
    (dest_path : Path) (status : nat) (body : string) (w : world)
    (Hattempt : Pathlib.suffix dest_path <> ".html")
    (Hname : Pathlib.name dest_path <> "")
    (Hresp : client url = Response status body)
    (Hstatus : status < 200 \/ 299 < status) :
  exists stub w',
    download_file client url dest_path w = (Return tt, w')
    /\ Pathlib.with_suffix dest_path ".md" = Some stub
    /\ Pathlib.suffix stub = ".md"
    /\ fs w' !! stub = Some (File (invalid_link url))
    /\ invalid_link url
       = "#INVALID LINK / VISIT DIRECTLY:" +:+ nl +:+ nl
         +:+ "[" +:+ url +:+ "](" +:+ url +:+ ")"
    /\ log w'
       = log w ++ [Printed (url +:+ " --> " +:+ Pathlib.str dest_path);
                   Requested url; Wrote stub (invalid_link url)].
Proof.
  destruct (StubFacts.download_file_failed client url dest_path status body w
              Hattempt Hname Hresp Hstatus) as [Hws Hrun].
  eexists. eexists. split; [exact Hrun|]. split; [exact Hws|].
  split; [|split; [|split]]; try reflexivity.
  - pose proof (PathFacts.splitext_spec (Pathlib.name dest_path)) as Hsp.
    destruct (Pathlib.splitext (Pathlib.name dest_path)) as [stem ext].
    destruct Hsp as (_ & Hstem & _). simpl.
    apply (PathFacts.suffix_snoc _ _ stem "md"); [by apply Hstem|done|done].
  - simpl. unfold Fs.write. by rewrite lookup_insert_eq.
Qed.

Lemma failed_fetch_becomes_invalid_stub_witness :
  exists stub w',
    download_file not_found "https://snap.stanford.edu/class/hw1.pdf"
      (Pathlib.parse "/repo/course/1-intro/homework/hw1.pdf") (World ∅ [])
    = (Return tt, w')
    /\ Pathlib.with_suffix
         (Pathlib.parse "/repo/course/1-intro/homework/hw1.pdf") ".md"
       = Some stub
    /\ Pathlib.suffix stub = ".md"
    /\ fs w' !! stub
       = Some (File (invalid_link "https://snap.stanford.edu/class/hw1.pdf"))
    /\ invalid_link "https://snap.stanford.edu/class/hw1.pdf"
       = "#INVALID LINK / VISIT DIRECTLY:" +:+ nl +:+ nl
         +:+ "[" +:+ "https://snap.stanford.edu/class/hw1.pdf" +:+ "]("
         +:+ "https://snap.stanford.edu/class/hw1.pdf" +:+ ")"
    /\ log w'
       = log (World ∅ [])
         ++ [Printed ("https://snap.stanford.edu/class/hw1.pdf" +:+ " --> "
                      +:+ Pathlib.str
                            (Pathlib.parse
                               "/repo/course/1-intro/homework/hw1.pdf"));
             Requested "https://snap.stanford.edu/class/hw1.pdf";
             Wrote stub (invalid_link "https://snap.stanford.edu/class/hw1.pdf")].
Proof.
  apply (failed_fetch_becomes_invalid_stub not_found
           "https://snap.stanford.edu/class/hw1.pdf"
           (Pathlib.parse "/repo/course/1-intro/homework/hw1.pdf")
           404 "Not Found" (World ∅ [])).
  - vm_compute. congruence.
  - vm_compute. congruence.
  - reflexivity.
  - right. vm_compute. lia.
Defined.

(** C10, as stated, fails for a destination whose extension is [.md]: the
    stub path is then the destination itself, and the directive creates it,
    with the invalid-link text as content. *)
Lemma failed_fetch_md_counterexample :
  let dest := Pathlib.parse "/repo/course/1-intro/reading/notes.md" in
  let url := "https://snap.stanford.edu/class/notes.md" in
  Pathlib.splitext (Pathlib.name dest) = ("notes", ".md")
  /\ not_found url = Response 404 "Not Found"
  /\ (∅ : gmap Path node) !! dest = None
  /\ fs (snd (download_file not_found url dest (World ∅ []))) !! dest
     = Some (File (invalid_link url)).
Proof. vm_compute. repeat split. Qed.

(** C10, amended: when the fetch for a destination named [stem.ext], with
    [ext] other than [.html], ends with a status outside 200-299, the stub is
    written next to the destination under the name [stem.md]; and when [ext]
    is not [.md] either, the directive leaves the destination path as it
    was: it does not create it. *)
Theorem failed_fetch_stub_replaces_extension (client : Client) (url : string)
    (dest_path : Path) (stem ext : string) (status : nat) (body : string)
    (w : world)
    (Hsplit : Pathlib.splitext (Pathlib.name dest_path) = (stem, ext))
    (Hext : ext <> "")
    (Hhtml : ext <> ".html")
    (Hresp : client url = Response status body)
    (Hstatus : status < 200 \/ 299 < status) :
  let bucket := List.removelast (components dest_path) in
  let stub := MkPath (root dest_path) (bucket ++ [stem +:+ ".md"]) in
  exists w',
    download_file client url dest_path w = (Return tt, w')
    /\ dest_path = MkPath (root dest_path) (bucket ++ [stem +:+ ext])
    /\ Pathlib.parent stub = Pathlib.parent dest_path
    /\ fs w' !! stub = Some (File (invalid_link url))
    /\ (ext <> ".md" -> fs w' !! dest_path = fs w !! dest_path).
Proof.
  intros bucket stub.
  pose proof (PathFacts.splitext_spec (Pathlib.name dest_path)) as Hsp.
  rewrite Hsplit in Hsp. destruct Hsp as (Hn & _ & _).
  assert (Hname : Pathlib.name dest_path <> "").
  { rewrite Hn. destruct stem; [by destruct ext|done]. }
  assert (Hattempt : Pathlib.suffix dest_path <> ".html").
  { unfold Pathlib.suffix. by rewrite Hsplit. }
  destruct (StubFacts.download_file_failed client url dest_path status body w
              Hattempt Hname Hresp Hstatus) as [_ Hrun].
  rewrite Hsplit in Hrun. cbn [fst] in Hrun. fold bucket stub in Hrun.
  assert (Hdest : dest_path = MkPath (root dest_path) (bucket ++ [stem +:+ ext])).
  { destruct dest_path as [r t]. unfold bucket. simpl. f_equal.
    rewrite <- Hn. by apply (PathFacts.name_components (MkPath r t)). }
  eexists. split; [exact Hrun|]. split; [exact Hdest|].
  split; [|split].
  - unfold stub. rewrite PathFacts.parent_snoc. by destruct dest_path.
  - simpl. unfold Fs.write. by rewrite lookup_insert_eq.
  - intros Hmd. simpl. unfold Fs.write.
    assert (Hne : stub <> dest_path).
    { rewrite Hdest. unfold stub. simpl. intros [= E].
      apply List.app_inv_head in E. injection E as E.
      apply PathFacts.str_app_inv_l in E. congruence. }
    rewrite lookup_insert_ne by exact Hne.
    rewrite FsFacts.mkdir_lookup.
    destruct (decide (dest_path ∈ Fs.chain (Pathlib.parent dest_path)))
      as [Hin|_]; [|done].
    exfalso. revert Hin. apply FsFacts.not_in_parent_chain.
    rewrite Hdest. simpl. by destruct bucket.
Qed.

Lemma failed_fetch_stub_replaces_extension_witness :
  let dest := Pathlib.parse "/repo/course/1-intro/homework/hw1.pdf" in
  let stub := Pathlib.parse "/repo/course/1-intro/homework/hw1.md" in
  let url := "https://snap.stanford.edu/class/hw1.pdf" in
  exists w',
    download_file not_found url dest (World ∅ []) = (Return tt, w')
    /\ dest = MkPath "/" (["repo"; "course"; "1-intro"; "homework"] ++ ["hw1" +:+ ".pdf"])
    /\ Pathlib.parent stub = Pathlib.parent dest
    /\ fs w' !! stub = Some (File (invalid_link url))
    /\ (".pdf" <> ".md" -> fs w' !! dest = (∅ : gmap Path node) !! dest).
Proof.
  intros dest stub url.
  apply (failed_fetch_stub_replaces_extension not_found url dest
           "hw1" ".pdf" 404 "Not Found" (World ∅ [])).
  - reflexivity.
  - congruence.
  - congruence.
  - reflexivity.
  - right. lia.
Defined.

(** ** Anchors without an extension *)

Module AnchorFacts.

Import PlanDefs NameDefs.

Lemma split_none sep s :
  Str.all (fun c => negb (Char.eqb c sep)) s = true ->
  Pathlib.split sep s = [s].
Proof.
  induction s as [|c s IH]; simpl; [done|].
  rewrite andb_true_iff. intros [Hc Hs]. apply negb_true_iff in Hc.
  by rewrite Hc, (IH Hs).
Qed.

Lemma split_elems sep s x :
  In x (Pathlib.split sep s) ->
  Str.all (fun c => negb (Char.eqb c sep)) x = true.
Proof.
  revert x. induction s as [|c s IH]; intros x; simpl.
  - by intros [<-|[]].
  - destruct (Char.eqb c sep) eqn:Ec.
    + intros [<-|Hin]; [done|]. by apply IH.
    + destruct (Pathlib.split sep s) as [|h t] eqn:E.
      * intros [<-|[]]. simpl. by rewrite Ec.
      * intros [<-|Hin].
        -- simpl. rewrite Ec. simpl. apply IH. by left.
        -- apply IH. by right.
Qed.

Lemma all_app p a b :
  Str.all p (a +:+ b) = Str.all p a && Str.all p b.
Proof.
  induction a as [|c a IH]; simpl; [done|]. by rewrite IH, andb_assoc.
Qed.

Lemma last_in {A} (l : list A) d : l <> [] -> In (List.last l d) l.
Proof.
  intros Hne. destruct l as [|x t] using List.rev_ind; [done|].
  rewrite List.last_last. apply List.in_or_app. right. by left.
Qed.

(** A non-empty name has no slash. *)
Lemma name_no_slash s :
  Pathlib.name (Pathlib.parse s) <> "" ->
  Str.all no_slash (Pathlib.name (Pathlib.parse s)) = true.
Proof.
  unfold Pathlib.name, Pathlib.parse. simpl. intros Hne.
  set (l := List.filter Pathlib.is_component (Pathlib.split "/" s)) in *.
  assert (Hl : l <> []) by (intros E; by rewrite E in Hne).
  pose proof (last_in l "" Hl) as Hin.
  apply List.filter_In in Hin as [Hin _].
  by apply split_elems in Hin.
Qed.

(** A name without slash, as a path: one component, no root. *)
Lemma parse_name s :
  Str.all no_slash s = true -> s <> "" -> s <> "." ->
  Pathlib.parse s = MkPath "" [s].
Proof.
  intros Hs Hne Hdot. unfold Pathlib.parse.
  rewrite (split_none "/" s Hs). simpl.
  unfold Pathlib.is_component.
  rewrite (PathFacts.eqb_neq _ _ Hne), (PathFacts.eqb_neq _ _ Hdot). simpl.
  f_equal. unfold Pathlib.splitroot.
  destruct s as [|c s]; [done|]. cbn [Str.all] in Hs.
  apply andb_true_iff in Hs as [Hc _]. unfold no_slash, Char.eqb in Hc.
  apply negb_true_iff, Ascii.eqb_neq in Hc.
  cbn [Str.prefixb]. unfold Char.eqb.
  destruct (Ascii.eqb_spec "/" c) as [E|E]; [congruence|done].
Qed.

Lemma join_name to s :
  Str.all no_slash s = true -> s <> "" -> s <> "." ->
  Pathlib.join to s = MkPath (root to) (components to ++ [s]).
Proof.
  intros Hs Hne Hdot. unfold Pathlib.join.
  by rewrite (parse_name s Hs Hne Hdot).
Qed.

(** [bulk_download] makes the bucket directory when it is missing and hands
    the directive to [download_file]. *)
Lemma download_link_file urljoin client to l w :
  download_link urljoin client to l w
  = download_file client (link_url urljoin l)
      (Pathlib.join to (link_name urljoin l))
      (World (if Fs.exists_ (fs w) to then fs w else Fs.mkdir to (fs w))
             (log w)).
Proof.
  unfold download_link. destruct w as [m evs].
  cbv beta iota zeta delta [mbind M_bind mret M_ret set_fs get_fs fs log].
  destruct (Fs.exists_ m to); cbn [negb]; destruct l; reflexivity.
Qed.

End AnchorFacts.

(** C3, as stated, fails for a link to the front page of a site: the path
    of the URL is "/" and has no extension, but the test of the script is on
    the last component of the whole URL, here the host name, which has the
    suffix ".edu".  The page is fetched and saved under the host name; no
    stub is written.  ([urljoin] returns an absolute [href] as it is.) *)
Lemma front_page_counterexample :
  let url := "https://snap.stanford.edu/" in
  let to := Pathlib.parse "/repo/course/1-intro/slides" in
  let w' := snd (download_link urljoin_absolute always_ok to (Tag url)
                   (World ∅ [])) in
  Url.urlsplit_path url = "/"
  /\ Pathlib.suffix (Pathlib.parse (Url.urlsplit_path url)) = ""
  /\ log w'
     = [Printed "https://snap.stanford.edu/ --> /repo/course/1-intro/slides/snap.stanford.edu";
        Requested url;
        Wrote (Pathlib.parse "/repo/course/1-intro/slides/snap.stanford.edu")
              "<html></html>"]
  /\ fs w' !! Pathlib.parse "/repo/course/1-intro/slides/snap.stanford.edu"
     = Some (File "<html></html>")
  /\ fs w' !! Pathlib.parse "/repo/course/1-intro/slides/snap.stanford.md"
     = None.
Proof. vm_compute. repeat split. Qed.

(** C3, amended: for an anchor whose resolved URL, read as a path by
    [Path(url)], ends in a component without suffix, and whose URL path ends
    in a non-empty component [base], the directive sends no request and
    writes one file, [base.md] in the bucket, whose content is the line
    [#VISIT WEBPAGE:], an empty line, and the line [[<url>](<url>)]. *)
Theorem suffixless_anchor_becomes_stub (urljoin : string -> string -> string)
    (client : Client) (to : Path) (href : string) (w : world)
    (Hsuffix : Pathlib.suffix (Pathlib.parse (urljoin BASE_URL href)) = "")
    (Hbase : Pathlib.name
               (Pathlib.parse (Url.urlsplit_path (urljoin BASE_URL href)))
             <> "") :
  let url := urljoin BASE_URL href in
  let base := Pathlib.name (Pathlib.parse (Url.urlsplit_path url)) in
  let dest := MkPath (root to) (components to ++ [base +:+ ".html"]) in
  let stub := MkPath (root to) (components to ++ [base +:+ ".md"]) in
  exists w',
    download_link urljoin client to (Tag href) w = (Return tt, w')
    /\ fs w' !! stub = Some (File (visit_webpage url))
    /\ visit_webpage url
       = "#VISIT WEBPAGE:" +:+ nl +:+ nl
         +:+ "[" +:+ url +:+ "](" +:+ url +:+ ")"
    /\ log w'
       = log w ++ [Printed (url +:+ " --> " +:+ Pathlib.str dest);
                   Wrote stub (visit_webpage url)].
Proof.
  intros url base dest stub.
  assert (Hb : Str.all NameDefs.no_slash base = true)
    by exact (AnchorFacts.name_no_slash _ Hbase).
  assert (Hname : PlanDefs.link_name urljoin (Tag href) = base +:+ ".html").
  { unfold PlanDefs.link_name. rewrite Hsuffix. reflexivity. }
  change (base <> "") in Hbase.
  clearbody base.
  assert (Hslash : Str.all NameDefs.no_slash (base +:+ ".html") = true)
    by by rewrite AnchorFacts.all_app, Hb.
  assert (Hne : base +:+ ".html" <> "").
  { destruct base; [by destruct Hbase|done]. }
  assert (Hdot : base +:+ ".html" <> ".").
  { destruct base as [|c [|c' b]]; [by destruct Hbase|done|done]. }
  assert (Hdsuf : Pathlib.suffix dest = ".html").
  { apply (PathFacts.suffix_snoc _ _ base "html"); done. }
  assert (Hws : Pathlib.with_suffix dest ".md" = Some stub).
  { rewrite PathFacts.with_suffix_some; unfold dest;
      rewrite PathFacts.name_snoc; [|exact Hne].
    cbn [root components]. rewrite List.removelast_last.
    change (base +:+ ".html") with (base +:+ String "." "html").
    by rewrite (PathFacts.splitext_app base "html"). }
  rewrite AnchorFacts.download_link_file, Hname.
  rewrite (AnchorFacts.join_name to _ Hslash Hne Hdot). fold dest.
  rewrite DownloadFacts.download_file_plan. unfold PlanDefs.file_plan.
  rewrite Hdsuf, Hws. cbn [String.eqb]. 
  change (PlanDefs.link_url urljoin (Tag href)) with url.
  replace ((".html" =? ".html")%string) with true by reflexivity.
  eexists. split; [reflexivity|].
  split; [|split; [reflexivity|]].
  - cbn [fs]. unfold Fs.write. by rewrite lookup_insert_eq.
  - cbn [log]. reflexivity.
Qed.

Lemma suffixless_anchor_becomes_stub_witness :
  exists w',
    download_link urljoin_absolute always_ok
      (Pathlib.parse "/repo/course/1-intro/slides")
      (Tag "https://en.wikipedia.org/wiki/Graph_theory") (World ∅ [])
    = (Return tt, w')
    /\ fs w' !! Pathlib.parse "/repo/course/1-intro/slides/Graph_theory.md"
       = Some (File (visit_webpage "https://en.wikipedia.org/wiki/Graph_theory"))
    /\ visit_webpage "https://en.wikipedia.org/wiki/Graph_theory"
       = "#VISIT WEBPAGE:" +:+ nl +:+ nl
         +:+ "[" +:+ "https://en.wikipedia.org/wiki/Graph_theory" +:+ "]("
         +:+ "https://en.wikipedia.org/wiki/Graph_theory" +:+ ")"
    /\ log w'
       = log (World ∅ [])
         ++ [Printed ("https://en.wikipedia.org/wiki/Graph_theory" +:+ " --> "
                      +:+ Pathlib.str
                            (Pathlib.parse
                               "/repo/course/1-intro/slides/Graph_theory.html"));
             Wrote (Pathlib.parse "/repo/course/1-intro/slides/Graph_theory.md")
                   (visit_webpage "https://en.wikipedia.org/wiki/Graph_theory")].
Proof.
  apply (suffixless_anchor_becomes_stub urljoin_absolute always_ok
           (Pathlib.parse "/repo/course/1-intro/slides")
           "https://en.wikipedia.org/wiki/Graph_theory" (World ∅ [])).
  - reflexivity.
  - vm_compute. congruence.
Defined.

(** ** Buckets and rows *)

Module RowFacts.

Import PlanDefs.

Lemma download_link_run urljoin client to l w :
  download_link urljoin client to l w
  = (plan_outcome (link_plan urljoin client to l),
     World (link_fs urljoin client to l (fs w))
           (log w ++ plan_events (link_plan urljoin client to l))).
Proof.
  rewrite AnchorFacts.download_link_file, DownloadFacts.download_file_plan.
  unfold link_fs, link_plan, plan_outcome, plan_events.
  destruct (file_plan client (link_url urljoin l)
              (Pathlib.join to (link_name urljoin l))) as [evs [[q c]|e]];
    reflexivity.
Qed.

Lemma plan_ok_outcome p :
  plan_ok p = match plan_outcome p with Return _ => true | Raise _ => false end.
Proof. by destruct p as [evs [[q c]|e]]. Qed.

(** A bucket, in closed form. *)
Lemma bulk_download_run urljoin links to client w :
  bulk_download urljoin links to client w
  = (fst (bucket_result urljoin client to links (fs w)),
     World (snd (bucket_result urljoin client to links (fs w)))
           (log w ++ bucket_trace urljoin client to links)).
Proof.
  revert w. induction links as [|l links IH]; intros w.
  - destruct w. simpl. by rewrite List.app_nil_r.
  - cbn [bulk_download bucket_result bucket_trace].
    unfold mbind, M_bind. rewrite download_link_run, plan_ok_outcome.
    destruct (plan_outcome (link_plan urljoin client to l)) as [[]|e].
    + rewrite IH. cbn [fs log]. by rewrite <- List.app_assoc.
    + cbn [fst snd]. by rewrite List.app_nil_r.
Qed.

(** The directives of a bucket run one after the other. *)
Lemma bulk_download_app urljoin links1 links2 to client w :
  bulk_download urljoin (links1 ++ links2) to client w
  = (bulk_download urljoin links1 to client
     ;; bulk_download urljoin links2 to client) w.
Proof.
  revert w. induction links1 as [|l links1 IH]; intros w.
  - unfold mbind, M_bind. reflexivity.
  - cbn [List.app bulk_download]. unfold mbind, M_bind in *.
    destruct (download_link urljoin client to l w) as [[[]|e] w1]; [|done].
    apply IH.
Qed.

Lemma bucket_trace_ok urljoin client to links m :
  fst (bucket_result urljoin client to links m) = Return tt ->
  bucket_trace urljoin client to links
  = List.concat
      (List.map (fun l => plan_events (link_plan urljoin client to l)) links).
Proof.
  revert m. induction links as [|l links IH]; intros m; [done|].
  cbn [bucket_result bucket_trace List.map List.concat].
  rewrite plan_ok_outcome.
  destruct (plan_outcome (link_plan urljoin client to l)) as [[]|e]; [|done].
  intros H. by rewrite (IH _ H).
Qed.

(** The events of one directive: the printed line, the request when one is
    sent, and the write when the directive does not raise. *)
Lemma plan_events_shape urljoin client to l :
  let url := link_url urljoin l in
  let dest := Pathlib.join to (link_name urljoin l) in
  let line := Printed (url +:+ " --> " +:+ Pathlib.str dest) in
  match snd (link_plan urljoin client to l) with
  | Return (q, c) =>
      plan_events (link_plan urljoin client to l) = [line; Wrote q c]
      \/ plan_events (link_plan urljoin client to l)
         = [line; Requested url; Wrote q c]
  | Raise _ =>
      plan_events (link_plan urljoin client to l) = [line]
      \/ plan_events (link_plan urljoin client to l) = [line; Requested url]
  end.
Proof.
  intros url dest line. unfold link_plan, file_plan. fold url dest line.
  destruct (String.eqb (Pathlib.suffix dest) ".html").
  - destruct (Pathlib.with_suffix dest ".md"); simpl; by left.
  - destruct (client url) as [st body|]; [destruct (is_success st)|].
    + simpl. by right.
    + destruct (Pathlib.with_suffix dest ".md"); simpl; by right.
    + simpl. by right.
Qed.

End RowFacts.

Module RowRun.

Import PlanDefs ScanDefs.

Ltac step_monad :=
  cbv beta iota zeta delta [mbind M_bind mret M_ret set_fs get_fs print emit];
  cbn [fs log fst snd].

(** [process_row] on a row that returns normally, in closed form. *)
Lemma process_row_ok urljoin cells outdir client w w' :
  2 <= length cells ->
  process_row urljoin cells outdir client w = (Return tt, w') ->
  let directory := row_directory outdir cells in
  let slides := List.map Tag (cell_links cells 1) in
  let reading := List.map Tag (cell_links cells 2) in
  let homework := rewritten (cell_links cells 3) 0 in
  let r1 := bucket_result urljoin client (Pathlib.join directory "slides")
              slides (Fs.mkdir directory (fs w)) in
  let r2 := bucket_result urljoin client (Pathlib.join directory "reading")
              reading (snd r1) in
  let r3 := bucket_result urljoin client (Pathlib.join directory "homework")
              homework (snd r2) in
  fst r1 = Return tt /\ fst r2 = Return tt /\ fst r3 = Return tt
  /\ fs w' = match Fs.iterdir (snd r3) directory with
             | [] => Fs.rmdir directory (snd r3)
             | _ :: _ => snd r3
             end
  /\ log w'
     = log w ++ [Printed (Pathlib.str directory)]
       ++ bucket_trace urljoin client (Pathlib.join directory "slides") slides
       ++ bucket_trace urljoin client (Pathlib.join directory "reading") reading
       ++ anomalies (cell_links cells 3)
       ++ bucket_trace urljoin client (Pathlib.join directory "homework")
            homework.
Proof.
  intros Hcells Hrun directory slides reading homework r1 r2 r3.
  revert Hrun. unfold process_row.
  destruct (Nat.ltb_spec (length cells) 2) as [Hlt|_]; [lia|].
  step_monad.
  rewrite RowFacts.bulk_download_run. cbn [fs log fst snd].
  fold directory slides r1.
  destruct (fst r1) as [[]|e1]; [|done].
  rewrite RowFacts.bulk_download_run. cbn [fs log fst snd].
  fold reading r2.
  destruct (fst r2) as [[]|e2]; [|done].
  rewrite ScanFacts.scan_events_closed. cbn [fs log fst snd List.app].
  rewrite RowFacts.bulk_download_run. cbn [fs log fst snd].
  fold homework r3.
  destruct (fst r3) as [[]|e3]; [|done].
  destruct (Fs.iterdir (snd r3) directory) as [|q qs];
    intros [= <-]; cbn [fs log]; repeat split;
    by rewrite <- !List.app_assoc.
Qed.

End RowRun.

Module DirFacts.

Lemma iterdir_in (m : gmap Path node) d q :
  In q (Fs.iterdir m d) <-> Fs.is_entry d q = true /\ is_Some (m !! q).
Proof.
  unfold Fs.iterdir. rewrite List.filter_In, List.in_map_iff. split.
  - intros [([q' x] & <- & Hin) He]. split; [done|].
    apply list_elem_of_In, elem_of_map_to_list in Hin. by exists x.
  - intros [He [x Hx]]. split; [|done]. exists (q, x). split; [done|].
    by apply list_elem_of_In, elem_of_map_to_list.
Qed.

Lemma iterdir_nil (m : gmap Path node) d :
  Fs.iterdir m d = [] <-> forall q, Fs.is_entry d q = true -> m !! q = None.
Proof.
  split.
  - intros Hnil q He. destruct (m !! q) as [x|] eqn:E; [|done].
    assert (Hin : In q (Fs.iterdir m d)) by (apply iterdir_in; eauto).
    rewrite Hnil in Hin. destruct Hin.
  - intros Hnone. destruct (Fs.iterdir m d) as [|q qs] eqn:E; [done|].
    assert (Hin : In q (Fs.iterdir m d)) by (rewrite E; by left).
    apply iterdir_in in Hin as [He [x Hx]]. by rewrite (Hnone q He) in Hx.
Qed.

End DirFacts.

Module OrderFacts.

Import PlanDefs.

Lemma bucket_ok_links urljoin client to links m l :
  fst (bucket_result urljoin client to links m) = Return tt ->
  In l links ->
  exists q c, snd (link_plan urljoin client to l) = Return (q, c).
Proof.
  revert m. induction links as [|l' links IH]; intros m; [by intros _ []|].
  cbn [bucket_result]. unfold plan_outcome.
  destruct (snd (link_plan urljoin client to l')) as [[q c]|e] eqn:E; [|done].
  intros Hok [<-|Hin]; [by exists q, c|]. by apply (IH _ Hok).
Qed.

End OrderFacts.

(** C2, as stated, fails in its second half: the directives of a bucket are
    not dispatched together.  In a bucket of two directives the request of
    the second is sent after the file of the first has been written; and
    when two directives have the same destination, the file is left with the
    content of the one that comes last in the list, so that the order of the
    directives is guaranteed and can be observed. *)
Lemma bucket_in_list_order_counterexample :
  log (snd (bulk_download urljoin_absolute
              [Pair "https://a.example/one.pdf" "one.pdf";
               Pair "https://a.example/two.pdf" "two.pdf"]
              (Pathlib.parse "/repo/course/1-intro/slides") echo
              (World ∅ [])))
  = [Printed "https://a.example/one.pdf --> /repo/course/1-intro/slides/one.pdf";
     Requested "https://a.example/one.pdf";
     Wrote (Pathlib.parse "/repo/course/1-intro/slides/one.pdf")
           "https://a.example/one.pdf";
     Printed "https://a.example/two.pdf --> /repo/course/1-intro/slides/two.pdf";
     Requested "https://a.example/two.pdf";
     Wrote (Pathlib.parse "/repo/course/1-intro/slides/two.pdf")
           "https://a.example/two.pdf"]
  /\ fs (snd (bulk_download urljoin_absolute
                [Pair "https://a.example/one.pdf" "same.pdf";
                 Pair "https://a.example/two.pdf" "same.pdf"]
                (Pathlib.parse "/repo/course/1-intro/slides") echo
                (World ∅ [])))
     !! Pathlib.parse "/repo/course/1-intro/slides/same.pdf"
     = Some (File "https://a.example/two.pdf")
  /\ fs (snd (bulk_download urljoin_absolute
                [Pair "https://a.example/two.pdf" "same.pdf";
                 Pair "https://a.example/one.pdf" "same.pdf"]
                (Pathlib.parse "/repo/course/1-intro/slides") echo
                (World ∅ [])))
     !! Pathlib.parse "/repo/course/1-intro/slides/same.pdf"
     = Some (File "https://a.example/one.pdf").
Proof. vm_compute. repeat split. Qed.

(** C2, amended: the three buckets of a row are downloaded one after the
    other, slides, then reading, then homework, and inside a bucket the
    directives are downloaded one after the other, in the order of the
    list: the events of a row that returns are the line of its directory,
    then the events of every directive of the slides, then those of the
    reading, then the anomalies of the homework links, then the events of
    the homework directives; and the events of one directive are its printed
    line, its request when it sends one, and its write, in a row. *)
Theorem buckets_and_directives_in_sequence
    (urljoin : string -> string -> string) (cells : list Cell)
    (outdir : Path) (client : Client) (w w' : world)
    (Hcells : 2 <= length cells)
    (Hrun : process_row urljoin cells outdir client w = (Return tt, w')) :
  let directory := row_directory outdir cells in
  let slides := List.map Tag (cell_links cells 1) in
  let reading := List.map Tag (cell_links cells 2) in
  let homework := ScanDefs.rewritten (cell_links cells 3) 0 in
  let events to links :=
    List.concat
      (List.map (PlanDefs.directive_events urljoin client to) links) in
  log w'
  = log w ++ [Printed (Pathlib.str directory)]
    ++ events (Pathlib.join directory "slides") slides
    ++ events (Pathlib.join directory "reading") reading
    ++ ScanDefs.anomalies (cell_links cells 3)
    ++ events (Pathlib.join directory "homework") homework
  /\ forall bucket links l,
       In (bucket, links)
          [("slides", slides); ("reading", reading); ("homework", homework)] ->
       In l links ->
       let to := Pathlib.join directory bucket in
       let url := PlanDefs.link_url urljoin l in
       let line :=
         Printed (url +:+ " --> "
                  +:+ Pathlib.str
                        (Pathlib.join to (PlanDefs.link_name urljoin l))) in
       exists q c,
         PlanDefs.directive_events urljoin client to l = [line; Wrote q c]
         \/ PlanDefs.directive_events urljoin client to l
            = [line; Requested url; Wrote q c].
Proof.
  intros directory slides reading homework events.
  destruct (RowRun.process_row_ok _ _ _ _ _ _ Hcells Hrun)
    as (H1 & H2 & H3 & _ & Hlog).
  cbv zeta in H1, H2, H3, Hlog.
  fold directory slides reading homework in H1, H2, H3, Hlog.
  split.
  - rewrite Hlog.
    rewrite (RowFacts.bucket_trace_ok _ _ _ _ _ H1).
    rewrite (RowFacts.bucket_trace_ok _ _ _ _ _ H2).
    rewrite (RowFacts.bucket_trace_ok _ _ _ _ _ H3).
    reflexivity.
  - intros bucket links l Hb Hl to url line.
    assert (Hplan : exists q c,
               snd (PlanDefs.link_plan urljoin client to l) = Return (q, c)).
    { destruct Hb as [[= <- <-]|[[= <- <-]|[[= <- <-]|[]]]];
        eapply OrderFacts.bucket_ok_links; eauto. }
    destruct Hplan as (q & c & Hplan). exists q, c.
    pose proof (RowFacts.plan_events_shape urljoin client to l) as Hshape.
    cbv zeta in Hshape. rewrite Hplan in Hshape. exact Hshape.
Qed.

Lemma buckets_and_directives_in_sequence_witness :
  log (snd (process_row urljoin_absolute two_slides_row
              (Pathlib.parse "/repo") echo (World ∅ [])))
  = [Printed "/repo/course/1-introduction";
     Printed "https://a.example/one.pdf --> /repo/course/1-introduction/slides/one.pdf";
     Requested "https://a.example/one.pdf";
     Wrote (Pathlib.parse "/repo/course/1-introduction/slides/one.pdf")
           "https://a.example/one.pdf";
     Printed "https://a.example/two.pdf --> /repo/course/1-introduction/slides/two.pdf";
     Requested "https://a.example/two.pdf";
     Wrote (Pathlib.parse "/repo/course/1-introduction/slides/two.pdf")
           "https://a.example/two.pdf"].
Proof.
  refine (proj1 (buckets_and_directives_in_sequence urljoin_absolute
                   two_slides_row (Pathlib.parse "/repo") echo (World ∅ [])
                   _ _ _)).
  - vm_compute. lia.
  - reflexivity.
Defined.

(** ** Rows run together *)

Module JobFacts.

Import PlanDefs NameDefs Job.

Section WithClient.

Variable urljoin : string -> string -> string.
Variable client : Client.

#[local] Abbreviation run_step := (Job.run_step urljoin client).
#[local] Abbreviation run_steps := (Job.run_steps urljoin client).
#[local] Abbreviation step_write := (Job.step_write urljoin client).
#[local] Abbreviation step_events := (Job.step_events urljoin client).
#[local] Abbreviation writes_to := (Job.writes_to urljoin client).

Lemma run_steps_app ss1 ss2 w :
  run_steps (ss1 ++ ss2) w = (run_steps ss1 ;; run_steps ss2) w.
Proof.
  revert w. induction ss1 as [|s ss1 IH]; intros w; [done|].
  cbn [List.app Job.run_steps]. unfold mbind, M_bind in *.
  destruct (run_step s w) as [[[]|e] w1]; [apply IH|done].
Qed.

Lemma bulk_download_steps links to w :
  bulk_download urljoin links to client w
  = run_steps (List.map (Fetch to) links) w.
Proof.
  revert w. induction links as [|l links IH]; intros w; [done|].
  cbn [bulk_download List.map Job.run_steps Job.run_step].
  unfold mbind, M_bind.
  destruct (download_link urljoin client to l w) as [[[]|e] w1]; [apply IH|done].
Qed.

(** [process_row] does the steps of the row, one after the other. *)
Lemma process_row_steps cells outdir w :
  process_row urljoin cells outdir client w
  = run_steps (row_steps outdir cells) w.
Proof.
  unfold process_row, row_steps.
  destruct (length cells <? 2); [done|].
  cbn [List.app Job.run_steps Job.run_step].
  cbv beta iota zeta delta [mbind M_bind mret M_ret set_fs get_fs print emit].
  cbn [fs log fst snd].
  rewrite run_steps_app, bulk_download_steps. unfold mbind at 1, M_bind at 1.
  destruct (run_steps _ _) as [[[]|e1] w1]; [|done].
  rewrite run_steps_app, bulk_download_steps. unfold mbind at 1, M_bind at 1.
  destruct (run_steps _ _) as [[[]|e2] w2]; [|done].
  rewrite ScanFacts.scan_events_closed.
  cbn [List.app Job.run_steps Job.run_step].
  unfold mbind at 1, M_bind at 1. cbn [fs log fst snd].
  rewrite run_steps_app, bulk_download_steps. unfold mbind at 1, M_bind at 1.
  destruct (run_steps _ _) as [[[]|e3] w3]; [|done].
  cbn [Job.run_steps Job.run_step].
  cbv beta iota zeta delta [mbind M_bind mret M_ret set_fs get_fs].
  by destruct (Fs.iterdir (fs w3) (row_directory outdir cells)).
Qed.

Lemma mkdir_preserve p (m : gmap Path node) q x :
  m !! q = Some x -> Fs.mkdir p m !! q = Some x.
Proof.
  intros Hq. rewrite FsFacts.mkdir_lookup, Hq.
  by destruct (decide (q ∈ Fs.chain p)).
Qed.

(** One step that returns: its events, the file it writes, and what it
    leaves as it was. *)
Lemma run_step_ok s w w1 :
  run_step s w = (Return tt, w1) ->
  log w1 = log w ++ step_events s
  /\ (forall q c, step_write s = Some (q, c) -> fs w1 !! q = Some (File c))
  /\ (forall q x, fs w !! q = Some x -> s <> Leave q ->
        (forall c, step_write s <> Some (q, c)) -> fs w1 !! q = Some x).
Proof.
  destruct s as [d|to l|lines|d]; cbn [Job.run_step Job.step_write Job.step_events].
  - cbv beta iota zeta delta [mbind M_bind mret M_ret set_fs print emit].
    cbn [fs log]. intros [= <-]. cbn [fs log].
    split; [done|]. split; [done|]. intros q x Hq _ _. by apply mkdir_preserve.
  - rewrite RowFacts.download_link_run. unfold plan_outcome, directive_events.
    unfold link_fs.
    destruct (snd (link_plan urljoin client to l)) as [[q' c']|e] eqn:E; [|done].
    intros [= <-]. cbn [fs log]. split; [done|]. split.
    + intros q c [= <- <-]. unfold Fs.write. by rewrite lookup_insert_eq.
    + intros q x Hq _ Hw. unfold Fs.write.
      rewrite lookup_insert_ne by (intros ->; by apply (Hw c')).
      apply mkdir_preserve. destruct (Fs.exists_ (fs w) to); [done|].
      by apply mkdir_preserve.
  - intros [= <-]. cbn [fs log]. split; [done|]. split; [done|]. auto.
  - cbv beta iota zeta delta [mbind M_bind mret M_ret set_fs get_fs].
    destruct (Fs.iterdir (fs w) d); intros [= <-]; cbn [fs log];
      (split; [by rewrite List.app_nil_r|]); (split; [done|]).
    + intros q x Hq Hne _. unfold Fs.rmdir.
      rewrite lookup_delete_ne; [done|]. intros ->. by apply Hne.
    + auto.
Qed.

Lemma run_steps_cons s ss w w' :
  run_steps (s :: ss) w = (Return tt, w') ->
  exists w1, run_step s w = (Return tt, w1) /\ run_steps ss w1 = (Return tt, w').
Proof.
  cbn [Job.run_steps]. unfold mbind, M_bind.
  destruct (run_step s w) as [[[]|e] w1]; [|done]. intros H. by exists w1.
Qed.

Lemma run_steps_log ss w w' :
  run_steps ss w = (Return tt, w') ->
  log w' = log w ++ List.concat (List.map step_events ss).
Proof.
  revert w. induction ss as [|s ss IH]; intros w.
  - intros [= <-]. simpl. by rewrite List.app_nil_r.
  - intros Hrun. apply run_steps_cons in Hrun as (w1 & Hs & Hss).
    apply run_step_ok in Hs as (Hlog & _ & _).
    rewrite (IH _ Hss), Hlog. simpl. by rewrite <- List.app_assoc.
Qed.

Lemma writes_to_cons q s ss :
  writes_to q (s :: ss)
  = match step_write s with
    | Some (q', c) =>
        if decide (q' = q) then c :: writes_to q ss else writes_to q ss
    | None => writes_to q ss
    end.
Proof. reflexivity. Qed.

(** What some steps leave at a path that none of them removes: the content
    of the last write to it, or what was there when there is no write. *)
Lemma run_steps_content ss q w w' :
  run_steps ss w = (Return tt, w') ->
  ~ In (Leave q) ss ->
  (forall x, writes_to q ss = [] -> fs w !! q = Some x -> fs w' !! q = Some x)
  /\ (forall c, last (writes_to q ss) = Some c -> fs w' !! q = Some (File c)).
Proof.
  revert w. induction ss as [|s ss IH]; intros w.
  - intros [= <-] _. split; [auto|done].
  - intros Hrun Hleave. apply run_steps_cons in Hrun as (w1 & Hs & Hss).
    apply run_step_ok in Hs as (_ & Hwrite & Hkeep).
    assert (Hleave' : ~ In (Leave q) ss) by (intros H; apply Hleave; by right).
    assert (Hs_leave : s <> Leave q) by (intros ->; apply Hleave; by left).
    destruct (IH _ Hss Hleave') as [IH1 IH2].
    rewrite writes_to_cons.
    destruct (step_write s) as [[q' c']|] eqn:Ew.
    + destruct (decide (q' = q)) as [->|Hne].
      * split; [done|]. intros c Hlast.
        destruct (writes_to q ss) as [|c1 cs] eqn:Eq.
        -- injection Hlast as <-. apply IH1; [done|]. by apply Hwrite.
        -- apply IH2. exact Hlast.
      * split; [|exact IH2]. intros x Hnil Hq. apply IH1; [done|].
        apply Hkeep; [done|done|]. intros c [= E _]. by apply Hne.
    + split; [|exact IH2]. intros x Hnil Hq. apply IH1; [done|].
      apply Hkeep; done.
Qed.

(** *** Schedules *)

Lemma concat_pick {A} (tasks : list (list A)) i s rest :
  tasks !! i = Some (s :: rest) ->
  List.concat tasks ≡ₚ s :: List.concat (<[i := rest]> tasks).
Proof.
  intros Hi. pose proof (lookup_lt_Some _ _ _ Hi) as Hlt.
  rewrite insert_take_drop by done.
  rewrite <- (take_drop_middle _ _ _ Hi) at 1.
  rewrite !List.concat_app. simpl.
  by rewrite <- Permutation_middle.
Qed.

(** A schedule changes the order of the steps, not the steps. *)
Lemma merge_perm sched tasks :
  merge sched tasks ≡ₚ List.concat tasks.
Proof.
  revert tasks. induction sched as [|i sched IH]; intros tasks; [done|].
  cbn [merge]. destruct (tasks !! i) as [[|s rest]|] eqn:Ei; [apply IH| |apply IH].
  rewrite IH. symmetry. by apply concat_pick.
Qed.

Lemma writes_to_app q ss1 ss2 :
  writes_to q (ss1 ++ ss2) = writes_to q ss1 ++ writes_to q ss2.
Proof.
  induction ss1 as [|s ss1 IH]; [done|].
  cbn [List.app]. rewrite !writes_to_cons.
  destruct (step_write s) as [[q' c']|]; [|done].
  destruct (decide (q' = q)); [|done]. simpl. by rewrite IH.
Qed.

Lemma writes_to_concat_none q (tasks : list (list step)) :
  (forall j t, tasks !! j = Some t -> writes_to q t = []) ->
  writes_to q (List.concat tasks) = [].
Proof.
  induction tasks as [|t tasks IH]; intros H; [done|].
  simpl. rewrite writes_to_app, (H 0 t eq_refl), IH; [done|].
  intros j t' Hj. by apply (H (S j)).
Qed.

Lemma writes_to_concat_alone q (tasks : list (list step)) i :
  (forall j t, j <> i -> tasks !! j = Some t -> writes_to q t = []) ->
  writes_to q (List.concat tasks) = writes_to q (default [] (tasks !! i)).
Proof.
  revert i. induction tasks as [|t tasks IH]; intros i H; [by destruct i|].
  simpl. rewrite writes_to_app. destruct i as [|i]; simpl.
  - rewrite writes_to_concat_none; [by rewrite List.app_nil_r|].
    intros j t' Hj. by apply (H (S j)).
  - rewrite (H 0 t) by done. simpl. apply IH.
    intros j t' Hne Hj. apply (H (S j)); [lia|done].
Qed.

(** When one task only writes to a path, the writes to that path are those
    of the task, in its own order, under any schedule. *)
Lemma merge_writes_alone q sched (tasks : list (list step)) i :
  (forall j t, j <> i -> tasks !! j = Some t -> writes_to q t = []) ->
  writes_to q (merge sched tasks) = writes_to q (default [] (tasks !! i)).
Proof.
  revert tasks. induction sched as [|k sched IH]; intros tasks H.
  - by apply writes_to_concat_alone.
  - cbn [merge].
    destruct (tasks !! k) as [[|s rest]|] eqn:Ek; [by apply IH| |by apply IH].
    pose proof (lookup_lt_Some _ _ _ Ek) as Hlt.
    destruct (decide (k = i)) as [->|Hne].
    + rewrite Ek. cbn [default]. rewrite !writes_to_cons.
      rewrite (IH (<[i := rest]> tasks)).
      * rewrite list_lookup_insert_eq by done. reflexivity.
      * intros j t Hj. rewrite list_lookup_insert_ne by done. by apply H.
    + pose proof (H k _ Hne Ek) as Hk. rewrite writes_to_cons in Hk.
      rewrite writes_to_cons.
      rewrite (IH (<[k := rest]> tasks)).
      * rewrite list_lookup_insert_ne by done.
        destruct (step_write s) as [[q' c']|]; [|done].
        destruct (decide (q' = q)); done.
      * intros j t Hj. destruct (decide (j = k)) as [->|Hjk].
        -- rewrite list_lookup_insert_eq by done. intros [= <-].
           destruct (step_write s) as [[q' c']|]; [|done].
           destruct (decide (q' = q)); done.
        -- rewrite list_lookup_insert_ne by done. by apply H.
Qed.

(** *** The paths of a row *)

Lemma join_simple to s :
  simple s -> Pathlib.join to s = MkPath (root to) (components to ++ [s]).
Proof. intros (H1 & H2 & H3). by apply AnchorFacts.join_name. Qed.

Lemma digits_of_uint d :
  Str.all Char.is_digit (NilEmpty.string_of_uint d) = true.
Proof. induction d; simpl; done. Qed.

Lemma of_nat_digits n : Str.all Char.is_digit (Str.of_nat n) = true.
Proof.
  unfold Str.of_nat, NilZero.string_of_uint.
  destruct (Nat.to_uint n) eqn:E; try done;
    rewrite <- E; apply digits_of_uint.
Qed.

Lemma colab_name_simple n : simple (colab_name n).
Proof.
  unfold colab_name. split; [|split; done].
  rewrite !AnchorFacts.all_app.
  assert (H : Str.all NameDefs.no_slash (Str.of_nat n) = true).
  { generalize (of_nat_digits n). apply SlugFacts.all_weaken.
    intros c. SlugFacts.by_cases_on c. }
  by rewrite H.
Qed.

Lemma tag_name_simple href : simple (link_name urljoin (Tag href)).
Proof.
  unfold link_name. set (url := urljoin BASE_URL href).
  destruct (String.eqb_spec (Pathlib.suffix (Pathlib.parse url)) "") as [E|E];
    cbn [negb].
  - set (base := Pathlib.name (Pathlib.parse (Url.urlsplit_path url))).
    destruct (String.eqb_spec base "") as [->|Hb]; [by repeat split|].
    split; [|split].
    + pose proof (AnchorFacts.name_no_slash _ Hb) as Hb'.
      change (Str.all NameDefs.no_slash base = true) in Hb'.
      by rewrite AnchorFacts.all_app, Hb'.
    + by destruct base.
    + by destruct base as [|? [|? ?]].
  - assert (Hn : Pathlib.name (Pathlib.parse url) <> "").
    { intros Hn. apply E. unfold Pathlib.suffix. by rewrite Hn. }
    split; [by apply AnchorFacts.name_no_slash|]. split; [done|].
    intros Hn'. apply E. unfold Pathlib.suffix. by rewrite Hn'.
Qed.

Lemma rewritten_elems links k l :
  In l (ScanDefs.rewritten links k) ->
  (exists href, l = Tag href)
  \/ exists gid n, l = Pair (colab_url gid) (colab_name n).
Proof.
  revert k. induction links as [|u links IH]; intros k; [done|].
  cbn [ScanDefs.rewritten].
  destruct (Str.contains colab_marker u).
  - destruct (GID_PAT u) as [|g [|g' gs]]; [apply IH| |apply IH].
    intros [<-|Hin]; [right; by exists g, k|by apply (IH _ Hin)].
  - intros [<-|Hin]; [left; by exists u|by apply (IH _ Hin)].
Qed.

(** The file of a directive with a simple name is in its bucket. *)
Lemma file_plan_in_bucket url to name q c :
  simple name ->
  snd (file_plan client url (Pathlib.join to name)) = Return (q, c) ->
  exists x, q = MkPath (root to) (components to ++ [x]).
Proof.
  intros Hs. rewrite (join_simple to name Hs).
  set (dest := MkPath (root to) (components to ++ [name])).
  assert (Hws : forall stub, Pathlib.with_suffix dest ".md" = Some stub ->
                  exists x, stub = MkPath (root to) (components to ++ [x])).
  { unfold Pathlib.with_suffix, dest. rewrite PathFacts.name_snoc.
    cbn [root components]. rewrite List.removelast_last.
    destruct (String.eqb name ""); [done|]. intros stub [= <-]. by eexists. }
  unfold file_plan.
  destruct (String.eqb (Pathlib.suffix dest) ".html").
  - destruct (Pathlib.with_suffix dest ".md") as [stub|] eqn:E; [|done].
    intros [= <- _]. by apply Hws.
  - destruct (client url) as [st body|]; [|done].
    destruct (is_success st).
    + intros [= <- _]. by exists name.
    + destruct (Pathlib.with_suffix dest ".md") as [stub|] eqn:E; [|done].
      intros [= <- _]. by apply Hws.
Qed.

Lemma slug_no_slash d : Str.all NameDefs.no_slash (slug d) = true.
Proof.
  rewrite SlugFacts.slug_finish.
  generalize (SlugFacts.finish_settled (Re.sub_brackets (Re.sub_ordinal d))).
  apply SlugFacts.all_weaken. intros c. SlugFacts.by_cases_on c.
Qed.

(** The directory of a row: [outdir], then [course], then at most one
    component more. *)
Lemma row_directory_shape outdir cells :
  exists t, length t <= 1
            /\ row_directory outdir cells
               = MkPath (root outdir) (components outdir ++ "course" :: t).
Proof.
  unfold row_directory.
  set (s := slug (get_text (List.nth 1 cells (MkCell "" [])))).
  assert (Hs : Str.all NameDefs.no_slash s = true) by apply slug_no_slash.
  assert (Hc : Pathlib.join outdir "course"
               = MkPath (root outdir) (components outdir ++ ["course"])).
  { apply AnchorFacts.join_name; done. }
  rewrite Hc. unfold Pathlib.joinpath, Pathlib.parse.
  rewrite (AnchorFacts.split_none "/" s Hs). cbn [root components].
  assert (Hroot : Pathlib.splitroot s = "").
  { unfold Pathlib.splitroot. destruct s as [|c s']; [done|].
    cbn [Str.all] in Hs. apply andb_true_iff in Hs as [Hc' _].
    unfold NameDefs.no_slash, Char.eqb in Hc'.
    apply negb_true_iff, Ascii.eqb_neq in Hc'.
    cbn [Str.prefixb]. unfold Char.eqb.
    destruct (Ascii.eqb_spec "/" c) as [E|E]; [congruence|done]. }
  rewrite Hroot. cbn [String.eqb].
  exists (List.filter Pathlib.is_component [s]). split.
  - simpl. destruct (Pathlib.is_component s); simpl; lia.
  - by rewrite <- List.app_assoc.
Qed.

Lemma row_steps_leave outdir cells d :
  In (Leave d) (row_steps outdir cells) -> d = row_directory outdir cells.
Proof.
  unfold row_steps. destruct (length cells <? 2); [done|].
  rewrite !List.in_app_iff, !List.in_map_iff.
  intros [[[=]|[]]|[(l & [=] & _)|[(l & [=] & _)|[[[=]|[]]
           |[(l & [=] & _)|[[= <-]|[]]]]]]]. done.
Qed.

Lemma row_steps_write outdir cells s q c :
  In s (row_steps outdir cells) -> step_write s = Some (q, c) ->
  exists b x,
    q = MkPath (root outdir)
          (components (row_directory outdir cells) ++ [b; x]).
Proof.
  intros Hin Hw. destruct s as [|to l| |]; try done.
  cbn [Job.step_write] in Hw.
  destruct (snd (link_plan urljoin client to l)) as [[q' c']|] eqn:Ep; [|done].
  injection Hw as -> ->.
  assert (Hto : exists b,
             to = MkPath (root outdir)
                    (components (row_directory outdir cells) ++ [b])
             /\ simple (link_name urljoin l)).
  { destruct (row_directory_shape outdir cells) as (t & _ & HD).
    assert (Hj : forall b, simple b ->
               Pathlib.join (row_directory outdir cells) b
               = MkPath (root outdir)
                   (components (row_directory outdir cells) ++ [b])).
    { intros b Hb. rewrite (join_simple _ _ Hb). by rewrite HD. }
    revert Hin. unfold row_steps. destruct (length cells <? 2); [done|].
    rewrite !List.in_app_iff, !List.in_map_iff.
    intros [[[=]|[]]|[(l' & [= <- <-] & Hl)|[(l' & [= <- <-] & Hl)|[[[=]|[]]
             |[(l' & [= <- <-] & Hl)|[[=]|[]]]]]]].
    - exists "slides". split; [by apply Hj|].
      apply List.in_map_iff in Hl as (h & <- & _). apply tag_name_simple.
    - exists "reading". split; [by apply Hj|].
      apply List.in_map_iff in Hl as (h & <- & _). apply tag_name_simple.
    - exists "homework". split; [by apply Hj|].
      apply rewritten_elems in Hl as [(h & ->)|(g & n & ->)];
        [apply tag_name_simple|apply colab_name_simple]. }
  destruct Hto as (b & -> & Hsimple).
  unfold link_plan in Ep.
  destruct (file_plan_in_bucket _ _ _ _ _ Hsimple Ep) as (x & ->).
  exists b, x. cbn [root components]. by rewrite <- List.app_assoc.
Qed.

(** No row removes a file written by a row. *)
Lemma row_write_not_left outdir cells cells' s q c :
  In s (row_steps outdir cells) -> step_write s = Some (q, c) ->
  ~ In (Leave q) (row_steps outdir cells').
Proof.
  intros Hin Hw Hl. apply row_steps_leave in Hl.
  destruct (row_steps_write _ _ _ _ _ Hin Hw) as (b & x & Hq).
  destruct (row_directory_shape outdir cells) as (t & Ht & HD).
  destruct (row_directory_shape outdir cells') as (t' & Ht' & HD').
  rewrite HD in Hq. rewrite HD' in Hl. rewrite Hq in Hl.
  injection Hl as Hl. cbn [components] in Hl.
  apply (f_equal (@length string)) in Hl.
  repeat (rewrite ?List.length_app in Hl; simpl in Hl). lia.
Qed.

(** *** The job *)

Lemma writes_to_in q ss :
  writes_to q ss <> [] ->
  exists s c, In s ss /\ step_write s = Some (q, c).
Proof.
  induction ss as [|s ss IH]; [done|]. rewrite writes_to_cons.
  destruct (step_write s) as [[q' c']|] eqn:E.
  - destruct (decide (q' = q)) as [->|Hne].
    + intros _. exists s, c'. split; [by left|done].
    + intros H. destruct (IH H) as (s' & c & Hin & Hw).
      exists s', c. split; [by right|done].
  - intros H. destruct (IH H) as (s' & c & Hin & Hw).
    exists s', c. split; [by right|done].
Qed.

Lemma events_perm (ss1 ss2 : list step) :
  ss1 ≡ₚ ss2 ->
  List.concat (List.map step_events ss1)
  ≡ₚ List.concat (List.map step_events ss2).
Proof.
  induction 1 as [|s ss1 ss2 _ IH|s s' ss|ss1 ss2 ss3 _ IH1 _ IH2]; simpl.
  - done.
  - by rewrite IH.
  - rewrite !List.app_assoc. f_equiv. apply Permutation_app_comm.
  - by rewrite IH1.
Qed.

Lemma events_concat (tasks : list (list step)) :
  List.concat (List.map step_events (List.concat tasks))
  = List.concat
      (List.map (fun t => List.concat (List.map step_events t)) tasks).
Proof.
  induction tasks as [|t tasks IH]; [done|].
  simpl. by rewrite List.map_app, List.concat_app, IH.
Qed.

(** A run of the job that returns: the events are those of the rows, and a
    path written by one row only holds what that row wrote to it last. *)
Lemma gather_ok rows outdir sched w w' :
  Job.gather urljoin client rows outdir sched w = (Return tt, w') ->
  (exists evs,
      log w' = log w ++ evs
      /\ evs ≡ₚ List.concat
                  (List.map (Job.row_events urljoin client outdir) rows))
  /\ forall i cells q c,
       rows !! i = Some cells ->
       last (writes_to q (row_steps outdir cells)) = Some c ->
       (forall j cells', j <> i -> rows !! j = Some cells' ->
          writes_to q (row_steps outdir cells') = []) ->
       fs w' !! q = Some (File c).
Proof.
  unfold Job.gather. intros Hrun. split.
  - eexists. split; [by apply run_steps_log|].
    rewrite (events_perm _ _ (merge_perm _ _)), events_concat.
    by rewrite List.map_map.
  - intros i cells q c Hrow Hlast Halone.
    set (tasks := List.map (row_steps outdir) rows) in *.
    assert (Hi : tasks !! i = Some (row_steps outdir cells)).
    { unfold tasks. change (List.map (row_steps outdir) rows)
        with (row_steps outdir <$> rows).
      by rewrite list_lookup_fmap, Hrow. }
    assert (Hothers : forall j t, j <> i -> tasks !! j = Some t ->
                        writes_to q t = []).
    { intros j t Hne Hj. unfold tasks in Hj.
      change (List.map (row_steps outdir) rows)
        with (row_steps outdir <$> rows) in Hj.
      rewrite list_lookup_fmap in Hj.
      destruct (rows !! j) as [cells'|] eqn:Ej; [|done].
      injection Hj as <-. by apply (Halone j). }
    assert (Hwrites : writes_to q (merge sched tasks)
                      = writes_to q (row_steps outdir cells)).
    { rewrite (merge_writes_alone q sched tasks i Hothers). by rewrite Hi. }
    assert (Hsome : writes_to q (row_steps outdir cells) <> []).
    { intros E. by rewrite E in Hlast. }
    destruct (writes_to_in _ _ Hsome) as (s & c0 & Hs & Hw).
    assert (Hleave : ~ In (Leave q) (merge sched tasks)).
    { intros Hin.
      apply list_elem_of_In in Hin. rewrite merge_perm in Hin.
      apply list_elem_of_In, List.in_concat in Hin as (t & Ht & Hin).
      apply List.in_map_iff in Ht as (cells' & <- & _).
      by apply (row_write_not_left _ _ _ _ _ _ Hs Hw) in Hin. }
    destruct (run_steps_content _ q _ _ Hrun Hleave) as [_ H2].
    apply H2. by rewrite Hwrites.
Qed.

(** *** A row that leaves no file *)

Lemma run_steps_fetch_ok ss w w' to l :
  run_steps ss w = (Return tt, w') -> In (Fetch to l) ss ->
  exists q c, step_write (Fetch to l) = Some (q, c).
Proof.
  revert w. induction ss as [|s ss IH]; intros w Hrun; [done|].
  apply run_steps_cons in Hrun as (w1 & Hs & Hss).
  intros [->|Hin]; [|by apply (IH _ Hss)].
  cbn [Job.run_step] in Hs. rewrite RowFacts.download_link_run in Hs.
  cbn [Job.step_write]. unfold plan_outcome in Hs.
  destruct (snd (link_plan urljoin client to l)) as [[q c]|e]; [|done].
  by exists q, c.
Qed.

Lemma writes_to_of_step q c s ss :
  In s ss -> step_write s = Some (q, c) -> writes_to q ss <> [].
Proof.
  induction ss as [|s' ss IH]; [done|]. rewrite writes_to_cons.
  intros [->|Hin] Hw.
  - rewrite Hw. by destruct (decide (q = q)).
  - destruct (step_write s') as [[q' c']|]; [|by apply IH].
    destruct (decide (q' = q)); [done|by apply IH].
Qed.

Lemma last_nonempty {A} (l : list A) : l <> [] -> exists x, last l = Some x.
Proof.
  intros Hne. destruct l as [|x l] using List.rev_ind; [done|].
  exists x. apply last_snoc.
Qed.

(** A directive of a row that returns leaves a file under the directory of
    the row. *)
Lemma row_fetch_leaves_file outdir cells w w' to l :
  run_steps (row_steps outdir cells) w = (Return tt, w') ->
  In (Fetch to l) (row_steps outdir cells) ->
  exists q c,
    DirDefs.under (row_directory outdir cells) q
    /\ fs w' !! q = Some (File c).
Proof.
  intros Hrun Hin.
  destruct (run_steps_fetch_ok _ _ _ _ _ Hrun Hin) as (q & c & Hw).
  pose proof (writes_to_of_step _ _ _ _ Hin Hw) as Hne.
  destruct (last_nonempty _ Hne) as (c' & Hlast).
  pose proof (row_write_not_left outdir cells cells _ _ _ Hin Hw) as Hleave.
  destruct (run_steps_content _ q _ _ Hrun Hleave) as [_ H2].
  exists q, c'. split; [|by apply H2].
  destruct (row_steps_write _ _ _ _ _ Hin Hw) as (b & x & ->).
  destruct (row_directory_shape outdir cells) as (t & _ & HD).
  split; [cbn [root]; by rewrite HD|]. by exists [b; x].
Qed.

Lemma entry_not_in_chain d q : Fs.is_entry d q = true -> q ∉ Fs.chain d.
Proof.
  unfold Fs.is_entry. intros He Hin.
  apply bool_decide_eq_true in He as [Hne <-].
  revert Hin. by apply FsFacts.not_in_parent_chain.
Qed.

(** A row without directive, from a directory without entries. *)
Lemma row_without_links outdir cells w w' :
  2 <= length cells ->
  cell_links cells 1 = [] -> cell_links cells 2 = [] ->
  ScanDefs.rewritten (cell_links cells 3) 0 = [] ->
  (forall q, Fs.is_entry (row_directory outdir cells) q = true ->
             fs w !! q = None) ->
  run_steps (row_steps outdir cells) w = (Return tt, w') ->
  fs w' !! row_directory outdir cells = None.
Proof.
  intros Hcells H1 H2 H3 Hfresh. unfold row_steps.
  destruct (Nat.ltb_spec (length cells) 2) as [Hlt|_]; [lia|].
  rewrite H1, H2, H3. cbn [List.map List.app Job.run_steps Job.run_step].
  cbv beta iota zeta delta [mbind M_bind mret M_ret set_fs get_fs print emit].
  cbn [fs log].
  set (D := row_directory outdir cells) in *.
  assert (Hnil : Fs.iterdir (Fs.mkdir D (fs w)) D = []).
  { apply DirFacts.iterdir_nil. intros q He. rewrite FsFacts.mkdir_lookup.
    destruct (decide (q ∈ Fs.chain D)) as [Hin|_]; [|by apply Hfresh].
    by apply entry_not_in_chain in He. }
  rewrite Hnil. intros [= <-]. cbn [fs]. apply lookup_delete_eq.
Qed.

Lemma row_steps_fetch_in outdir cells bucket links l :
  2 <= length cells ->
  In (bucket, links)
     [("slides", List.map Tag (cell_links cells 1));
      ("reading", List.map Tag (cell_links cells 2));
      ("homework", ScanDefs.rewritten (cell_links cells 3) 0)] ->
  In l links ->
  In (Fetch (Pathlib.join (row_directory outdir cells) bucket) l)
     (row_steps outdir cells).
Proof.
  intros Hcells Hb Hl. unfold row_steps.
  destruct (Nat.ltb_spec (length cells) 2) as [Hlt|_]; [lia|].
  rewrite !List.in_app_iff, !List.in_map_iff.
  destruct Hb as [[= <- <-]|[[= <- <-]|[[= <- <-]|[]]]].
  - right. left. by exists l.
  - right. right. left. by exists l.
  - right. right. right. right. left. by exists l.
Qed.

(** A row that returns, from a directory without entries, and leaves no
    file under its directory, leaves no directory. *)
Lemma row_without_files outdir cells w w' :
  2 <= length cells ->
  run_steps (row_steps outdir cells) w = (Return tt, w') ->
  (forall q, Fs.is_entry (row_directory outdir cells) q = true ->
             fs w !! q = None) ->
  (forall q c, DirDefs.under (row_directory outdir cells) q ->
               fs w' !! q <> Some (File c)) ->
  fs w' !! row_directory outdir cells = None.
Proof.
  intros Hcells Hrun Hfresh Hnofile.
  assert (Hno : forall bucket links l,
             In (bucket, links)
                [("slides", List.map Tag (cell_links cells 1));
                 ("reading", List.map Tag (cell_links cells 2));
                 ("homework", ScanDefs.rewritten (cell_links cells 3) 0)] ->
             In l links -> False).
  { intros bucket links l Hb Hl.
    pose proof (row_steps_fetch_in outdir cells _ _ _ Hcells Hb Hl) as Hin.
    destruct (row_fetch_leaves_file _ _ _ _ _ _ Hrun Hin) as (q & c & Hu & Hq).
    by apply (Hnofile q c). }
  apply (row_without_links outdir cells w w' Hcells); try done.
  - destruct (cell_links cells 1) as [|h t]; [done|].
    destruct (Hno "slides" _ (Tag h) ltac:(by left) ltac:(by left)).
  - destruct (cell_links cells 2) as [|h t]; [done|].
    destruct (Hno "reading" _ (Tag h)
                ltac:(by right; left) ltac:(by left)).
  - destruct (ScanDefs.rewritten (cell_links cells 3) 0) as [|l t]; [done|].
    destruct (Hno "homework" _ l
                ltac:(by right; right; left) ltac:(by left)).
Qed.

End WithClient.

End JobFacts.






(** * Further properties of the script *)

(** ** One download *)

Module FileFacts.

Import PlanDefs.

Lemma success status : 200 <= status <= 299 -> is_success status = true.
Proof.
  intros [H1 H2]. unfold is_success.
  apply andb_true_iff. split; by apply Nat.leb_le.
Qed.

(** A directory that is made where all of it is already. *)
Lemma mkdir_present p (m : gmap Path node) :
  (forall q, q ∈ Fs.chain p -> is_Some (m !! q)) -> Fs.mkdir p m = m.
Proof.
  intros H. apply map_eq. intros q. rewrite FsFacts.mkdir_lookup.
  destruct (decide (q ∈ Fs.chain p)) as [Hin|]; [|done].
  by destruct (H q Hin) as [x ->].
Qed.

Lemma mkdir_write_mkdir p q c (m : gmap Path node) :
  Fs.mkdir p (Fs.write q c (Fs.mkdir p m)) = Fs.write q c (Fs.mkdir p m).
Proof.
  apply mkdir_present. intros r Hr. unfold Fs.write.
  destruct (decide (q = r)) as [->|Hne].
  - rewrite lookup_insert_eq. by eexists.
  - rewrite lookup_insert_ne by done. rewrite FsFacts.mkdir_lookup.
    destruct (decide (r ∈ Fs.chain p)); [by eexists|done].
Qed.

(** The plan of a download that is answered with a success. *)
Lemma file_plan_success client url dest_path status body :
  Pathlib.suffix dest_path <> ".html" ->
  client url = Response status body -> 200 <= status <= 299 ->
  file_plan client url dest_path
  = ([Printed (url +:+ " --> " +:+ Pathlib.str dest_path); Requested url],
     Return (dest_path, body)).
Proof.
  intros Hs Hr Hok. unfold file_plan.
  rewrite (PathFacts.eqb_neq _ _ Hs), Hr. by rewrite (success _ Hok).
Qed.

Lemma file_plan_unreachable client url dest_path :
  Pathlib.suffix dest_path <> ".html" ->
  client url = ConnectError ->
  file_plan client url dest_path
  = ([Printed (url +:+ " --> " +:+ Pathlib.str dest_path); Requested url],
     Raise TransportError).
Proof.
  intros Hs Hr. unfold file_plan.
  by rewrite (PathFacts.eqb_neq _ _ Hs), Hr.
Qed.

(** The parts of a name whose suffix is known. *)
Lemma splitext_suffix n ext :
  snd (Pathlib.splitext n) = ext ->
  n = fst (Pathlib.splitext n) +:+ ext.
Proof.
  intros <-. pose proof (PathFacts.splitext_spec n) as H.
  destruct (Pathlib.splitext n) as [stem ext]. by destruct H as [H _].
Qed.

End FileFacts.

(** X1.  A download that is answered with a success status saves the body of
    the response at the destination, whatever was there before, after making
    the missing directories above it; it changes nothing else and logs the
    line, the request and the write. *)
Theorem download_saves_response_body (client : Client) (url : string)
    (dest_path : Path) (status : nat) (body : string) (w : world)
    (Hsuffix : Pathlib.suffix dest_path <> ".html")
    (Hname : Pathlib.name dest_path <> "")
    (Hresp : client url = Response status body)
    (Hstatus : 200 <= status <= 299) :
  exists w',
    download_file client url dest_path w = (Return tt, w')
    /\ fs w' !! dest_path = Some (File body)
    /\ (forall q, q ∈ Fs.chain (Pathlib.parent dest_path) ->
                  is_Some (fs w' !! q))
    /\ (forall q, q ∉ Fs.chain (Pathlib.parent dest_path) -> q <> dest_path ->
                  fs w' !! q = fs w !! q)
    /\ (forall q x, fs w !! q = Some x -> q <> dest_path ->
                    fs w' !! q = Some x)
    /\ log w'
       = log w ++ [Printed (url +:+ " --> " +:+ Pathlib.str dest_path);
                   Requested url; Wrote dest_path body].
Proof.
  rewrite DownloadFacts.download_file_plan.
  rewrite (FileFacts.file_plan_success _ _ _ _ _ Hsuffix Hresp Hstatus).
  eexists. split; [reflexivity|]. cbn [fs log]. unfold Fs.write.
  assert (Hdest : dest_path ∉ Fs.chain (Pathlib.parent dest_path)).
  { apply FsFacts.not_in_parent_chain. intros Hc. apply Hname.
    unfold Pathlib.name. by rewrite Hc. }
  split; [apply lookup_insert_eq|]. split; [|split; [|split]].
  - intros q Hq. rewrite lookup_insert_ne by (by intros ->).
    rewrite FsFacts.mkdir_lookup.
    destruct (decide (q ∈ Fs.chain (Pathlib.parent dest_path))); [|done].
    by eexists.
  - intros q Hq Hne. rewrite lookup_insert_ne by done.
    rewrite FsFacts.mkdir_lookup.
    by destruct (decide (q ∈ Fs.chain (Pathlib.parent dest_path))).
  - intros q x Hq Hne. rewrite lookup_insert_ne by done.
    by apply JobFacts.mkdir_preserve.
  - done.
Qed.

Lemma download_saves_response_body_witness :
  exists w',
    download_file echo "https://snap.stanford.edu/class/hw1.pdf"
      (Pathlib.parse "/repo/course/1-intro/homework/hw1.pdf") (World ∅ [])
    = (Return tt, w')
    /\ fs w' !! Pathlib.parse "/repo/course/1-intro/homework/hw1.pdf"
       = Some (File "https://snap.stanford.edu/class/hw1.pdf").
Proof.
  destruct (download_saves_response_body echo
              "https://snap.stanford.edu/class/hw1.pdf"
              (Pathlib.parse "/repo/course/1-intro/homework/hw1.pdf")
              200 "https://snap.stanford.edu/class/hw1.pdf" (World ∅ []))
    as (w' & Hrun & Hfile & _).
  - vm_compute. congruence.
  - vm_compute. congruence.
  - reflexivity.
  - lia.
  - exists w'. by split.
Defined.

(** X2.  A transport failure is not caught by [download_file]: the download
    raises after the request, writes no file, and leaves everything that
    existed as it was; only the missing directories above the destination
    have been made. *)
Theorem connect_error_escapes_download (client : Client) (url : string)
    (dest_path : Path) (w : world)
    (Hsuffix : Pathlib.suffix dest_path <> ".html")
    (Hresp : client url = ConnectError) :
  exists w',
    download_file client url dest_path w = (Raise TransportError, w')
    /\ (forall q, q ∉ Fs.chain (Pathlib.parent dest_path) ->
                  fs w' !! q = fs w !! q)
    /\ (forall q x, fs w !! q = Some x -> fs w' !! q = Some x)
    /\ (Pathlib.name dest_path <> "" ->
        fs w' !! dest_path = fs w !! dest_path)
    /\ log w'
       = log w ++ [Printed (url +:+ " --> " +:+ Pathlib.str dest_path);
                   Requested url].
Proof.
  rewrite DownloadFacts.download_file_plan.
  rewrite (FileFacts.file_plan_unreachable _ _ _ Hsuffix Hresp).
  eexists. split; [reflexivity|]. cbn [fs log].
  assert (Hframe : forall q, q ∉ Fs.chain (Pathlib.parent dest_path) ->
            Fs.mkdir (Pathlib.parent dest_path) (fs w) !! q = fs w !! q).
  { intros q Hq. rewrite FsFacts.mkdir_lookup.
    by destruct (decide (q ∈ Fs.chain (Pathlib.parent dest_path))). }
  split; [exact Hframe|]. split; [|split; [|done]].
  - intros q x Hq. by apply JobFacts.mkdir_preserve.
  - intros Hname. apply Hframe. apply FsFacts.not_in_parent_chain.
    intros Hc. apply Hname. unfold Pathlib.name. by rewrite Hc.
Qed.

Lemma connect_error_escapes_download_witness :
  exists w',
    download_file unreachable "https://snap.stanford.edu/class/hw1.pdf"
      (Pathlib.parse "/repo/course/1-intro/homework/hw1.pdf") (World ∅ [])
    = (Raise TransportError, w')
    /\ fs w' !! Pathlib.parse "/repo/course/1-intro/homework/hw1.pdf" = None.
Proof.
  destruct (connect_error_escapes_download unreachable
              "https://snap.stanford.edu/class/hw1.pdf"
              (Pathlib.parse "/repo/course/1-intro/homework/hw1.pdf")
              (World ∅ []))
    as (w' & Hrun & _ & _ & Hdest & _).
  - vm_compute. congruence.
  - reflexivity.
  - exists w'. split; [exact Hrun|]. rewrite Hdest; [done|].
    vm_compute. congruence.
Defined.

(** X3.  Running the same download again from the state the first one left
    gives the same outcome and leaves the same file system. *)
Theorem download_again_leaves_same_files (client : Client) (url : string)
    (dest_path : Path) (w : world) :
  let once := download_file client url dest_path w in
  let twice := download_file client url dest_path (snd once) in
  fst twice = fst once /\ fs (snd twice) = fs (snd once).
Proof.
  cbv zeta. rewrite !DownloadFacts.download_file_plan.
  destruct (PlanDefs.file_plan client url dest_path) as [evs [[q c]|e]];
    cbn [fst snd fs log]; (split; [done|]).
  - rewrite FileFacts.mkdir_write_mkdir. unfold Fs.write.
    apply insert_insert_eq.
  - apply FsFacts.mkdir_mkdir.
Qed.

(** ** One directive *)

Module DirectiveFacts.

Import PlanDefs NameDefs.

(** The destination of a directive with a simple name. *)
Lemma download_link_simple urljoin client to l w :
  simple (link_name urljoin l) ->
  download_link urljoin client to l w
  = download_file client (link_url urljoin l)
      (MkPath (root to) (components to ++ [link_name urljoin l]))
      (World (if Fs.exists_ (fs w) to then fs w else Fs.mkdir to (fs w))
             (log w)).
Proof.
  intros Hs. rewrite AnchorFacts.download_link_file.
  by rewrite (JobFacts.join_simple to _ Hs).
Qed.

Lemma colab_name_split n :
  colab_name n
  = ("CS224W_Colab_" +:+ Str.of_nat n) +:+ String "."%char "ipynb".
Proof. unfold colab_name. by rewrite ScanFacts.str_app_assoc. Qed.

Lemma colab_name_splitext n :
  Pathlib.splitext (colab_name n)
  = ("CS224W_Colab_" +:+ Str.of_nat n, ".ipynb").
Proof. rewrite colab_name_split. by apply PathFacts.splitext_app. Qed.

(** Making a bucket leaves the paths outside its chain as they are. *)
Lemma bucket_made_lookup to (m : gmap Path node) q :
  q ∉ Fs.chain to ->
  (if Fs.exists_ m to then m else Fs.mkdir to m) !! q = m !! q.
Proof.
  intros Hq. destruct (Fs.exists_ m to); [done|].
  rewrite FsFacts.mkdir_lookup. by destruct (decide (q ∈ Fs.chain to)).
Qed.

Lemma snoc_not_in_chain r t x : MkPath r (t ++ [x]) ∉ Fs.chain (MkPath r t).
Proof.
  intros Hin. apply FsFacts.chain_length in Hin as [_ [_ Hl]].
  cbn [components] in Hl. rewrite List.length_app in Hl. simpl in Hl. lia.
Qed.

Lemma snoc_nonempty {A} (t : list A) x : t ++ [x] <> [].
Proof. by destruct t. Qed.

End DirectiveFacts.

(** X4.  An anchor whose URL ends in [.html] is not fetched either: the
    directive writes the stub [<stem>.md] with the text that points at the
    page, sends no request, and saves nothing under the [.html] name. *)
Theorem html_anchor_becomes_stub (urljoin : string -> string -> string)
    (client : Client) (to : Path) (href : string) (w : world)
    (Hsuffix : Pathlib.suffix (Pathlib.parse (urljoin BASE_URL href))
               = ".html") :
  let url := urljoin BASE_URL href in
  let name := Pathlib.name (Pathlib.parse url) in
  exists stem w',
    name = stem +:+ ".html"
    /\ download_link urljoin client to (Tag href) w = (Return tt, w')
    /\ fs w' !! MkPath (root to) (components to ++ [stem +:+ ".md"])
       = Some (File (visit_webpage url))
    /\ fs w' !! MkPath (root to) (components to ++ [name])
       = fs w !! MkPath (root to) (components to ++ [name])
    /\ log w'
       = log w
         ++ [Printed (url +:+ " --> "
                      +:+ Pathlib.str
                            (MkPath (root to) (components to ++ [name])));
             Wrote (MkPath (root to) (components to ++ [stem +:+ ".md"]))
                   (visit_webpage url)].
Proof.
  intros url name.
  pose proof (JobFacts.tag_name_simple urljoin href) as Hsimple.
  assert (Hn : PlanDefs.link_name urljoin (Tag href) = name).
  { unfold PlanDefs.link_name. by rewrite Hsuffix. }
  rewrite (DirectiveFacts.download_link_simple _ _ _ _ _ Hsimple).
  rewrite Hn in *. cbn [PlanDefs.link_url]. fold url.
  set (dest := MkPath (root to) (components to ++ [name])).
  set (stem := fst (Pathlib.splitext name)).
  assert (Hname : name = stem +:+ ".html").
  { apply FileFacts.splitext_suffix. exact Hsuffix. }
  assert (Hdn : Pathlib.name dest = name) by apply PathFacts.name_snoc.
  assert (Hds : Pathlib.suffix dest = ".html").
  { unfold Pathlib.suffix. rewrite Hdn. exact Hsuffix. }
  assert (Hne : name <> "") by (destruct Hsimple as (_ & H & _); exact H).
  assert (Hstub : Pathlib.with_suffix dest ".md"
                  = Some (MkPath (root to) (components to ++ [stem +:+ ".md"]))).
  { rewrite PathFacts.with_suffix_some by (by rewrite Hdn).
    rewrite Hdn. unfold dest. cbn [root components].
    by rewrite List.removelast_last. }
  exists stem. rewrite DownloadFacts.download_file_plan.
  unfold PlanDefs.file_plan. rewrite Hds, Hstub. cbn [String.eqb Ascii.eqb].
  change (String.eqb ".html" ".html") with true. cbv iota.
  eexists. split; [exact Hname|]. split; [reflexivity|]. cbn [fs log].
  unfold Fs.write. split; [apply lookup_insert_eq|]. split; [|done].
  rewrite lookup_insert_ne.
  - assert (Hp : Pathlib.parent dest = MkPath (root to) (components to))
      by apply PathFacts.parent_snoc.
    rewrite Hp.
    rewrite FsFacts.mkdir_lookup.
    destruct (decide (dest ∈ Fs.chain (MkPath (root to) (components to))))
      as [Hin|_]; [by apply DirectiveFacts.snoc_not_in_chain in Hin|].
    apply DirectiveFacts.bucket_made_lookup.
    destruct to as [r t]. apply DirectiveFacts.snoc_not_in_chain.
  - unfold dest. intros [= E]. apply List.app_inv_head in E.
    injection E as E. rewrite Hname in E.
    apply PathFacts.str_app_inv_l in E. discriminate.
Qed.

Lemma html_anchor_becomes_stub_witness :
  exists stem w',
    Pathlib.name (Pathlib.parse "https://snap.stanford.edu/class/faq.html")
    = stem +:+ ".html"
    /\ download_link urljoin_absolute always_ok
         (Pathlib.parse "/repo/course/1-intro/slides")
         (Tag "https://snap.stanford.edu/class/faq.html") (World ∅ [])
       = (Return tt, w')
    /\ fs w' !! Pathlib.parse "/repo/course/1-intro/slides/faq.html" = None.
Proof.
  destruct (html_anchor_becomes_stub urljoin_absolute always_ok
              (Pathlib.parse "/repo/course/1-intro/slides")
              "https://snap.stanford.edu/class/faq.html" (World ∅ []))
    as (stem & w' & Hname & Hrun & _ & Hdest & _).
  - reflexivity.
  - exists stem, w'. split; [exact Hname|]. split; [exact Hrun|].
    exact Hdest.
Defined.

(** X5.  The directive of a rewritten notebook is always requested at its
    download URL, never replaced by the stub of a page: a success status
    saves the body as [CS224W_Colab_<n>.ipynb], any other status leaves the
    invalid-link stub [CS224W_Colab_<n>.md]. *)
Theorem notebook_directive_is_fetched (urljoin : string -> string -> string)
    (client : Client) (to : Path) (gid : string) (n status : nat)
    (body : string) (w : world)
    (Hresp : client (colab_url gid) = Response status body) :
  let url := colab_url gid in
  let dest := MkPath (root to) (components to ++ [colab_name n]) in
  let stub :=
    MkPath (root to)
      (components to ++ ["CS224W_Colab_" +:+ Str.of_nat n +:+ ".md"]) in
  let saved :=
    if is_success status then (dest, body) else (stub, invalid_link url) in
  exists w',
    download_link urljoin client to (Pair url (colab_name n)) w
    = (Return tt, w')
    /\ fs w' !! fst saved = Some (File (snd saved))
    /\ log w'
       = log w ++ [Printed (url +:+ " --> " +:+ Pathlib.str dest);
                   Requested url; Wrote (fst saved) (snd saved)].
Proof.
  intros url dest stub saved. subst url.
  rewrite (DirectiveFacts.download_link_simple _ _ _
             (Pair (colab_url gid) (colab_name n)) _
             (JobFacts.colab_name_simple n)).
  cbn [PlanDefs.link_url PlanDefs.link_name]. fold dest.
  assert (Hdn : Pathlib.name dest = colab_name n) by apply PathFacts.name_snoc.
  assert (Hds : Pathlib.suffix dest = ".ipynb").
  { unfold Pathlib.suffix.
    by rewrite Hdn, DirectiveFacts.colab_name_splitext. }
  assert (Hstub : Pathlib.with_suffix dest ".md" = Some stub).
  { rewrite PathFacts.with_suffix_some by (by rewrite Hdn).
    rewrite Hdn, DirectiveFacts.colab_name_splitext.
    unfold dest, stub. cbn [root components fst].
    by rewrite List.removelast_last, ScanFacts.str_app_assoc. }
  rewrite DownloadFacts.download_file_plan.
  unfold PlanDefs.file_plan. rewrite Hds, Hresp, Hstub.
  change (String.eqb ".ipynb" ".html") with false. cbv iota.
  unfold saved. destruct (is_success status);
    (eexists; split; [reflexivity|]); cbn [fs log fst snd]; unfold Fs.write;
    (split; [apply lookup_insert_eq|done]).
Qed.

Lemma notebook_directive_is_fetched_witness :
  exists w',
    download_link urljoin_absolute not_found
      (Pathlib.parse "/repo/course/1-intro/homework")
      (Pair (colab_url "1Aa8nQ3Xp-abcdefghijklmnopqrstuvwxyz") (colab_name 0))
      (World ∅ [])
    = (Return tt, w')
    /\ fs w' !! Pathlib.parse "/repo/course/1-intro/homework/CS224W_Colab_0.md"
       = Some (File (invalid_link
                       (colab_url "1Aa8nQ3Xp-abcdefghijklmnopqrstuvwxyz"))).
Proof.
  destruct (notebook_directive_is_fetched urljoin_absolute not_found
              (Pathlib.parse "/repo/course/1-intro/homework")
              "1Aa8nQ3Xp-abcdefghijklmnopqrstuvwxyz" 0 404 "Not Found"
              (World ∅ []))
    as (w' & Hrun & Hfile & _).
  - reflexivity.
  - exists w'. split; [exact Hrun|]. exact Hfile.
Defined.

(** ** The steps of a row, whatever their outcome *)

Module StepFacts.

Import PlanDefs NameDefs Job.

Section WithClient.

Variable urljoin : string -> string -> string.
Variable client : Client.

#[local] Abbreviation run_step := (Job.run_step urljoin client).
#[local] Abbreviation run_steps := (Job.run_steps urljoin client).
#[local] Abbreviation step_write := (Job.step_write urljoin client).
#[local] Abbreviation touches := (FrameDefs.touches urljoin client).

Lemma run_steps_step s ss w :
  run_steps (s :: ss) w
  = match run_step s w with
    | (Return _, w1) => run_steps ss w1
    | (Raise e, w1) => (Raise e, w1)
    end.
Proof.
  cbn [Job.run_steps]. unfold mbind, M_bind.
  by destruct (run_step s w) as [[[]|e] w1].
Qed.

(** A step leaves the paths it does not touch as they are. *)
Lemma run_step_frame s w q :
  ~ touches s q -> fs (snd (run_step s w)) !! q = fs w !! q.
Proof.
  destruct s as [d|to l|lines|d];
    cbn [FrameDefs.touches Job.run_step]; intros Ht.
  - cbv beta iota zeta delta [mbind M_bind mret M_ret set_fs print emit].
    cbn [fs log snd]. rewrite FsFacts.mkdir_lookup.
    by destruct (decide (q ∈ Fs.chain d)).
  - rewrite RowFacts.download_link_run. cbn [snd fs]. unfold link_fs.
    set (m1 := if Fs.exists_ (fs w) to then fs w else Fs.mkdir to (fs w)).
    set (P := Pathlib.parent (Pathlib.join to (link_name urljoin l))) in *.
    assert (H1 : Fs.mkdir P m1 !! q = fs w !! q).
    { rewrite FsFacts.mkdir_lookup.
      destruct (decide (q ∈ Fs.chain P)) as [Hin|_]; [tauto|].
      apply DirectiveFacts.bucket_made_lookup. tauto. }
    destruct (snd (link_plan urljoin client to l)) as [[q' c']|e] eqn:E;
      [|exact H1].
    unfold Fs.write. rewrite lookup_insert_ne; [exact H1|].
    intros ->. apply Ht. right. right. exists c'.
    cbn [Job.step_write]. by rewrite E.
  - done.
  - cbv beta iota zeta delta [mbind M_bind mret M_ret set_fs get_fs].
    destruct (Fs.iterdir (fs w) d); cbn [fs snd]; [|done].
    unfold Fs.rmdir. by rewrite lookup_delete_ne.
Qed.

Lemma run_steps_frame ss w q :
  (forall s, In s ss -> ~ touches s q) ->
  fs (snd (run_steps ss w)) !! q = fs w !! q.
Proof.
  revert w. induction ss as [|s ss IH]; intros w Hss; [done|].
  rewrite run_steps_step.
  pose proof (run_step_frame s w q (Hss s (or_introl eq_refl))) as Hs.
  destruct (run_step s w) as [[[]|e] w1]; cbn [snd] in *; [|done].
  rewrite IH; [done|]. intros s' Hin. apply Hss. by right.
Qed.

(** A step keeps what is at a path that it neither writes nor removes. *)
Lemma run_step_keep s w q x :
  fs w !! q = Some x -> s <> Leave q ->
  (forall c, step_write s <> Some (q, c)) ->
  fs (snd (run_step s w)) !! q = Some x.
Proof.
  intros Hq Hl Hw. destruct s as [d|to l|lines|d]; cbn [Job.run_step].
  - cbv beta iota zeta delta [mbind M_bind mret M_ret set_fs print emit].
    cbn [fs log snd]. by apply JobFacts.mkdir_preserve.
  - rewrite RowFacts.download_link_run. cbn [snd fs]. unfold link_fs.
    set (m1 := if Fs.exists_ (fs w) to then fs w else Fs.mkdir to (fs w)).
    assert (H1 : m1 !! q = Some x).
    { unfold m1. destruct (Fs.exists_ (fs w) to); [done|].
      by apply JobFacts.mkdir_preserve. }
    cbn [Job.step_write] in Hw.
    destruct (snd (link_plan urljoin client to l)) as [[q' c']|e];
      [|by apply JobFacts.mkdir_preserve].
    unfold Fs.write. rewrite lookup_insert_ne.
    + by apply JobFacts.mkdir_preserve.
    + intros ->. by apply (Hw c').
  - done.
  - cbv beta iota zeta delta [mbind M_bind mret M_ret set_fs get_fs].
    destruct (Fs.iterdir (fs w) d); cbn [fs snd]; [|done].
    unfold Fs.rmdir. rewrite lookup_delete_ne; [done|].
    intros ->. by apply Hl.
Qed.

Lemma run_steps_keep ss w q x :
  (forall s, In s ss ->
     s <> Leave q /\ forall c, step_write s <> Some (q, c)) ->
  fs w !! q = Some x -> fs (snd (run_steps ss w)) !! q = Some x.
Proof.
  revert w. induction ss as [|s ss IH]; intros w Hss Hq; [done|].
  rewrite run_steps_step.
  destruct (Hss s (or_introl eq_refl)) as [Hl Hw].
  pose proof (run_step_keep s w q x Hq Hl Hw) as Hs.
  destruct (run_step s w) as [[[]|e] w1]; cbn [snd] in *; [|done].
  apply IH; [|done]. intros s' Hin. apply Hss. by right.
Qed.

(** The step at which some steps raise. *)
Lemma run_steps_raise ss w e w' :
  run_steps ss w = (Raise e, w') ->
  exists pre s post w1,
    ss = pre ++ s :: post
    /\ run_steps pre w = (Return tt, w1)
    /\ run_step s w1 = (Raise e, w').
Proof.
  revert w. induction ss as [|s ss IH]; intros w; [done|].
  rewrite run_steps_step.
  destruct (run_step s w) as [[[]|e1] w1] eqn:Es.
  - intros Hrun. destruct (IH _ Hrun) as (pre & s' & post & w2 & -> & H1 & H2).
    exists (s :: pre), s', post, w2. split; [done|]. split; [|done].
    by rewrite run_steps_step, Es.
  - intros [= <- <-]. by exists [], s, ss, w.
Qed.

(** *** Outcomes *)

(** The outcome of a directive with a simple name: it returns, or the
    server could not be reached. *)
Lemma fetch_outcome to l w :
  simple (link_name urljoin l) ->
  (exists w1, run_step (Fetch to l) w = (Return tt, w1))
  \/ exists w1,
       run_step (Fetch to l) w = (Raise TransportError, w1)
       /\ client (link_url urljoin l) = ConnectError
       /\ last (log w1) = Some (Requested (link_url urljoin l)).
Proof.
  intros Hs. cbn [Job.run_step].
  rewrite (DirectiveFacts.download_link_simple _ _ _ _ _ Hs).
  rewrite DownloadFacts.download_file_plan. unfold file_plan.
  set (dest := MkPath (root to) (components to ++ [link_name urljoin l])).
  assert (Hdn : Pathlib.name dest <> "").
  { unfold dest. rewrite PathFacts.name_snoc. by destruct Hs as (_ & H & _). }
  rewrite (PathFacts.with_suffix_some _ ".md" Hdn).
  destruct (String.eqb (Pathlib.suffix dest) ".html"); [left; by eexists|].
  destruct (client (link_url urljoin l)) as [st body|] eqn:Ec.
  - destruct (is_success st); left; by eexists.
  - right. eexists. split; [reflexivity|]. split; [done|]. cbn [log].
    match goal with
    | |- last (?evs ++ [?a; ?b]) = _ =>
        change (evs ++ [a; b]) with (evs ++ ([a] ++ [b]));
        rewrite List.app_assoc
    end.
    apply last_snoc.
Qed.

Lemma run_steps_outcome ss w :
  (forall to l, In (Fetch to l) ss -> simple (link_name urljoin l)) ->
  (exists w', run_steps ss w = (Return tt, w'))
  \/ exists w' url,
       run_steps ss w = (Raise TransportError, w')
       /\ client url = ConnectError
       /\ last (log w') = Some (Requested url).
Proof.
  revert w. induction ss as [|s ss IH]; intros w Hss; [left; by eexists|].
  rewrite run_steps_step.
  assert (Hss' : forall to l, In (Fetch to l) ss ->
                   simple (link_name urljoin l)).
  { intros to l Hin. apply (Hss to l). by right. }
  destruct s as [d|to l|lines|d].
  - cbn [Job.run_step].
    cbv beta iota zeta delta [mbind M_bind mret M_ret set_fs print emit].
    by apply IH.
  - destruct (fetch_outcome to l w (Hss to l (or_introl eq_refl)))
      as [(w1 & ->)|(w1 & -> & Hc & Hlast)]; [by apply IH|].
    right. by exists w1, (link_url urljoin l).
  - cbn [Job.run_step]. by apply IH.
  - cbn [Job.run_step].
    cbv beta iota zeta delta [mbind M_bind mret M_ret set_fs get_fs].
    destruct (Fs.iterdir (fs w) d); by apply IH.
Qed.

(** *** The steps of a row *)

Lemma row_steps_inv outdir cells s :
  In s (row_steps outdir cells) ->
  s = Enter (row_directory outdir cells)
  \/ s = Leave (row_directory outdir cells)
  \/ (exists lines, s = Report lines)
  \/ exists bucket links l,
       In (bucket, links) (RowDefs.buckets cells) /\ In l links
       /\ s = Fetch (Pathlib.join (row_directory outdir cells) bucket) l.
Proof.
  unfold row_steps, RowDefs.buckets. destruct (length cells <? 2); [done|].
  rewrite !List.in_app_iff, !List.in_map_iff.
  intros [[<-|[]]|[(l & <- & Hl)|[(l & <- & Hl)|[[<-|[]]
           |[(l & <- & Hl)|[<-|[]]]]]]]; auto.
  - right. right. right. eexists _, _, l. split; [by left|]. done.
  - right. right. right. eexists _, _, l.
    split; [right; by left|]. done.
  - right. right. left. by eexists.
  - right. right. right. eexists _, _, l.
    split; [right; right; by left|]. done.
Qed.

Lemma bucket_simple cells bucket links :
  In (bucket, links) (RowDefs.buckets cells) -> simple bucket.
Proof. intros [[= <- _]|[[= <- _]|[[= <- _]|[]]]]; by repeat split. Qed.

Lemma bucket_link_simple cells bucket links l :
  In (bucket, links) (RowDefs.buckets cells) -> In l links ->
  simple (link_name urljoin l).
Proof.
  intros [[= _ <-]|[[= _ <-]|[[= _ <-]|[]]]] Hl.
  - apply List.in_map_iff in Hl as (h & <- & _).
    apply JobFacts.tag_name_simple.
  - apply List.in_map_iff in Hl as (h & <- & _).
    apply JobFacts.tag_name_simple.
  - apply JobFacts.rewritten_elems in Hl as [(h & ->)|(g & n & ->)];
      [apply JobFacts.tag_name_simple|apply JobFacts.colab_name_simple].
Qed.

Lemma row_steps_simple outdir cells to l :
  In (Fetch to l) (row_steps outdir cells) -> simple (link_name urljoin l).
Proof.
  intros Hin. apply row_steps_inv in Hin
    as [[=]|[[=]|[(lines & [=])|(b & links & l' & Hb & Hl & [= _ <-])]]].
  by apply (bucket_link_simple cells b links).
Qed.

(** *** Paths *)

Lemma chain_snoc r t x q :
  q ∈ Fs.chain (MkPath r (t ++ [x]))
  <-> q ∈ Fs.chain (MkPath r t) \/ q = MkPath r (t ++ [x]).
Proof.
  rewrite !FsFacts.chain_spec. cbn [root components]. split.
  - intros (k & Hk & ->). rewrite List.length_app in Hk. simpl in Hk.
    destruct (decide (k < length t)) as [Hlt|Hge].
    + left. exists k. split; [done|].
      rewrite List.firstn_app.
      replace (S k - length t) with 0 by lia. simpl.
      by rewrite List.app_nil_r.
    + right. f_equal. apply List.firstn_all2.
      rewrite List.length_app. simpl. lia.
  - intros [(k & Hk & ->)| ->].
    + exists k. split; [rewrite List.length_app; simpl; lia|].
      rewrite List.firstn_app.
      replace (S k - length t) with 0 by lia. simpl.
      by rewrite List.app_nil_r.
    + exists (length t). split; [rewrite List.length_app; simpl; lia|].
      f_equal. symmetry. apply List.firstn_all2.
      rewrite List.length_app. simpl. lia.
Qed.

Lemma chain_eta p : Fs.chain (MkPath (root p) (components p)) = Fs.chain p.
Proof. reflexivity. Qed.

(** What a directive of the bucket [b] of the directory [d] touches. *)
Lemma fetch_touches d b l q :
  simple b -> simple (link_name urljoin l) ->
  touches (Fetch (Pathlib.join d b) l) q ->
  q ∈ Fs.chain d
  \/ q = MkPath (root d) (components d ++ [b])
  \/ exists x, q = MkPath (root d) (components d ++ [b; x]).
Proof.
  intros Hb Hl. rewrite (JobFacts.join_simple d b Hb).
  set (to := MkPath (root d) (components d ++ [b])).
  assert (Hto : q ∈ Fs.chain to ->
                q ∈ Fs.chain d \/ q = to).
  { unfold to. rewrite chain_snoc. by rewrite chain_eta. }
  cbn [FrameDefs.touches].
  rewrite (JobFacts.join_simple to _ Hl). rewrite PathFacts.parent_snoc.
  cbn [root components].
  intros [Hin|[Hin|(c & Hw)]].
  - destruct (Hto Hin); auto.
  - destruct (Hto Hin); auto.
  - right. right. cbn [Job.step_write] in Hw.
    destruct (snd (link_plan urljoin client to l)) as [[q' c']|] eqn:Ep;
      [|done].
    injection Hw as -> ->. unfold link_plan in Ep.
    destruct (JobFacts.file_plan_in_bucket _ _ _ _ _ _ Hl Ep) as (x & ->).
    exists x. unfold to. cbn [root components].
    by rewrite <- List.app_assoc.
Qed.

Lemma row_directory_components outdir cells :
  components (row_directory outdir cells) <> [].
Proof.
  destruct (JobFacts.row_directory_shape outdir cells) as (t & _ & ->).
  cbn [components]. by destruct (components outdir).
Qed.

(** What a step of a row touches: the directories down to the directory of
    the row, a bucket, or a file of a bucket. *)
Lemma row_step_touches outdir cells s q :
  In s (row_steps outdir cells) -> touches s q ->
  let d := row_directory outdir cells in
  q ∈ Fs.chain d
  \/ exists bucket links,
       In (bucket, links) (RowDefs.buckets cells) /\ links <> []
       /\ (q = MkPath (root d) (components d ++ [bucket])
           \/ exists x, q = MkPath (root d) (components d ++ [bucket; x])).
Proof.
  intros Hin Ht d. apply row_steps_inv in Hin
    as [->|[->|[(lines & ->)|(b & links & l & Hb & Hl & ->)]]].
  - by left.
  - cbn [FrameDefs.touches] in Ht. subst q. left.
    apply FsFacts.chain_self. apply row_directory_components.
  - done.
  - apply fetch_touches in Ht;
      [|by apply (bucket_simple cells b links)
       |by apply (bucket_link_simple cells b links)].
    destruct Ht as [Ht|Ht]; [by left|]. right. exists b, links.
    split; [done|]. split; [|exact Ht]. by destruct links.
Qed.

(** A directive leaves its bucket and the directories above it. *)
Lemma fetch_makes_chain to l w q :
  simple (link_name urljoin l) -> q ∈ Fs.chain to ->
  is_Some (fs (snd (run_step (Fetch to l) w)) !! q).
Proof.
  intros Hl Hq. cbn [Job.run_step]. rewrite RowFacts.download_link_run.
  cbn [snd fs]. unfold link_fs.
  rewrite (JobFacts.join_simple to _ Hl), PathFacts.parent_snoc.
  set (m1 := if Fs.exists_ (fs w) to then fs w else Fs.mkdir to (fs w)).
  assert (H1 : is_Some (Fs.mkdir (MkPath (root to) (components to)) m1 !! q)).
  { rewrite FsFacts.mkdir_lookup.
    change (Fs.chain (MkPath (root to) (components to))) with (Fs.chain to).
    destruct (decide (q ∈ Fs.chain to)); [by eexists|done]. }
  destruct (snd (link_plan urljoin client to l)) as [[q' c']|e]; [|exact H1].
  unfold Fs.write. destruct (decide (q' = q)) as [->|Hne].
  - rewrite lookup_insert_eq. by eexists.
  - by rewrite lookup_insert_ne.
Qed.

Lemma bucket_functional cells b links1 links2 :
  In (b, links1) (RowDefs.buckets cells) ->
  In (b, links2) (RowDefs.buckets cells) -> links1 = links2.
Proof.
  intros [[= <- <-]|[[= <- <-]|[[= <- <-]|[]]]]
         [[= <-]|[[= <-]|[[= <-]|[]]]]; done.
Qed.

Lemma cell_links_short cells i :
  length cells <= i -> cell_links cells i = [].
Proof.
  intros H. unfold cell_links.
  by rewrite (proj2 (List.nth_error_None cells i) H).
Qed.

Lemma buckets_short cells bucket links :
  length cells < 2 -> In (bucket, links) (RowDefs.buckets cells) ->
  links = [].
Proof.
  intros H [[= _ <-]|[[= _ <-]|[[= _ <-]|[]]]];
    rewrite cell_links_short by lia; done.
Qed.

End WithClient.

End StepFacts.

(** ** One row *)


(** X7.  A row that raises skips its cleanup: the directory of the row is
    left behind, and in it the directory of the bucket whose directive
    failed. *)
Theorem aborted_row_keeps_directory (urljoin : string -> string -> string)
    (cells : list Cell) (outdir : Path) (client : Client) (w w' : world)
    (e : exn)
    (Hrun : process_row urljoin cells outdir client w = (Raise e, w')) :
  let directory := row_directory outdir cells in
  is_Some (fs w' !! directory)
  /\ exists bucket,
       In bucket ["slides"; "reading"; "homework"]
       /\ Fs.is_entry directory (Pathlib.join directory bucket) = true
       /\ is_Some (fs w' !! Pathlib.join directory bucket).
Proof.
  intros directory. rewrite JobFacts.process_row_steps in Hrun.
  apply StepFacts.run_steps_raise in Hrun
    as (pre & s & post & w1 & Hss & _ & Hs).
  assert (Hin : In s (Job.row_steps outdir cells)).
  { rewrite Hss. apply List.in_app_iff. right. by left. }
  pose proof (StepFacts.row_steps_simple urljoin outdir cells) as Hsimple.
  apply StepFacts.row_steps_inv in Hin
    as [->|[->|[(lines & ->)|(b & links & l & Hb & Hl & ->)]]].
  - revert Hs. cbn [Job.run_step].
    by cbv beta iota zeta delta [mbind M_bind mret M_ret set_fs print emit].
  - revert Hs. cbn [Job.run_step].
    cbv beta iota zeta delta [mbind M_bind mret M_ret set_fs get_fs].
    by destruct (Fs.iterdir (fs w1) (row_directory outdir cells)).
  - done.
  - pose proof (StepFacts.bucket_simple cells b links Hb) as Hbs.
    pose proof (StepFacts.bucket_link_simple urljoin cells b links l Hb Hl)
      as Hls.
    fold directory in Hs.
    pose proof (StepFacts.fetch_makes_chain urljoin client
                  (Pathlib.join directory b) l w1) as Hmade.
    rewrite Hs in Hmade. cbn [snd] in Hmade.
    rewrite (JobFacts.join_simple directory b Hbs) in *.
    split.
    + apply Hmade; [done|]. apply StepFacts.chain_snoc. left.
      rewrite StepFacts.chain_eta. apply FsFacts.chain_self.
      apply StepFacts.row_directory_components.
    + exists b. rewrite (JobFacts.join_simple directory b Hbs). split.
      { revert Hb. unfold RowDefs.buckets.
        intros [[= <- _]|[[= <- _]|[[= <- _]|[]]]]; simpl; auto. }
      split.
      * unfold Fs.is_entry. apply bool_decide_eq_true. split.
        -- cbn [components]. apply DirectiveFacts.snoc_nonempty.
        -- rewrite PathFacts.parent_snoc. by destruct directory.
      * apply Hmade; [done|]. apply StepFacts.chain_snoc. by right.
Qed.

Lemma aborted_row_keeps_directory_witness :
  is_Some
    (fs (snd (process_row urljoin_absolute two_slides_row
                (Pathlib.parse "/repo") unreachable (World ∅ [])))
     !! row_directory (Pathlib.parse "/repo") two_slides_row).
Proof.
  refine (proj1 (aborted_row_keeps_directory urljoin_absolute two_slides_row
                   (Pathlib.parse "/repo") unreachable (World ∅ []) _
                   TransportError _)).
  reflexivity.
Defined.



(** X9.  The directory of a bucket is made on demand: when [process_row]
    returns, a bucket without directive has left its directory as it was,
    missing if it was missing, and a bucket with a directive has its
    directory. *)
Theorem bucket_directory_on_demand (urljoin : string -> string -> string)
    (cells : list Cell) (outdir : Path) (client : Client) (w w' : world)
    (Hrun : process_row urljoin cells outdir client w = (Return tt, w')) :
  forall bucket links,
    In (bucket, links) (RowDefs.buckets cells) ->
    let to := Pathlib.join (row_directory outdir cells) bucket in
    (links = [] -> fs w' !! to = fs w !! to)
    /\ (links <> [] -> is_Some (fs w' !! to)).
Proof.
  intros bucket links Hb to.
  rewrite JobFacts.process_row_steps in Hrun.
  pose proof (StepFacts.bucket_simple cells bucket links Hb) as Hbs.
  set (d := row_directory outdir cells) in *.
  assert (Hto : to = MkPath (root d) (components d ++ [bucket])).
  { unfold to. by apply JobFacts.join_simple. }
  assert (Hroot : root d = root outdir).
  { unfold d. by destruct (JobFacts.row_directory_shape outdir cells)
      as (t & _ & ->). }
  split.
  - intros ->.
    replace w' with (snd (Job.run_steps urljoin client
                            (Job.row_steps outdir cells) w))
      by (by rewrite Hrun).
    apply StepFacts.run_steps_frame. intros s Hin Ht.
    destruct (StepFacts.row_step_touches urljoin client outdir cells s to
                Hin Ht) as [H|(b & links & Hb' & Hne & [H|(x & H)])].
    + rewrite Hto in H. fold d in H. rewrite <- StepFacts.chain_eta in H.
      by apply DirectiveFacts.snoc_not_in_chain in H.
    + fold d in H. rewrite Hto in H. injection H as H.
      apply List.app_inv_head in H. injection H as ->.
      apply Hne. by apply (StepFacts.bucket_functional cells b).
    + fold d in H. rewrite Hto in H. injection H as H.
      apply List.app_inv_head in H. discriminate.
  - intros Hne. destruct links as [|l links']; [done|].
    assert (Hcells : 2 <= length cells).
    { destruct (Nat.lt_ge_cases (length cells) 2) as [Hlt|]; [|done].
      by pose proof (StepFacts.buckets_short cells bucket _ Hlt Hb). }
    assert (Hin : In (Job.Fetch to l) (Job.row_steps outdir cells)).
    { apply (JobFacts.row_steps_fetch_in outdir cells bucket (l :: links'));
        [done|exact Hb|by left]. }
    apply List.in_split in Hin as (pre & post & Hss).
    rewrite Hss in Hrun. rewrite JobFacts.run_steps_app in Hrun.
    unfold mbind, M_bind in Hrun.
    destruct (Job.run_steps urljoin client pre w) as [[[]|e1] w1];
      [|done].
    rewrite StepFacts.run_steps_step in Hrun.
    pose proof (StepFacts.fetch_makes_chain urljoin client to l w1 to
                  (StepFacts.bucket_link_simple urljoin cells bucket _ l Hb
                     (or_introl eq_refl))) as Hmade.
    destruct (Job.run_step urljoin client (Job.Fetch to l) w1)
      as [[[]|e2] w2]; [|done].
    cbn [snd] in Hmade. destruct Hmade as [x Hx].
    { apply FsFacts.chain_self. rewrite Hto. cbn [components].
      apply DirectiveFacts.snoc_nonempty. }
    exists x.
    replace w' with (snd (Job.run_steps urljoin client post w2))
      by (by rewrite Hrun).
    apply StepFacts.run_steps_keep; [|done].
    intros s Hs.
    assert (Hs' : In s (Job.row_steps outdir cells)).
    { rewrite Hss. apply List.in_app_iff. right. by right. }
    split.
    + intros ->. apply JobFacts.row_steps_leave in Hs'. fold d in Hs'.
      rewrite Hto in Hs'. apply (f_equal components) in Hs'.
      cbn [components] in Hs'.
      apply (f_equal (@length string)) in Hs'.
      rewrite List.length_app in Hs'. simpl in Hs'. lia.
    + intros c Hw.
      destruct (JobFacts.row_steps_write urljoin client outdir cells s to c
                  Hs' Hw) as (b & x' & H).
      fold d in H. rewrite Hto in H. injection H as _ H.
      apply List.app_inv_head in H. discriminate.
Qed.

Lemma bucket_directory_on_demand_witness :
  fs (snd (process_row urljoin_absolute two_slides_row
             (Pathlib.parse "/repo") echo (World ∅ [])))
  !! Pathlib.join (row_directory (Pathlib.parse "/repo") two_slides_row)
       "reading"
  = None.
Proof.
  refine (proj1 (bucket_directory_on_demand urljoin_absolute two_slides_row
                   (Pathlib.parse "/repo") echo (World ∅ []) _ _
                   "reading" [] _) _).
  - reflexivity.
  - right. by left.
  - reflexivity.
Defined.

(** ** The scan of the homework links *)

Module HomeworkFacts.

Import ScanDefs HomeworkDefs.

Lemma rewritten_tag u rest k :
  Str.contains colab_marker u = false ->
  rewritten (u :: rest) k = Tag u :: rewritten rest k.
Proof. intros H. cbn [rewritten]. by rewrite H. Qed.

Lemma anomalies_tag u rest :
  Str.contains colab_marker u = false ->
  anomalies (u :: rest) = anomalies rest.
Proof. intros H. cbn [anomalies]. by rewrite H. Qed.

Lemma anomalies_one u rest tok :
  GID_PAT u = [tok] -> anomalies (u :: rest) = anomalies rest.
Proof.
  intros H. cbn [anomalies]. rewrite H. cbn [length Nat.eqb negb].
  by rewrite andb_false_r.
Qed.

Lemma is_notebook_tag u :
  Str.contains colab_marker u = false -> is_notebook u = false.
Proof. intros H. unfold is_notebook. by rewrite H. Qed.

(** The three ways of a link through the loop. *)
Lemma link_cases u :
  Str.contains colab_marker u = false
  \/ (Str.contains colab_marker u = true /\ exists tok, GID_PAT u = [tok])
  \/ (Str.contains colab_marker u = true /\ length (GID_PAT u) <> 1).
Proof.
  destruct (Str.contains colab_marker u); [|by left]. right.
  destruct (GID_PAT u) as [|g [|g' gs]]; [right|left|right]; try done.
  split; [done|]. by exists g.
Qed.

Lemma anchors_tag u links : anchors (Tag u :: links) = u :: anchors links.
Proof. reflexivity. Qed.

Lemma anchors_pair url name links :
  anchors (Pair url name :: links) = anchors links.
Proof. reflexivity. Qed.

Lemma names_tag u links :
  notebook_names (Tag u :: links) = notebook_names links.
Proof. reflexivity. Qed.

Lemma names_pair url name links :
  notebook_names (Pair url name :: links) = name :: notebook_names links.
Proof. reflexivity. Qed.

Lemma scan_lengths event_links k :
  length (rewritten event_links k) + length (anomalies event_links)
  = length event_links.
Proof.
  revert k. induction event_links as [|u rest IH]; intros k; [done|].
  destruct (link_cases u) as [H|[[H (tok & Ht)]|[H Hn]]].
  - rewrite (rewritten_tag _ _ _ H), (anomalies_tag _ _ H).
    cbn [length]. by rewrite <- (IH k).
  - rewrite (ScanFacts.rewritten_one _ _ _ _ H Ht), (anomalies_one _ _ _ Ht).
    cbn [length]. by rewrite <- (IH (k + 1)).
  - rewrite (ScanFacts.rewritten_skip _ _ _ H Hn),
      (ScanFacts.anomalies_skip _ _ H Hn).
    cbn [length]. rewrite <- (IH k). lia.
Qed.

Lemma scan_anchors event_links k :
  anchors (rewritten event_links k)
  = List.filter (fun u => negb (Str.contains colab_marker u)) event_links.
Proof.
  revert k. induction event_links as [|u rest IH]; intros k; [done|].
  cbn [List.filter].
  destruct (link_cases u) as [H|[[H (tok & Ht)]|[H Hn]]]; rewrite H;
    cbn [negb].
  - rewrite (rewritten_tag _ _ _ H), anchors_tag. f_equal. apply IH.
  - rewrite (ScanFacts.rewritten_one _ _ _ _ H Ht), anchors_pair. apply IH.
  - rewrite (ScanFacts.rewritten_skip _ _ _ H Hn). apply IH.
Qed.

Lemma scan_names event_links k :
  notebook_names (rewritten event_links k)
  = List.map colab_name
      (List.seq k (length (List.filter is_notebook event_links))).
Proof.
  revert k. induction event_links as [|u rest IH]; intros k; [done|].
  rewrite ScanFacts.count_cons.
  destruct (link_cases u) as [H|[[H (tok & Ht)]|[H Hn]]].
  - rewrite (rewritten_tag _ _ _ H), (is_notebook_tag _ H), names_tag.
    apply IH.
  - rewrite (ScanFacts.rewritten_one _ _ _ _ H Ht),
      (ScanFacts.is_notebook_one _ _ H Ht), names_pair.
    change (1 + ?n) with (S n). cbn [List.seq List.map]. f_equal.
    replace (S k) with (k + 1) by lia. apply IH.
  - rewrite (ScanFacts.rewritten_skip _ _ _ H Hn),
      (ScanFacts.is_notebook_skip _ Hn). apply IH.
Qed.

(** *** Names *)

Lemma length_app (a b : string) :
  String.length (a +:+ b) = String.length a + String.length b.
Proof. induction a as [|c a IH]; simpl; [done|]. by rewrite IH. Qed.

Lemma str_app_inv_r (a b c : string) : a +:+ c = b +:+ c -> a = b.
Proof.
  revert b. induction a as [|x a IH]; intros [|y b] H; [done| | |].
  - apply (f_equal String.length) in H. simpl in H.
    rewrite length_app in H. lia.
  - apply (f_equal String.length) in H. simpl in H.
    rewrite length_app in H. lia.
  - simpl in H. injection H as -> H. f_equal. by apply IH.
Qed.

Lemma to_uint_nonnil n : Nat.to_uint n <> Decimal.Nil.
Proof.
  rewrite <- (DecimalNat.Unsigned.of_to n) at 1.
  rewrite DecimalNat.Unsigned.to_of. apply DecimalFacts.unorm_nonnil.
Qed.

Lemma of_nat_inj n m : Str.of_nat n = Str.of_nat m -> n = m.
Proof.
  unfold Str.of_nat. intros H.
  apply (f_equal NilZero.uint_of_string) in H.
  rewrite !NilZero.usu in H by apply to_uint_nonnil.
  injection H as H. by apply DecimalNat.Unsigned.to_uint_inj.
Qed.

Lemma colab_name_inj n m : colab_name n = colab_name m -> n = m.
Proof.
  unfold colab_name. intros H. apply PathFacts.str_app_inv_l in H.
  apply str_app_inv_r in H. by apply of_nat_inj.
Qed.

Lemma NoDup_map_inj {A B} (f : A -> B) (l : list A) :
  (forall x y, f x = f y -> x = y) -> List.NoDup l -> List.NoDup (List.map f l).
Proof.
  intros Hf. induction 1 as [|x l Hx Hl IH]; cbn [List.map]; constructor.
  - intros Hin. apply List.in_map_iff in Hin as (y & Hy & Hin).
    apply Hf in Hy as ->. by apply Hx.
  - exact IH.
Qed.

(** *** Tokens *)

Lemma of_list_snoc l c s :
  string_of_list_ascii (l ++ [c]) +:+ s
  = string_of_list_ascii l +:+ String c s.
Proof. induction l as [|x l IH]; simpl; [done|]. by rewrite IH. Qed.

Lemma run_str_cons c run s :
  run_str (c :: run) +:+ s = run_str run +:+ String c s.
Proof. unfold run_str. cbn [rev]. apply of_list_snoc. Qed.

Lemma of_list_length l : String.length (string_of_list_ascii l) = length l.
Proof. induction l as [|x l IH]; simpl; [done|]. by rewrite IH. Qed.

Lemma run_str_length run : String.length (run_str run) = length run.
Proof. unfold run_str. by rewrite of_list_length, List.length_rev. Qed.

Lemma flush_token run tok :
  Str.all Char.is_gid_char (run_str run) = true ->
  In tok (Re.flush run) ->
  tok = run_str run /\ 26 <= String.length tok.
Proof.
  intros Hall. unfold Re.flush.
  destruct (Nat.leb_spec 26 (length run)) as [Hle|]; [|done].
  intros [<-|[]]. split; [done|]. fold (run_str run).
  by rewrite run_str_length.
Qed.

(** A match of the pattern: at least 26 characters of the class, found in
    the text. *)
Lemma findall_from_token run s tok :
  Str.all Char.is_gid_char (run_str run) = true ->
  In tok (Re.findall_from run s) ->
  26 <= String.length tok
  /\ Str.all Char.is_gid_char tok = true
  /\ exists a b, run_str run +:+ s = a +:+ tok +:+ b.
Proof.
  revert run. induction s as [|c s IH]; intros run Hall; cbn [Re.findall_from].
  - intros Hin. destruct (flush_token _ _ Hall Hin) as [-> Hlen].
    split; [done|]. split; [done|]. exists "", "". simpl.
    by rewrite !ScanFacts.str_app_empty_r.
  - destruct (Char.is_gid_char c) eqn:Ec.
    + intros Hin. rewrite <- run_str_cons. apply IH; [|done].
      rewrite <- (ScanFacts.str_app_empty_r (run_str (c :: run))).
      rewrite run_str_cons, AnchorFacts.all_app, Hall. simpl.
      by rewrite Ec.
    + intros Hin. apply List.in_app_iff in Hin as [Hin|Hin].
      * destruct (flush_token _ _ Hall Hin) as [-> Hlen].
        split; [done|]. split; [done|]. by exists "", (String c s).
      * destruct (IH [] eq_refl Hin) as (Hlen & Htok & a & b & Hs).
        split; [done|]. split; [done|].
        exists (run_str run +:+ String c a), b.
        change (run_str [] +:+ s) with s in Hs. rewrite Hs.
        rewrite ScanFacts.str_app_assoc. done.
Qed.

Lemma rewritten_pair event_links k url name :
  In (Pair url name) (rewritten event_links k) ->
  exists href gid,
    In href event_links /\ Str.contains colab_marker href = true
    /\ GID_PAT href = [gid] /\ url = colab_url gid.
Proof.
  revert k. induction event_links as [|u rest IH]; intros k; [done|].
  assert (Hrest : In (Pair url name) (rewritten rest k) \/
                  In (Pair url name) (rewritten rest (k + 1)) ->
            exists href gid, In href (u :: rest)
              /\ Str.contains colab_marker href = true
              /\ GID_PAT href = [gid] /\ url = colab_url gid).
  { intros [H|H]; destruct (IH _ H) as (href & gid & Hin & Hrest);
      exists href, gid; (split; [by right|done]). }
  destruct (link_cases u) as [H|[[H (tok & Ht)]|[H Hn]]].
  - rewrite (rewritten_tag _ _ _ H). intros [[=]|Hin]. apply Hrest. by left.
  - rewrite (ScanFacts.rewritten_one _ _ _ _ H Ht).
    intros [[= <- _]|Hin]; [|apply Hrest; by right].
    exists u, tok. split; [by left|done].
  - rewrite (ScanFacts.rewritten_skip _ _ _ H Hn). intros Hin.
    apply Hrest. by left.
Qed.

End HomeworkFacts.

(** X10.  The scan of the homework links never fails and leaves the file
    system alone; every link goes one way: it becomes one directive or it
    is reported by one line.  The links without the notebook marker are
    passed on as anchors, all of them and in their order, and the counter
    ends as the number of notebooks. *)
Theorem homework_links_accounted (event_links : list string) (w : world) :
  exists hw_links colabs lines,
    scan_events event_links [] 0 w
    = (Return (hw_links, colabs), World (fs w) (log w ++ lines))
    /\ length hw_links + length lines = length event_links
    /\ HomeworkDefs.anchors hw_links
       = List.filter (fun u => negb (Str.contains colab_marker u)) event_links
    /\ length (HomeworkDefs.notebook_names hw_links) = colabs.
Proof.
  rewrite ScanFacts.scan_events_closed. cbn [List.app].
  eexists _, _, _. split; [reflexivity|].
  split; [apply HomeworkFacts.scan_lengths|].
  split; [apply HomeworkFacts.scan_anchors|].
  rewrite HomeworkFacts.scan_names.
  by rewrite List.length_map, List.length_seq.
Qed.

(** X11.  The notebooks of a row get the names [CS224W_Colab_0.ipynb],
    [CS224W_Colab_1.ipynb], ... in their order, and these names are
    pairwise different: no notebook of a row is saved over another one. *)
Theorem notebook_names_are_distinct (event_links : list string) (w : world) :
  exists hw_links colabs w',
    scan_events event_links [] 0 w = (Return (hw_links, colabs), w')
    /\ HomeworkDefs.notebook_names hw_links
       = List.map colab_name (List.seq 0 colabs)
    /\ List.NoDup (HomeworkDefs.notebook_names hw_links)
    /\ forall n m, colab_name n = colab_name m -> n = m.
Proof.
  rewrite ScanFacts.scan_events_closed. cbn [List.app].
  eexists _, _, _. split; [reflexivity|].
  rewrite HomeworkFacts.scan_names. split; [done|]. split.
  - apply HomeworkFacts.NoDup_map_inj; [apply HomeworkFacts.colab_name_inj|].
    apply List.seq_NoDup.
  - apply HomeworkFacts.colab_name_inj.
Qed.

(** X12.  The download URL of a rewritten notebook carries an id that was
    read off its link: the link has the notebook marker, the id is the one
    match of the pattern in it, a run of at least 26 letters, digits,
    underscores and hyphens that occurs in the link. *)
Theorem rewritten_url_carries_id (event_links : list string)
    (hw_links : list link) (colabs : nat) (w w' : world) (url name : string)
    (Hscan : scan_events event_links [] 0 w
             = (Return (hw_links, colabs), w'))
    (Hin : In (Pair url name) hw_links) :
  exists href gid,
    In href event_links
    /\ Str.contains colab_marker href = true
    /\ GID_PAT href = [gid]
    /\ url = colab_url gid
    /\ 26 <= String.length gid
    /\ Str.all Char.is_gid_char gid = true
    /\ HomeworkDefs.occurs_in gid href.
Proof.
  rewrite ScanFacts.scan_events_closed in Hscan. cbn [List.app] in Hscan.
  injection Hscan as <- _ _.
  apply HomeworkFacts.rewritten_pair in Hin
    as (href & gid & Hhref & Hmarker & Hgid & ->).
  exists href, gid. do 4 (split; [done|]).
  assert (Htok : In gid (Re.findall_from [] href)).
  { change (In gid (GID_PAT href)). rewrite Hgid. by left. }
  apply (HomeworkFacts.findall_from_token [] href gid eq_refl) in Htok
    as (Hlen & Hall & a & b & Hs).
  split; [done|]. split; [done|]. by exists a, b.
Qed.

Lemma rewritten_url_carries_id_witness :
  exists href gid,
    In href [notebook_example_1]
    /\ Str.contains colab_marker href = true
    /\ GID_PAT href = [gid]
    /\ colab_url "1Aa8nQ3Xp-abcdefghijklmnopqrstuvwxyz" = colab_url gid
    /\ 26 <= String.length gid
    /\ Str.all Char.is_gid_char gid = true
    /\ HomeworkDefs.occurs_in gid href.
Proof.
  apply (rewritten_url_carries_id [notebook_example_1]
           [Pair (colab_url "1Aa8nQ3Xp-abcdefghijklmnopqrstuvwxyz")
                 (colab_name 0)]
           1 (World ∅ []) (World ∅ []) _ (colab_name 0)).
  - reflexivity.
  - by left.
Defined.

(** ** The directory of a row *)

(** X13.  The directory of a row is [course] in the output directory, and
    below it the slug as one single component: the slug has no slash, so it
    is never read as an absolute path or as several levels.  A slug that is
    empty or a dot adds nothing: such a row works in [course] itself. *)
Theorem row_directory_is_one_level (outdir : Path) (cells : list Cell) :
  let s := slug (get_text (List.nth 1 cells (MkCell "" []))) in
  Str.all NameDefs.no_slash s = true
  /\ row_directory outdir cells
     = MkPath (root outdir)
         (components outdir
          ++ "course" :: (if decide (s = "" \/ s = ".") then [] else [s])).
Proof.
  intros s. pose proof (JobFacts.slug_no_slash
                          (get_text (List.nth 1 cells (MkCell "" [])))) as Hs.
  fold s in Hs. split; [exact Hs|].
  unfold row_directory. fold s.
  assert (Hc : Pathlib.join outdir "course"
               = MkPath (root outdir) (components outdir ++ ["course"])).
  { apply AnchorFacts.join_name; done. }
  rewrite Hc. unfold Pathlib.joinpath, Pathlib.parse.
  rewrite (AnchorFacts.split_none "/" s Hs). cbn [root components].
  assert (Hroot : Pathlib.splitroot s = "").
  { unfold Pathlib.splitroot. destruct s as [|c s']; [done|].
    cbn [Str.all] in Hs. apply andb_true_iff in Hs as [Hc' _].
    unfold NameDefs.no_slash, Char.eqb in Hc'.
    apply negb_true_iff, Ascii.eqb_neq in Hc'.
    cbn [Str.prefixb]. unfold Char.eqb.
    destruct (Ascii.eqb_spec "/" c) as [E|E]; [congruence|done]. }
  rewrite Hroot. cbn [String.eqb]. rewrite <- List.app_assoc.
  cbn [List.app List.filter]. unfold Pathlib.is_component.
  destruct (String.eqb_spec s "") as [E1|E1];
    destruct (String.eqb_spec s ".") as [E2|E2]; cbn [negb andb];
    destruct (decide (s = "" \/ s = ".")) as [H|H]; try done; tauto.
Qed.

(** ** The whole run *)

Module MainFacts.

Import RootDefs Job.

Lemma find_root_fuel k (m : gmap Path node) p fuel :
  has_marker m (ancestor k p) = true -> k < fuel ->
  exists r, find_root fuel m p = Some r.
Proof.
  revert p fuel. induction k as [|k IH]; intros p [|fuel] Hm Hlt; try lia.
  - rewrite RootFacts.find_root_step. simpl in Hm. rewrite Hm. by eexists.
  - rewrite RootFacts.find_root_step.
    destruct (has_marker m p); [by eexists|].
    apply IH; [|lia]. by rewrite RootFacts.ancestor_parent.
Qed.

Section WithClient.

Variable urljoin : string -> string -> string.
Variable soup : string -> page.
Variable client : Client.

#[local] Abbreviation run_step := (Job.run_step urljoin client).
#[local] Abbreviation run_steps := (Job.run_steps urljoin client).
#[local] Abbreviation step_write := (Job.step_write urljoin client).

(** [main] once the page is there. *)
Lemma main_fetched get file fuel sched w status page_html :
  get BASE_URL = Response status page_html -> is_success status = true ->
  main urljoin soup get client file fuel sched w
  = let w1 := World (fs w) (log w ++ [Requested BASE_URL]) in
    match find_root fuel (fs w) (Pathlib.parent file) with
    | None => None
    | Some outdir =>
        match soup page_html with
        | NoTable =>
            Some (Finished tt,
                  World (fs w) (log w1 ++ [Printed "Table not found."]))
        | NoBody => Some (Crashed AttributeError, w1)
        | Rows rows =>
            match Job.gather urljoin client rows outdir sched w1 with
            | (Return _, w2) => Some (Finished tt, w2)
            | (Raise e, w2) => Some (Crashed (Uncaught e), w2)
            end
        end
    end.
Proof. intros Hget Hok. unfold main, fetch. by rewrite Hget, Hok. Qed.

(** The steps of the rows, in any order. *)
Lemma merge_in sched rows outdir s :
  In s (merge sched (List.map (row_steps outdir) rows)) ->
  exists cells, In cells rows /\ In s (row_steps outdir cells).
Proof.
  intros Hin.
  apply (Permutation_in _ (JobFacts.merge_perm sched _)) in Hin.
  apply List.in_concat in Hin as (t & Ht & Hs).
  apply List.in_map_iff in Ht as (cells & <- & Hc). by exists cells.
Qed.

(** The writes in the log of a step are the write of the step. *)
Lemma plan_events_wrote p q c :
  (forall e, In e (fst p) -> forall q' c', e <> Wrote q' c') ->
  In (Wrote q c) (PlanDefs.plan_events p) -> snd p = Return (q, c).
Proof.
  destruct p as [evs [[q' c']|e]]; cbn [PlanDefs.plan_events fst snd];
    intros Hevs Hin.
  - apply List.in_app_iff in Hin as [Hin|[[= -> ->]|[]]]; [|done].
    by destruct (Hevs _ Hin q c).
  - by destruct (Hevs _ Hin q c).
Qed.

Lemma file_plan_events url dest_path e :
  In e (fst (PlanDefs.file_plan client url dest_path)) ->
  forall q c, e <> Wrote q c.
Proof.
  unfold PlanDefs.file_plan.
  destruct (String.eqb (Pathlib.suffix dest_path) ".html").
  - destruct (Pathlib.with_suffix dest_path ".md"); cbn [fst];
      intros [<-|[]]; done.
  - destruct (client url) as [st body|]; [destruct (is_success st)|];
      [|destruct (Pathlib.with_suffix dest_path ".md")|]; cbn [fst];
      intros [<-|[<-|[]]]; done.
Qed.

Lemma anomalies_printed links q c :
  ~ In (Wrote q c) (ScanDefs.anomalies links).
Proof.
  induction links as [|u links IH]; [intros H; exact H|].
  cbn [ScanDefs.anomalies].
  intros Hin. apply List.in_app_iff in Hin as [Hin|Hin]; [|done].
  destruct (_ && _); [by destruct Hin as [[=]|[]]|done].
Qed.

Lemma run_step_wrote s w q c :
  (forall lines, s = Report lines -> ~ In (Wrote q c) lines) ->
  In (Wrote q c) (log (snd (run_step s w))) ->
  In (Wrote q c) (log w) \/ step_write s = Some (q, c).
Proof.
  intros Hrep. destruct s as [d|to l|lines|d]; cbn [Job.run_step].
  - cbv beta iota zeta delta [mbind M_bind mret M_ret set_fs print emit].
    cbn [fs log snd]. intros Hin.
    apply List.in_app_iff in Hin as [Hin|[[=]|[]]]. by left.
  - rewrite RowFacts.download_link_run. cbn [snd log]. intros Hin.
    apply List.in_app_iff in Hin as [Hin|Hin]; [by left|]. right.
    apply plan_events_wrote in Hin.
    + cbn [Job.step_write]. by rewrite Hin.
    + intros e. apply file_plan_events.
  - cbn [snd log]. intros Hin. left.
    apply List.in_app_iff in Hin as [Hin|Hin]; [done|].
    by destruct (Hrep lines eq_refl).
  - cbv beta iota zeta delta [mbind M_bind mret M_ret set_fs get_fs].
    destruct (Fs.iterdir (fs w) d); cbn [log snd]; auto.
Qed.

Lemma run_steps_wrote ss w q c :
  (forall lines, In (Report lines) ss -> ~ In (Wrote q c) lines) ->
  In (Wrote q c) (log (snd (run_steps ss w))) ->
  In (Wrote q c) (log w)
  \/ exists s, In s ss /\ step_write s = Some (q, c).
Proof.
  revert w. induction ss as [|s ss IH]; intros w Hrep; [by left|].
  rewrite StepFacts.run_steps_step.
  assert (Hs : forall lines, s = Report lines -> ~ In (Wrote q c) lines).
  { intros lines ->. apply Hrep. by left. }
  pose proof (run_step_wrote s w q c Hs) as Hstep.
  destruct (run_step s w) as [[[]|e] w1]; cbn [snd] in *.
  - intros Hin. destruct (IH w1) as [H|(s' & Hs' & Hw)]; [|done| |].
    + intros lines Hl. apply Hrep. by right.
    + destruct (Hstep H) as [H'|H']; [by left|].
      right. exists s. split; [by left|done].
    + right. exists s'. split; [by right|done].
  - intros Hin. destruct (Hstep Hin) as [H'|H']; [by left|].
    right. exists s. split; [by left|done].
Qed.

Lemma row_steps_report outdir cells lines q c :
  In (Report lines) (row_steps outdir cells) -> ~ In (Wrote q c) lines.
Proof.
  unfold row_steps. destruct (length cells <? 2); [done|].
  rewrite !List.in_app_iff, !List.in_map_iff.
  intros [[[=]|[]]|[(l & [=] & _)|[(l & [=] & _)|[[[= <-]|[]]
           |[(l & [=] & _)|[[=]|[]]]]]]].
  apply anomalies_printed.
Qed.

(** The directory of a row is [course] or a directory in it. *)
Lemma under_course outdir cells q :
  let course := MkPath (root outdir) (components outdir ++ ["course"]) in
  (DirDefs.under (row_directory outdir cells) q -> DirDefs.under course q)
  /\ (q ∈ Fs.chain (row_directory outdir cells) ->
      q ∈ Fs.chain course \/ DirDefs.under course q).
Proof.
  intros course.
  destruct (JobFacts.row_directory_shape outdir cells) as (t & Ht & ->).
  destruct t as [|x [|y t]]; [| |simpl in Ht; lia].
  - split; [done|]. by left.
  - change (components outdir ++ ["course"; x])
      with (components outdir ++ ["course"] ++ [x]).
    rewrite List.app_assoc. split.
    + intros [Hr (u & Hu & Hq)]. split; [done|]. cbn [components] in *.
      exists (x :: u). split; [done|]. by rewrite Hq, <- List.app_assoc.
    + rewrite StepFacts.chain_snoc. intros [H| ->]; [by left|]. right.
      split; [done|]. by exists [x].
Qed.

End WithClient.

End MainFacts.

(** X14.  When the request for the schedule page is not answered with a
    success status, [main] stops there: a redirect or an error status
    raises [HTTPStatusError] out of [fetch], since this request does not
    follow redirects and nothing catches the error, and a transport failure
    goes through as well.  Nothing is written, nothing is printed and the
    project root is not even looked for. *)
Theorem main_stops_when_page_fetch_fails
    (urljoin : string -> string -> string) (soup : string -> page)
    (get client : Client) (file : Path) (fuel : nat) (sched : list nat)
    (w : world)
    (Hfail : match get BASE_URL with
             | Response status _ => status < 200 \/ 299 < status
             | ConnectError => True
             end) :
  main urljoin soup get client file fuel sched w
  = Some (Crashed (match get BASE_URL with
                   | Response _ _ => HTTPStatusError
                   | ConnectError => Uncaught TransportError
                   end),
          World (fs w) (log w ++ [Requested BASE_URL])).
Proof.
  unfold main, fetch. destruct (get BASE_URL) as [status text|]; [|done].
  by rewrite (StubFacts.not_success _ Hfail).
Qed.

Lemma main_stops_when_page_fetch_fails_witness :
  main urljoin_absolute one_row_page moved echo
       (Pathlib.parse "/repo/src/scrape.py") 0 [] (World checkout [])
  = Some (Crashed HTTPStatusError, World checkout [Requested BASE_URL]).
Proof.
  apply (main_stops_when_page_fetch_fails urljoin_absolute one_row_page
           moved echo (Pathlib.parse "/repo/src/scrape.py") 0 []
           (World checkout [])).
  right. vm_compute. lia.
Defined.

(** X15.  The project root is looked for before the table: with the page
    fetched and the marker in some directory above the script, a page
    without table makes [main] print [Table not found.] and return, leaving
    the file system as it was, and a table without [tbody] makes it fail
    with an [AttributeError], without a message; but when no directory above
    the script holds the marker, [main] does not get to either: the search
    does not return. *)
Theorem missing_table_reported_after_root_search
    (urljoin : string -> string -> string) (soup : string -> page)
    (get client : Client) (file : Path) (sched : list nat) (w : world)
    (status : nat) (page_html : string)
    (Hpage : get BASE_URL = Response status page_html)
    (Hok : 200 <= status <= 299) :
  let start := Pathlib.parent file in
  (forall k fuel,
      RootDefs.has_marker (fs w) (RootDefs.ancestor k start) = true ->
      k < fuel ->
      (soup page_html = NoTable ->
       main urljoin soup get client file fuel sched w
       = Some (Finished tt,
               World (fs w)
                     (log w ++ [Requested BASE_URL;
                                Printed "Table not found."])))
      /\ (soup page_html = NoBody ->
          main urljoin soup get client file fuel sched w
          = Some (Crashed AttributeError,
                  World (fs w) (log w ++ [Requested BASE_URL]))))
  /\ ((forall k,
          RootDefs.has_marker (fs w) (RootDefs.ancestor k start) = false) ->
      forall fuel, main urljoin soup get client file fuel sched w = None).
Proof.
  intros start. pose proof (FileFacts.success _ Hok) as Hs. split.
  - intros k fuel Hk Hlt.
    destruct (MainFacts.find_root_fuel k (fs w) start fuel Hk Hlt)
      as (r & Hr).
    rewrite (MainFacts.main_fetched urljoin soup client get file fuel sched
               w status page_html Hpage Hs).
    cbv zeta. fold start. rewrite Hr. split; intros ->; [|done].
    cbn [log]. by rewrite <- List.app_assoc.
  - intros Hnone fuel.
    rewrite (MainFacts.main_fetched urljoin soup client get file fuel sched
               w status page_html Hpage Hs).
    cbv zeta. fold start.
    by rewrite (RootFacts.find_root_none fuel (fs w) start Hnone).
Qed.

Lemma missing_table_reported_after_root_search_witness :
  main urljoin_absolute no_table_page always_ok echo
       (Pathlib.parse "/repo/src/scrape.py") 2 [] (World checkout [])
  = Some (Finished tt,
          World checkout [Requested BASE_URL; Printed "Table not found."]).
Proof.
  refine (proj1 (proj1 (missing_table_reported_after_root_search
                          urljoin_absolute no_table_page always_ok echo
                          (Pathlib.parse "/repo/src/scrape.py") []
                          (World checkout []) 200 "<html></html>" _ _)
                   1 2 _ _) _).
  - reflexivity.
  - lia.
  - reflexivity.
  - lia.
  - reflexivity.
Defined.





(** ** More on directives and slugs *)

(** X18.  An anchor whose URL ends in a component with a suffix other than
    [.html] is requested, and on a success status the body is saved in the
    bucket under that last component of the URL, taken from the whole URL:
    a query string stays in the file name. *)
Theorem anchor_saved_under_url_name (urljoin : string -> string -> string)
    (client : Client) (to : Path) (href : string) (status : nat)
    (body : string) (w : world)
    (Hsuffix : Pathlib.suffix (Pathlib.parse (urljoin BASE_URL href)) <> "")
    (Hhtml : Pathlib.suffix (Pathlib.parse (urljoin BASE_URL href))
             <> ".html")
    (Hresp : client (urljoin BASE_URL href) = Response status body)
    (Hok : 200 <= status <= 299) :
  let url := urljoin BASE_URL href in
  let dest :=
    MkPath (root to) (components to ++ [Pathlib.name (Pathlib.parse url)]) in
  exists w',
    download_link urljoin client to (Tag href) w = (Return tt, w')
    /\ fs w' !! dest = Some (File body)
    /\ log w'
       = log w ++ [Printed (url +:+ " --> " +:+ Pathlib.str dest);
                   Requested url; Wrote dest body].
Proof.
  intros url dest. subst url.
  pose proof (JobFacts.tag_name_simple urljoin href) as Hsimple.
  assert (Hn : PlanDefs.link_name urljoin (Tag href)
               = Pathlib.name (Pathlib.parse (urljoin BASE_URL href))).
  { unfold PlanDefs.link_name.
    by rewrite (PathFacts.eqb_neq _ _ Hsuffix). }
  rewrite (DirectiveFacts.download_link_simple _ _ _ _ _ Hsimple).
  rewrite Hn. cbn [PlanDefs.link_url]. fold dest.
  assert (Hds : Pathlib.suffix dest <> ".html").
  { unfold Pathlib.suffix, dest. by rewrite PathFacts.name_snoc. }
  rewrite DownloadFacts.download_file_plan.
  rewrite (FileFacts.file_plan_success _ _ _ _ _ Hds Hresp Hok).
  eexists. split; [reflexivity|]. cbn [fs log]. unfold Fs.write.
  split; [apply lookup_insert_eq|done].
Qed.

Lemma anchor_saved_under_url_name_witness :
  exists w',
    download_link urljoin_absolute echo
      (Pathlib.parse "/repo/course/1-intro/slides")
      (Tag "https://a.example/one.pdf?download=1") (World ∅ [])
    = (Return tt, w')
    /\ fs w' !! MkPath "/" ["repo"; "course"; "1-intro"; "slides";
                            "one.pdf?download=1"]
       = Some (File "https://a.example/one.pdf?download=1").
Proof.
  destruct (anchor_saved_under_url_name urljoin_absolute echo
              (Pathlib.parse "/repo/course/1-intro/slides")
              "https://a.example/one.pdf?download=1" 200
              "https://a.example/one.pdf?download=1" (World ∅ []))
    as (w' & Hrun & Hfile & _).
  - vm_compute. congruence.
  - vm_compute. congruence.
  - reflexivity.
  - lia.
  - exists w'. split; [exact Hrun|]. exact Hfile.
Defined.

(** X19.  A bucket stops at the first directive that raises: the directives
    after it are not processed, and the bucket ends with the exception and
    in the state of that directive. *)
Theorem bucket_stops_at_first_failure (urljoin : string -> string -> string)
    (client : Client) (to : Path) (pre post : list link) (l : link)
    (w w1 w2 : world) (e : exn)
    (Hpre : bulk_download urljoin pre to client w = (Return tt, w1))
    (Hl : download_link urljoin client to l w1 = (Raise e, w2)) :
  bulk_download urljoin (pre ++ l :: post) to client w = (Raise e, w2)
  /\ bulk_download urljoin (pre ++ [l]) to client w = (Raise e, w2).
Proof.
  rewrite !RowFacts.bulk_download_app. unfold mbind, M_bind.
  rewrite Hpre. cbn [bulk_download]. unfold mbind, M_bind.
  by rewrite Hl.
Qed.

Lemma bucket_stops_at_first_failure_witness :
  bulk_download urljoin_absolute
    ([] ++ Pair "https://a.example/one.pdf" "one.pdf"
        :: [Pair "https://a.example/two.pdf" "two.pdf"])
    (Pathlib.parse "/repo/course/1-intro/slides") unreachable (World ∅ [])
  = (Raise TransportError,
     snd (download_link urljoin_absolute unreachable
            (Pathlib.parse "/repo/course/1-intro/slides")
            (Pair "https://a.example/one.pdf" "one.pdf") (World ∅ []))).
Proof.
  refine (proj1 (bucket_stops_at_first_failure urljoin_absolute unreachable
                   (Pathlib.parse "/repo/course/1-intro/slides") []
                   [Pair "https://a.example/two.pdf" "two.pdf"]
                   (Pair "https://a.example/one.pdf" "one.pdf")
                   (World ∅ []) (World ∅ []) _ TransportError _ _)).
  - reflexivity.
  - reflexivity.
Defined.

(** X20.  A slug is safe as a directory name: it has no newline, no space,
    no slash and no capital letter, and no white space at either end. *)
Theorem slug_is_settled (description : string) :
  Str.all SlugDefs.settled (slug description) = true
  /\ SlugDefs.stripped (slug description).
Proof.
  rewrite SlugFacts.slug_finish. split.
  - apply SlugFacts.finish_settled.
  - apply SlugFacts.finish_stripped.
Qed.
